(** * posixread: reading an exact number of bytes from a socket's descriptor

    A shallow embedding of the native addon (the asynchronous
    [PosixReadWorker] version and the earlier synchronous [Read]) over an
    explicit model of the descriptor, and the properties of the bounded
    read loop, the blocking-mode guard and the argument checks. *)

From Stdlib Require Import ZArith QArith List String Ascii Lia.
From stdpp Require Import base list gmap strings.

#[local] Open Scope string_scope.
#[local] Open Scope list_scope.
#[local] Open Scope Z_scope.

(** ** The platform: macros and libc tables the sources take from headers *)

(** [O_NONBLOCK], [EINTR], [EAGAIN] and [strerror] come from <fcntl.h>,
    <errno.h> and <string.h>; they are parameters of the development.
    [O_NONBLOCK] is one flag bit of an [int], and the two error numbers are
    distinct, as POSIX requires. *)
Class Platform := {
  O_NONBLOCK : Z;
  EINTR : Z;
  EAGAIN : Z;
  strerror : Z -> string;
  O_NONBLOCK_bit : exists i, 0 <= i < 31 /\ O_NONBLOCK = 2 ^ i;
  EINTR_not_EAGAIN : EINTR <> EAGAIN
}.

(** ** Machine integers *)

(** [size_t] is unsigned and 64 bits wide on the LP64 targets of the addon. *)
Definition wrap_size_t (z : Z) : Z := z mod 2 ^ 64.

(** The cast [(uint32_t) size]. *)
Definition wrap_uint32 (z : Z) : Z := z mod 2 ^ 32.

(** A mathematical integer folded into the range of a signed 32-bit [int]. *)
Definition wrap_int32 (z : Z) : Z := (z + 2 ^ 31) mod 2 ^ 32 - 2 ^ 31.

(** ** JavaScript values, as far as the addon inspects them *)

(** A JavaScript number is a double: a finite value (every finite double is
    a rational), a NaN or an infinity. *)
Inductive number :=
| Fin (q : Q)
| NaN
| Inf (negative : bool).

#[warnings="-register-all"]
Inductive value :=
| VUndefined
| VNull
| VBool (b : bool)
| VNumber (n : number)
| VString (s : string)
| VBuffer (bytes : list Byte.byte)
| VFunction (name : string)
| VObject (constructor_name : string) (props : gmap string value).

(** [v->IsObject()]: functions are objects too. *)
Definition IsObject (v : value) : bool :=
  match v with
  | VObject _ _ | VFunction _ | VBuffer _ => true
  | _ => false
  end.

Definition IsNumber (v : value) : bool :=
  match v with VNumber _ => true | _ => false end.

Definition IsBoolean (v : value) : bool :=
  match v with VBool _ => true | _ => false end.

Definition IsFunction (v : value) : bool :=
  match v with VFunction _ => true | _ => false end.

(** [o->GetConstructorName()] *)
Definition GetConstructorName (v : value) : string :=
  match v with
  | VObject c _ => c
  | VFunction _ => "Function"
  | VBuffer _ => "Uint8Array"
  | _ => ""
  end.

(** [o->Has(key)] and [o->Get(key)] *)
Definition Has (o : value) (key : string) : bool :=
  match o with
  | VObject _ props => bool_decide (is_Some (props !! key))
  | _ => false
  end.

Definition Get (o : value) (key : string) : value :=
  match o with
  | VObject _ props => default VUndefined (props !! key)
  | _ => VUndefined
  end.

(** ECMAScript ToInt32 on a number: NaN and the infinities give 0, a finite
    number is truncated toward zero and reduced modulo 2^32 into the signed
    range. *)
Definition ToInt32 (n : number) : Z :=
  match n with
  | Fin q => wrap_int32 (Z.quot (Qnum q) (Z.pos (Qden q)))
  | NaN | Inf _ => 0
  end.

(** [Nan::To<int>(v).FromJust()].  The sources evaluate it on numbers only
    (behind an [IsNumber] test). *)
Definition To_int (v : value) : Z :=
  match v with VNumber n => ToInt32 n | _ => 0 end.

(** [Nan::To<bool>(v).FromJust()], evaluated on booleans only. *)
Definition To_bool (v : value) : bool :=
  match v with VBool b => b | _ => false end.

(** [info[i]]: an index past the arguments reads as [undefined]. *)
Definition arg (info : list value) (i : nat) : value :=
  default VUndefined (info !! i).

(** ** The descriptor and the process, as the system calls see them *)

(** What successive [read] calls on the descriptor will meet: a segment of
    bytes that has arrived (never empty), or a call that fails with the
    given [errno].  When the script is exhausted the peer has closed. *)
Inductive event :=
| Chunk (b : Byte.byte) (bs : list Byte.byte)
| Fail (errno : Z).

(** The system and library calls the worker makes, with their results. *)
Inductive call :=
| c_malloc (size : Z) (ok : bool)
| c_fcntl_getfl (fd : Z) (ret : Z)
| c_fcntl_setfl (fd : Z) (opts : Z) (ret : Z)
| c_read (fd : Z) (len : Z) (ret : Z)
| c_free
| c_SetErrorMessage (msg : string).

Record world := World {
  w_flags : Z;                   (* file status flags of the descriptor *)
  w_input : list event;          (* what [read] will meet *)
  w_fcntl : list (option Z);     (* per coming [fcntl] call: [Some e] fails with errno e *)
  w_malloc : option Z;           (* [Some e]: [malloc] returns NULL with errno e *)
  w_junk : nat -> Byte.byte;     (* contents of freshly allocated memory *)
  w_errno : Z;
  w_log : list call              (* calls made so far, latest first *)
}.

Definition log_call (c : call) (w : world) : world :=
  World (w_flags w) (w_input w) (w_fcntl w) (w_malloc w) (w_junk w) (w_errno w)
        (c :: w_log w).

Definition set_errno (e : Z) (w : world) : world :=
  World (w_flags w) (w_input w) (w_fcntl w) (w_malloc w) (w_junk w) e (w_log w).

Definition set_input (i : list event) (w : world) : world :=
  World (w_flags w) i (w_fcntl w) (w_malloc w) (w_junk w) (w_errno w) (w_log w).

Definition set_flags (f : Z) (w : world) : world :=
  World f (w_input w) (w_fcntl w) (w_malloc w) (w_junk w) (w_errno w) (w_log w).

Definition set_fcntl (s : list (option Z)) (w : world) : world :=
  World (w_flags w) (w_input w) s (w_malloc w) (w_junk w) (w_errno w) (w_log w).

(** The calls in the order they were made. *)
Definition trace (w : world) : list call := rev (w_log w).

(** [malloc(size)]: NULL, or a region of [size] bytes of unspecified
    contents. *)
Definition sys_malloc (w : world) (size : Z) : option (list Byte.byte) * world :=
  match w_malloc w with
  | Some e => (None, log_call (c_malloc size false) (set_errno e w))
  | None => (Some (map (w_junk w) (seq 0 (Z.to_nat size))),
             log_call (c_malloc size true) w)
  end.

Definition sys_free (w : world) : world := log_call c_free w.

(** The errno of the [i]-th coming [fcntl] call, if that call fails; past
    the end of the script every call succeeds. *)
Definition fcntl_fails (w : world) (i : nat) : option Z :=
  default None (w_fcntl w !! i).

(** The script once a call has taken its first entry. *)
Definition pop_fcntl (w : world) : world := set_fcntl (tail (w_fcntl w)) w.

Definition next_fcntl (w : world) : option Z * world :=
  (fcntl_fails w 0, pop_fcntl w).

(** [fcntl(fd, F_GETFL)] *)
Definition fcntl_getfl (w : world) (fd : Z) : Z * world :=
  match next_fcntl w with
  | (Some e, w1) => (-1, log_call (c_fcntl_getfl fd (-1)) (set_errno e w1))
  | (None, w1) => (w_flags w1, log_call (c_fcntl_getfl fd (w_flags w1)) w1)
  end.

(** [fcntl(fd, F_SETFL, opts)] *)
Definition fcntl_setfl (w : world) (fd : Z) (opts : Z) : Z * world :=
  match next_fcntl w with
  | (Some e, w1) => (-1, log_call (c_fcntl_setfl fd opts (-1)) (set_errno e w1))
  | (None, w1) => (0, log_call (c_fcntl_setfl fd opts 0) (set_flags opts w1))
  end.

(** [read(fd, buf, len)]: the number returned, the bytes stored at [buf],
    and the world afterwards.  A call never returns more than [len] bytes;
    what it leaves of a segment stays for the next reader. *)
Definition sys_read (w : world) (fd : Z) (len : Z)
  : Z * list Byte.byte * world :=
  match w_input w with
  | [] => (0, [], log_call (c_read fd len 0) w)
  | Fail e :: rest =>
      (-1, [], log_call (c_read fd len (-1)) (set_errno e (set_input rest w)))
  | Chunk b bs :: rest =>
      let got := take (Z.to_nat len) (b :: bs) in
      let n := Z.of_nat (length got) in
      let rest' := match drop (Z.to_nat len) (b :: bs) with
                   | [] => rest
                   | b' :: bs' => Chunk b' bs' :: rest
                   end in
      (n, got, log_call (c_read fd len n) (set_input rest' w))
  end.



(** The bytes the descriptor still holds for its readers. *)
Definition event_bytes (e : event) : list Byte.byte :=
  match e with
  | Chunk b bs => b :: bs
  | Fail _ => []
  end.

Definition pending_bytes (evs : list event) : list Byte.byte :=
  concat (map event_bytes evs).

(** ** Formatting *)

(** [snprintf(msg, sizeof(msg), ...)] into [char msg[256]] keeps at most 255
    characters. *)
Fixpoint truncate (n : nat) (s : string) : string :=
  match n, s with
  | S n', String c s' => String c (truncate n' s')
  | _, _ => ""
  end.

Definition snprintf_256 (s : string) : string := truncate 255 s.

Definition digit (d : Z) : ascii := ascii_of_nat (48 + Z.to_nat d).

Fixpoint fmt_digits (fuel : nat) (n : Z) : string :=
  match fuel with
  | O => ""
  | S f =>
      if n <? 10 then String (digit n) ""
      else fmt_digits f (n / 10) +:+ String (digit (n mod 10)) ""
  end.

(** The conversion [%lu] of an [unsigned long] (at most 20 digits). *)
Definition fmt_lu (n : Z) : string := fmt_digits 20 (n mod 2 ^ 64).


(** The store [&data[count]] of the bytes a [read] returned. *)
Definition write_at (data : list Byte.byte) (count : Z) (bytes : list Byte.byte)
  : list Byte.byte :=
  take (Z.to_nat count) data ++ bytes
    ++ drop (Z.to_nat count + length bytes) data.

(** ** ErrorWithProperty *)

(** [const err = new Error(message); err[property] = true;]  The map holds
    the two properties that the addon gives the object.  V8 adds its own to
    every [Error] (an own [stack], and what [Error.prototype] brings); the
    addon reads none of them and none is named [message], [badStream],
    [endOfFile] or [systemError]: they are left out. *)
Definition ErrorWithProperty (property : string) (message : string) : value :=
  VObject "Error" (<[property := VBool true]> {["message" := VString message]}).

(** ** Calls of the JavaScript callback *)

(** [callback->Call(argc, argv)]: one invocation of the callback, with its
    arguments.  A function of the addon yields the invocations it makes, in
    the order it makes them. *)
Definition Call (argv : list value) : list (list value) := [argv].

(** ** The worker: [class PosixReadWorker : public Nan::AsyncWorker] *)

Module PosixReadWorker.

(** The fields of the class, and [errmsg], the message that
    [Nan::AsyncWorker] keeps ([SetErrorMessage] stores a copy of its
    argument, [ErrorMessage] returns it, NULL until one is set). *)
Record t := Worker {
  fd : Z;
  fd_was_non_blocking : bool;
  size : Z;
  data : list Byte.byte;
  error_prop : option string;
  errmsg : option string
}.

(** [PosixReadWorker(callback, fd, size)].  The constructor leaves
    [fd_was_non_blocking] and [data] indeterminate; [indet] stands for the
    former. *)
Definition new (indet : bool) (fd size : Z) : t :=
  Worker fd indet size [] None None.

Definition set_fd_was_non_blocking (b : bool) (k : t) : t :=
  Worker (fd k) b (size k) (data k) (error_prop k) (errmsg k).

Definition set_data (d : list Byte.byte) (k : t) : t :=
  Worker (fd k) (fd_was_non_blocking k) (size k) d (error_prop k) (errmsg k).

Definition set_error_prop (p : string) (k : t) : t :=
  Worker (fd k) (fd_was_non_blocking k) (size k) (data k) (Some p) (errmsg k).

Definition SetErrorMessage (msg : string) (k : t) : t :=
  Worker (fd k) (fd_was_non_blocking k) (size k) (data k) (error_prop k)
         (Some msg).

Definition ErrorMessage (k : t) : option string := errmsg k.

(** The three statements that record an error:
    [error_prop = prop; snprintf(msg, sizeof(msg), ...); SetErrorMessage(msg);]
    ([msg] is a static buffer that all workers share; one worker at a time
    is modelled here). *)
Definition record_error (prop : string) (text : string) (w : world) (k : t)
  : world * t :=
  let msg := snprintf_256 text in
  (log_call (c_SetErrorMessage msg) w,
   SetErrorMessage msg (set_error_prop prop k)).

(** How many iterations the loop can make on a script: a call that does not
    end the loop takes a failure or at least one byte off the script. *)
Definition script_weight (evs : list event) : nat :=
  (length evs + length (pending_bytes evs))%nat.

Section Methods.
Context {P : Platform}.

(** Set the socket blocking, if it was not. *)
Definition SetBlocking (w : world) (k : t) : Z * world * t :=
  let '(opts, w1) := fcntl_getfl w (fd k) in
  if opts =? -1 then (-1, w1, k)
  else
    let k1 := set_fd_was_non_blocking (negb (Z.land opts O_NONBLOCK =? 0)) k in
    if fd_was_non_blocking k1 then
      let opts := Z.land opts (Z.lnot O_NONBLOCK) in
      let '(r, w2) := fcntl_setfl w1 (fd k1) opts in
      if r =? -1 then (-1, w2, k1) else (0, w2, k1)
    else (0, w1, k1).

(** Reset the socket like in the mode (blocking vs. non-blocking) it was. *)
Definition UnsetBlocking (w : world) (k : t) : Z * world :=
  if fd_was_non_blocking k then
    let '(opts, w1) := fcntl_getfl w (fd k) in
    if opts =? -1 then (-1, w1)
    else
      let opts := Z.lor opts O_NONBLOCK in
      let '(r, w2) := fcntl_setfl w1 (fd k) opts in
      if r =? -1 then (-1, w2) else (0, w2)
  else (0, w).

(** The [do ... while (count < size)] loop of [Execute].  [continue] in a
    do-while goes to the test of the condition.  [None]: the iterations
    allowed by [fuel] did not suffice. *)
Fixpoint read_loop (fuel : nat) (w : world) (k : t) (count : Z)
  : option (world * t * Z) :=
  match fuel with
  | O => None
  | S fuel =>
      let '(n, bytes, w1) := sys_read w (fd k) (wrap_size_t (size k - count)) in
      if n =? -1 then
        if w_errno w1 =? EINTR then
          if count <? size k then read_loop fuel w1 k count
          else Some (w1, k, count)
        else
          let '(w2, k1) := record_error "systemError"
                             ("read failed: " +:+ strerror (w_errno w1)) w1 k in
          Some (sys_free w2, k1, count)
      else if n =? 0 then
        let '(w2, k1) := record_error "endOfFile"
                           ("reached end of stream (read " +:+ fmt_lu count
                              +:+ " bytes)") w1 k in
        Some (sys_free w2, k1, count)
      else
        let k1 := set_data (write_at (data k) count bytes) k in
        let count := wrap_size_t (count + n) in
        if count <? size k then read_loop fuel w1 k1 count
        else Some (w1, k1, count)
  end.

(** [Execute()], run on the worker thread. *)
Definition Execute (w : world) (k : t) : option (world * t) :=
  let count := 0 in
  match sys_malloc w (size k) with
  | (None, w1) =>
      Some (record_error "systemError"
              ("malloc failed: " +:+ strerror (w_errno w1)) w1 k)
  | (Some region, w1) =>
      let k := set_data region k in
      let '(r, w2, k) := SetBlocking w1 k in
      if negb (r =? 0) then
        let '(w3, k) := record_error "systemError"
                          ("fnctl failed: " +:+ strerror (w_errno w2)) w2 k in
        Some (sys_free w3, k)
      else
        match read_loop (S (script_weight (w_input w2))) w2 k count with
        | None => None
        | Some (w3, k, _) =>
            let '(r, w4) := UnsetBlocking w3 k in
            if negb (r =? 0) then
              match ErrorMessage k with
              | None =>
                  let '(w5, k) :=
                    record_error "systemError"
                      ("fnctl failed: " +:+ strerror (w_errno w4)) w4 k in
                  Some (sys_free w5, k)
              | Some _ => Some (w4, k)
              end
            else Some (w4, k)
        end
  end.

End Methods.

(** The same loop and the same [Execute] over a [read] that may not return.
    [inr w]: the thread is in a [read] that does not return, the world
    being [w]; [None]: the iterations allowed by [fuel] did not suffice. *)
Section Waiting.
Context {P : Platform}.
Variable rd : world -> Z -> Z -> option (Z * list Byte.byte * world).



End Waiting.

(** [HandleOKCallback()]: [callback(null, buffer)], the buffer made of
    [data] and [(uint32_t) size]. *)
Definition HandleOKCallback (k : t) : list (list value) :=
  let buffer := VBuffer (take (Z.to_nat (wrap_uint32 (size k))) (data k)) in
  let argv := [VNull; buffer] in
  Call argv.

(** [HandleErrorCallback()]: [callback(error)].  [Execute] sets
    [error_prop] whenever it sets a message (lemma [error_prop_set]); a NULL
    property or message is rendered here as the empty string. *)
Definition HandleErrorCallback (k : t) : list (list value) :=
  let argv :=
    [ErrorWithProperty (default "" (error_prop k))
       (default "" (ErrorMessage k))] in
  Call argv.

(** [Nan::AsyncWorker::WorkComplete()], on the main loop once [Execute] has
    returned: the OK callback when no error message was set, the error
    callback otherwise.  The invocations of the callback are those of the
    handler it runs. *)
Definition WorkComplete (k : t) : list (list value) :=
  match ErrorMessage k with
  | None => HandleOKCallback k
  | Some _ => HandleErrorCallback k
  end.

End PosixReadWorker.

(** ** C strings *)

(** The string that a [char *] holds: the characters before the first NUL
    (the contents of a [Nan::Utf8String] may hold a NUL; the functions of
    [string.h] stop there). *)
Fixpoint c_str (s : string) : string :=
  match s with
  | "" => ""
  | String c s' => if Ascii.eqb c zero then "" else String c (c_str s')
  end.

(** [strcmp(a, b)]: 0 when the two C strings are equal, otherwise a number
    other than 0, here the difference of the first two bytes (as
    [unsigned char]) that differ.  The addons test the result against 0. *)
Fixpoint strcmp (a b : string) : Z :=
  match a, b with
  | "", "" => 0
  | "", String y _ => - Z.of_nat (nat_of_ascii y)
  | String x _, "" => Z.of_nat (nat_of_ascii x)
  | String x a', String y b' =>
      if Ascii.eqb x y then
        if Ascii.eqb x zero then 0 else strcmp a' b'
      else Z.of_nat (nat_of_ascii x) - Z.of_nat (nat_of_ascii y)
  end.

(** ** The checks of [Read] *)

(** Try to check a given argument is actually a [net.Socket] instance. *)
Definition LooksLikeASocket (object : value) : bool :=
  if negb (IsObject object) then false
  else if negb (strcmp "Socket" (GetConstructorName object) =? 0) then false
  else true.

(** Checks if the socket has the 'readable' property set to true. *)
Definition SocketIsReadable (socket : value) : bool :=
  if negb (Has socket "readable") then false
  else
    let value := Get socket "readable" in
    IsBoolean value && To_bool value.

(** Make sure the passed socket has a TCP handle with an associated fd.
    Returns the fd on success, or -1 in case of error. *)
Definition GetFdFromSocket (socket : value) : Z :=
  if negb (Has socket "_handle") then -1
  else
    let value := Get socket "_handle" in
    if negb (IsObject value) then -1
    else
      let handle := value in
      if negb (strcmp "TCP" (GetConstructorName handle) =? 0) then -1
      else if negb (Has handle "fd") then -1
      else
        let value := Get handle "fd" in
        if negb (IsNumber value) then -1
        else
          let fd := To_int value in
          if fd <? 0 then -1 else fd.

(** The three ways [Read] ends: an exception thrown to the caller; a return
    after invocations of the callback made inside [Read]; or a worker handed
    to [Nan::AsyncQueueWorker], no invocation having been made. *)
Inductive read_result :=
| Thrown (kind message : string)
| CalledBack (calls : list (list value))
| Queued (fd size : Z).

Definition Read (info : list value) : read_result :=
  if negb (length info =? 3)%nat then
    Thrown "TypeError" "wrong number of arguments"
  else if negb (LooksLikeASocket (arg info 0)) then
    Thrown "TypeError" "first argument should be a socket"
  else
    let socket := arg info 0 in
    if negb (IsNumber (arg info 1)) || (To_int (arg info 1) <=? 0) then
      Thrown "TypeError" "second argument should be a positive integer"
    else
      let size := wrap_size_t (To_int (arg info 1)) in
      if negb (IsFunction (arg info 2)) then
        Thrown "TypeError" "third argument should be a function"
      else if negb (SocketIsReadable socket) then
        let argv :=
          [ErrorWithProperty "badStream" "socket is not readable"] in
        CalledBack (Call argv)
      else
        let fd := GetFdFromSocket socket in
        if fd =? -1 then
          let argv :=
            [ErrorWithProperty "badStream"
               "malformed socket object, cannot get file descriptor"] in
          CalledBack (Call argv)
        else Queued fd size.

(** One call of the addon's [read] together with the work it queues: what
    was thrown, the invocations of the callback in order (those of [Read],
    then those of [WorkComplete] once [Execute] has returned), and the
    world afterwards.  [None]: [Execute] does not return. *)
Record run := Run {
  raised : option (string * string);
  callbacks : list (list value);
  after : world
}.

Definition posixRead {P : Platform} (info : list value) (indet : bool)
  (w : world) : option run :=
  match Read info with
  | Thrown kind message => Some (Run (Some (kind, message)) [] w)
  | CalledBack calls => Some (Run None calls w)
  | Queued fd size =>
      match PosixReadWorker.Execute w (PosixReadWorker.new indet fd size) with
      | None => None
      | Some (w', k) => Some (Run None (PosixReadWorker.WorkComplete k) w')
      end
  end.


(** ** The earlier, synchronous addon (src/cpp/posixread.cpp) *)

Module Historic.

(** How the synchronous [Read] ends: an exception thrown to the caller,
    [exit(EXIT_FAILURE)], or a value returned. *)
Inductive result :=
| Threw (kind message : string)
| Exited
| Returned (v : value).

(** Returns -1 if the first arg does not look like a net.Socket object,
    -2 if the file descriptor is not valid, -3 if the stream is not
    readable; -4 comes with a TypeError already thrown. *)
Definition get_fd_from_socket (object : value) : Z * option (string * string) :=
  let no_handle := (-4, Some ("TypeError", "socket has no handle")) in
  if negb (IsObject object) then (-1, None)
  else
    let socket := object in
    if negb (strcmp "Socket" (GetConstructorName socket) =? 0) then (-1, None)
    else if negb (Has socket "readable") then (-1, None)
    else
      let value := Get socket "readable" in
      if negb (IsBoolean value) || negb (To_bool value) then (-3, None)
      else if negb (Has socket "_handle") then no_handle
      else
        let value := Get socket "_handle" in
        if negb (IsObject value) then no_handle
        else
          let handle := value in
          if negb (strcmp "TCP" (GetConstructorName handle) =? 0) then no_handle
          else if negb (Has handle "fd") then (-2, None)
          else
            let value := Get handle "fd" in
            if negb (IsNumber value) then (-2, None)
            else
              let fd := To_int value in
              if fd <? 0 then (-2, None) else (fd, None).

Section Body.
Context {P : Platform}.

(** The read loop of the synchronous [Read]: an error message thrown from
    inside the loop, or the buffer and the count at its normal end. *)
Fixpoint read_loop (fuel : nat) (w : world) (fd size : Z)
  (data : list Byte.byte) (count : Z)
  : option (world * (string + list Byte.byte * Z)) :=
  match fuel with
  | O => None
  | S fuel =>
      let '(n, bytes, w1) := sys_read w fd (wrap_size_t (size - count)) in
      if n =? -1 then
        if (w_errno w1 =? EINTR) || (w_errno w1 =? EAGAIN) then
          if count <? size then read_loop fuel w1 fd size data count
          else Some (w1, inr (data, count))
        else
          Some (w1, inl (snprintf_256
                           ("read failed: " +:+ strerror (w_errno w1))))
      else if n =? 0 then
        Some (w1, inl (snprintf_256
                         ("reached end of stream (read " +:+ fmt_lu count
                            +:+ " bytes)")))
      else
        let data := write_at data count bytes in
        let count := wrap_size_t (count + n) in
        if count <? size then read_loop fuel w1 fd size data count
        else Some (w1, inr (data, count))
  end.

Definition Read (info : list value) (w : world) : option (result * world) :=
  if (length info <? 2)%nat then
    Some (Threw "TypeError" "wrong number of arguments", w)
  else
    let '(fd, pending) := get_fd_from_socket (arg info 0) in
    if fd <? 0 then
      if fd =? -1 then
        Some (Threw "TypeError" "first argument should be a socket", w)
      else if fd =? -2 then
        Some (Threw "Error" "socket file descriptor is invalid", w)
      else if fd =? -3 then
        Some (Threw "Error" "socket is not readable", w)
      else
        match pending with
        | Some (kind, message) => Some (Threw kind message, w)
        | None => Some (Returned VUndefined, w)
        end
    else if negb (IsNumber (arg info 1)) || (To_int (arg info 1) <=? 0) then
      Some (Threw "TypeError" "second argument should be a positive integer", w)
    else
      let size := wrap_size_t (To_int (arg info 1)) in
      let data := map (w_junk w) (seq 0 (Z.to_nat (wrap_uint32 size))) in
      let was_non_blocking := false in
      let '(opts, w1) := fcntl_getfl w fd in
      if opts <? 0 then Some (Exited, w1)
      else
        let set_blocking :=
          if negb (Z.land opts O_NONBLOCK =? 0) then
            let opts := Z.land opts (Z.lnot O_NONBLOCK) in
            let '(r, w2) := fcntl_setfl w1 fd opts in
            if r <? 0 then inl w2 else inr (true, opts, w2)
          else inr (was_non_blocking, opts, w1) in
        match set_blocking with
        | inl w2 => Some (Exited, w2)
        | inr (was_non_blocking, opts, w2) =>
            match read_loop (S (PosixReadWorker.script_weight (w_input w2)))
                    w2 fd size data 0 with
            | None => None
            | Some (w3, inl msg) => Some (Threw "Error" msg, w3)
            | Some (w3, inr (data, _)) =>
                if was_non_blocking then
                  let opts := Z.lor opts O_NONBLOCK in
                  let '(r, w4) := fcntl_setfl w3 fd opts in
                  if r <? 0 then Some (Exited, w4)
                  else Some (Returned (VBuffer data), w4)
                else Some (Returned (VBuffer data), w3)
            end
        end.

End Body.

End Historic.

(** ** A concrete platform: Linux *)

(** glibc's [strerror] for the errnos that [malloc], [fcntl] and [read] on
    a socket set; for another number, the text that glibc has for a number
    it does not know (the instances below use none). *)
Definition linux_strerror (e : Z) : string :=
  if e =? 1 then "Operation not permitted"
  else if e =? 4 then "Interrupted system call"
  else if e =? 5 then "Input/output error"
  else if e =? 9 then "Bad file descriptor"
  else if e =? 11 then "Resource temporarily unavailable"
  else if e =? 12 then "Cannot allocate memory"
  else if e =? 14 then "Bad address"
  else if e =? 21 then "Is a directory"
  else if e =? 22 then "Invalid argument"
  else if e =? 104 then "Connection reset by peer"
  else if e =? 105 then "No buffer space available"
  else if e =? 107 then "Transport endpoint is not connected"
  else if e =? 110 then "Connection timed out"
  else "Unknown error " +:+ fmt_lu e.

Definition linux : Platform :=
  Build_Platform 2048 4 11 linux_strerror
    (ex_intro _ 11
       (conj (conj (proj1 (Z.leb_le 0 11) eq_refl) eq_refl) eq_refl))
    (proj1 (Z.eqb_neq 4 11) eq_refl).

(** ** Sample sockets, requests and descriptors *)

Definition bytes_of (s : string) : list Byte.byte := list_byte_of_string s.

Definition chunk_of (s : string) : list event :=
  match bytes_of s with
  | [] => []
  | b :: bs => [Chunk b bs]
  end.

(** A connected, paused socket as [net.Server] hands it out. *)
Definition tcp_socket (readable : bool) (fd : Q) : value :=
  VObject "Socket"
    (<["readable" := VBool readable]>
       {["_handle" := VObject "TCP" {["fd" := VNumber (Fin fd)]}]}).

Definition a_callback : value := VFunction "callback".

Definition alphabet : string := "ABCDEFGHIJKLMNOPQRSTUVWXYZ".

(** A socket whose readable flag is false and that has no handle. *)
Definition unreadable_socket : value :=
  VObject "Socket" {["readable" := VBool false]}.

(** The arguments of [read(socket, size, callback)]. *)
Definition request (socket : value) (size : Q) : list value :=
  [socket; VNumber (Fin size); a_callback].

(** A descriptor with the given flags and script; no call fails unless the
    [fcntl] script says so. *)
Definition a_world (flags : Z) (input : list event) (fcntl : list (option Z))
  : world :=
  World flags input fcntl None (fun _ => Byte.x00) 0 [].

(** A request of 10 bytes on descriptor 7. *)
Definition request_10 : list value := request (tcp_socket true 7) 10.

(** A non-blocking descriptor ([O_NONBLOCK] is 2048 on Linux) with the
    alphabet, or with nine digits, to read; and the same where the third
    coming [fcntl] call, the [F_GETFL] of the restoration, fails with
    [EBADF]. *)
Definition world_alphabet : world := a_world 2050 (chunk_of alphabet) [].

Definition world_digits : world := a_world 2050 (chunk_of "123456789") [].

Definition world_alphabet_unrestorable : world :=
  a_world 2050 (chunk_of alphabet) [None; None; Some 9].

Definition world_digits_unrestorable : world :=
  a_world 2050 (chunk_of "123456789") [None; None; Some 9].

(** The calls of the request of 10 bytes on [world_digits], and how that
    request ends. *)
Definition digits_trace : list call :=
  [c_malloc 10 true; c_fcntl_getfl 7 2050; c_fcntl_setfl 7 2 0;
   c_read 7 10 9; c_read 7 1 0;
   c_SetErrorMessage "reached end of stream (read 9 bytes)"; c_free;
   c_fcntl_getfl 7 2; c_fcntl_setfl 7 2050 0].

Definition digits_run : run :=
  Run None
    [[ErrorWithProperty "endOfFile" "reached end of stream (read 9 bytes)"]]
    (World 2050 [] [] None (fun _ => Byte.x00) 0 (rev digits_trace)).

(** ** Outcomes, as the interface names them *)

Inductive outcome :=
| Success (buffer : list Byte.byte)
| BadStream (message : string)
| EndOfFile (message : string)
| SystemError (message : string).

Definition has_flag (e : value) (flag : string) : bool :=
  match Get e flag with VBool true => true | _ => false end.

(** What the arguments of one call of the completion handler say:
    [(null, buffer)], or one [Error] carrying a message and exactly one of
    the three flags. *)
Definition outcome_of (argv : list value) : option outcome :=
  match argv with
  | [VNull; VBuffer b] => Some (Success b)
  | [VObject "Error" _ as e] =>
      match Get e "message" with
      | VString m =>
          match has_flag e "badStream", has_flag e "endOfFile",
                has_flag e "systemError" with
          | true, false, false => Some (BadStream m)
          | false, true, false => Some (EndOfFile m)
          | false, false, true => Some (SystemError m)
          | _, _, _ => None
          end
      | _ => None
      end
  | _ => None
  end.

(** "A positive integer", in the words of the message of [Read]: a finite
    number that is positive and whole. *)
Definition is_positive_integer (v : value) : bool :=
  match v with
  | VNumber (Fin q) => (0 <? Qnum q) && (Z.pos (Qden (Qred q)) =? 1)
  | _ => false
  end.


(** ** Reading a trace of calls *)

Fixpoint count_calls (p : call -> bool) (T : list call) : nat :=
  match T with
  | [] => 0
  | c :: T => ((if p c then 1 else 0) + count_calls p T)%nat
  end.

Definition is_malloc (c : call) : bool :=
  match c with c_malloc _ true => true | _ => false end.

Definition is_free (c : call) : bool :=
  match c with c_free => true | _ => false end.

Definition is_SetErrorMessage (c : call) : bool :=
  match c with c_SetErrorMessage _ => true | _ => false end.

Definition is_read (c : call) : bool :=
  match c with c_read _ _ _ => true | _ => false end.

(** A [read] that returned 0. *)
Definition is_read_zero (c : call) : bool :=
  match c with c_read _ _ ret => ret =? 0 | _ => false end.

Definition is_getfl (c : call) : bool :=
  match c with c_fcntl_getfl _ _ => true | _ => false end.

(** An [fcntl(fd, F_SETFL, opts)] whose [opts] carry [O_NONBLOCK]. *)
Definition is_setfl_nonblock {P : Platform} (c : call) : bool :=
  match c with
  | c_fcntl_setfl _ opts _ => negb (Z.land opts O_NONBLOCK =? 0)
  | _ => false
  end.

(** The bytes the [read] calls of a trace returned, in total. *)
Fixpoint bytes_returned (T : list call) : Z :=
  match T with
  | [] => 0
  | c_read _ _ ret :: T => Z.max 0 ret + bytes_returned T
  | _ :: T => bytes_returned T
  end.

(** Every [read] of the trace asked for exactly [size - count] bytes, with
    [count < size], where [count] is what the calls before it returned on
    top of the initial [count]. *)
Fixpoint requests_follow (size count : Z) (T : list call) : bool :=
  match T with
  | [] => true
  | c_read _ len ret :: T =>
      (len =? size - count) && (count <? size)
        && requests_follow size (count + Z.max 0 ret) T
  | _ :: T => requests_follow size count T
  end.

(** ** What a script holds for a reader *)

(** For a reader that has [got] bytes and wants [want] more: the script
    brings them all, or a call fails for good before that, or the peer
    closes before that.  Failures with [EINTR] are passed over. *)
Inductive verdict :=
| Enough
| Fails (errno : Z) (got : Z)
| Closes (got : Z).

Fixpoint script_verdict {P : Platform} (evs : list event) (want got : Z)
  : verdict :=
  match evs with
  | [] => Closes got
  | Fail e :: rest =>
      if e =? EINTR then script_verdict rest want got else Fails e got
  | Chunk b bs :: rest =>
      let n := Z.of_nat (S (length bs)) in
      if want <=? n then Enough
      else script_verdict rest (want - n) (got + n)
  end.

(** A stretch of script whose failures are all interruptions. *)
Definition only_interrupted {P : Platform} (evs : list event) : Prop :=
  Forall (fun ev => match ev with
                    | Chunk _ _ => True
                    | Fail e => e = EINTR
                    end) evs.

(** The descriptor is in non-blocking mode. *)
Definition nonblocking {P : Platform} (flags : Z) : bool :=
  negb (Z.land flags O_NONBLOCK =? 0).


(** ** How a request ends *)

(** What became of the descriptor's mode after the loop. *)
Inductive restoration :=
| NotNeeded                (* the descriptor was blocking at entry *)
| Restored
| GetflFailed (errno : Z)
| SetflFailed (errno : Z).

Inductive ending :=
| MallocFailed (errno : Z)
| GuardFailed (errno : Z)  (* [SetBlocking] failed *)
| LoopEnded (v : verdict) (r : restoration).

Definition restoration_errno (r : restoration) : option Z :=
  match r with
  | GetflFailed e | SetflFailed e => Some e
  | NotNeeded | Restored => None
  end.

Section PostConditions.
Context {P : Platform}.
Import PosixReadWorker.

(** The ending that the world holds for a request of [N] bytes: the
    allocation, the two [fcntl] calls of the guard, the script of the
    descriptor, the two [fcntl] calls of the restoration. *)
Definition ending_of (w : world) (N : Z) : ending :=
  match w_malloc w with
  | Some e => MallocFailed e
  | None =>
      match fcntl_fails w 0 with
      | Some e => GuardFailed e
      | None =>
          if nonblocking (w_flags w) then
            match fcntl_fails w 1 with
            | Some e => GuardFailed e
            | None =>
                LoopEnded (script_verdict (w_input w) N 0)
                  match fcntl_fails w 2 with
                  | Some e => GetflFailed e
                  | None =>
                      match fcntl_fails w 3 with
                      | Some e => SetflFailed e
                      | None => Restored
                      end
                  end
            end
          else LoopEnded (script_verdict (w_input w) N 0) NotNeeded
      end
  end.

(** The restoration that the coming [fcntl] calls of [w] hold for a worker
    that found the descriptor non-blocking or not. *)
Definition restoration_of (was_non_blocking : bool) (w : world)
  : restoration :=
  if was_non_blocking then
    match fcntl_fails w 0 with
    | Some e => GetflFailed e
    | None =>
        match fcntl_fails w 1 with
        | Some e => SetflFailed e
        | None => Restored
        end
    end
  else NotNeeded.

(** The calls of a restoration on descriptor [fd], which it finds with the
    flags [flags]. *)
Definition restoration_calls (fd flags : Z) (r : restoration) : list call :=
  match r with
  | NotNeeded => []
  | Restored =>
      [c_fcntl_getfl fd flags; c_fcntl_setfl fd (Z.lor flags O_NONBLOCK) 0]
  | GetflFailed _ => [c_fcntl_getfl fd (-1)]
  | SetflFailed _ =>
      [c_fcntl_getfl fd flags;
       c_fcntl_setfl fd (Z.lor flags O_NONBLOCK) (-1)]
  end.

(** The property and the message of the error an ending is reported with. *)
Definition ending_error (x : ending) : option (string * string) :=
  match x with
  | MallocFailed e =>
      Some ("systemError", snprintf_256 ("malloc failed: " +:+ strerror e))
  | GuardFailed e =>
      Some ("systemError", snprintf_256 ("fnctl failed: " +:+ strerror e))
  | LoopEnded Enough r =>
      match restoration_errno r with
      | Some e =>
          Some ("systemError", snprintf_256 ("fnctl failed: " +:+ strerror e))
      | None => None
      end
  | LoopEnded (Fails e _) _ =>
      Some ("systemError", snprintf_256 ("read failed: " +:+ strerror e))
  | LoopEnded (Closes got) _ =>
      Some ("endOfFile",
            "reached end of stream (read " +:+ fmt_lu got +:+ " bytes)")
  end.

(** The calls to [free], [fcntl(F_GETFL)] and [fcntl(F_SETFL)] with
    [O_NONBLOCK], and the reads returning 0, that an ending comes with. *)
Definition ending_frees (x : ending) : nat :=
  match x with
  | MallocFailed _ => 0
  | LoopEnded Enough (NotNeeded | Restored) => 0
  | _ => 1
  end.

Definition ending_getfls (x : ending) : nat :=
  match x with
  | MallocFailed _ => 0
  | GuardFailed _ | LoopEnded _ NotNeeded => 1
  | LoopEnded _ _ => 2
  end.

Definition ending_reapplied (x : ending) : nat :=
  match x with
  | LoopEnded _ (Restored | SetflFailed _) => 1
  | _ => 0
  end.

Definition ending_read_zero (x : ending) : nat :=
  match x with
  | LoopEnded (Closes _) _ => 1
  | _ => 0
  end.

(** The flags the descriptor is left with. *)
Definition ending_flags (flags : Z) (x : ending) : Z :=
  match x with
  | LoopEnded _ (GetflFailed _ | SetflFailed _) =>
      Z.land flags (Z.lnot O_NONBLOCK)
  | _ => flags
  end.

(** How the loop ended, in the terms of the script's verdict. *)
Definition loop_ended (v : verdict) (k k' : t) (w' : world) (count' : Z)
  (T : list call) : Prop :=
  match v with
  | Enough =>
      count' = size k /\ errmsg k' = errmsg k /\ error_prop k' = error_prop k
      /\ count_calls is_free T = 0%nat
      /\ count_calls is_SetErrorMessage T = 0%nat
      /\ count_calls is_read_zero T = 0%nat
  | Fails e got =>
      e <> EINTR /\ got = count' /\ count' < size k
      /\ errmsg k' = Some (snprintf_256 ("read failed: " +:+ strerror e))
      /\ error_prop k' = Some "systemError"
      /\ count_calls is_free T = 1%nat
      /\ count_calls is_SetErrorMessage T = 1%nat
      /\ count_calls is_read_zero T = 0%nat
  | Closes got =>
      got = count' /\ count' < size k /\ w_input w' = []
      /\ errmsg k' = Some ("reached end of stream (read " +:+ fmt_lu count'
                             +:+ " bytes)")
      /\ error_prop k' = Some "endOfFile"
      /\ count_calls is_free T = 1%nat
      /\ count_calls is_SetErrorMessage T = 1%nat
      /\ count_calls is_read_zero T = 1%nat
  end.

(** What the loop did between [(w, k, count)] and [(w', k', count')]:
    [B] are the bytes it took off the descriptor, [T] the calls it made. *)
Record loop_post (w : world) (k : t) (count : Z) (w' : world) (k' : t)
  (count' : Z) (B : list Byte.byte) (T : list call) : Prop := {
  lp_pending : pending_bytes (w_input w) = B ++ pending_bytes (w_input w');
  lp_count : count' = count + Z.of_nat (length B);
  lp_bound : count' <= size k;
  lp_trace : trace w' = trace w ++ T;
  lp_flags : w_flags w' = w_flags w;
  lp_fcntl : w_fcntl w' = w_fcntl w;
  lp_fd : fd k' = fd k;
  lp_size : size k' = size k;
  lp_was : fd_was_non_blocking k' = fd_was_non_blocking k;
  lp_data : data k' = write_at (data k) count B;
  lp_requests : requests_follow (size k) count T = true;
  lp_returned : bytes_returned T = Z.of_nat (length B);
  lp_getfl : count_calls is_getfl T = 0%nat;
  lp_setfl : count_calls is_setfl_nonblock T = 0%nat;
  lp_malloc : count_calls is_malloc T = 0%nat;
  lp_ended :
    loop_ended (script_verdict (w_input w) (size k - count) count)
      k k' w' count' T
}.

(** What the completion handler is called with at an ending, [B] being the
    bytes read. *)
Definition expected_callback (x : ending) (B : list Byte.byte) : list value :=
  match ending_error x with
  | Some (p, m) => [ErrorWithProperty p m]
  | None => [VNull; VBuffer B]
  end.

(** What [Execute] did for a request of [N] bytes on descriptor [d] between [w] and
    [w'], leaving the worker [k']: [B] are the bytes taken off the
    descriptor, [T] the calls made. *)
Record exec_post (w : world) (d N : Z) (w' : world) (k' : t)
  (B : list Byte.byte) (T : list call) : Prop := {
  ep_trace : trace w' = trace w ++ T;
  ep_pending : pending_bytes (w_input w) = B ++ pending_bytes (w_input w');
  ep_bound : Z.of_nat (length B) <= N;
  ep_returned : bytes_returned T = Z.of_nat (length B);
  ep_requests : requests_follow N 0 T = true;
  ep_fd : fd k' = d;
  ep_size : size k' = N;
  ep_error :
    match ending_error (ending_of w N) with
    | Some (p, m) => error_prop k' = Some p /\ errmsg k' = Some m
    | None =>
        error_prop k' = None /\ errmsg k' = None
        /\ data k' = B /\ Z.of_nat (length B) = N
    end;
  ep_read :
    match ending_of w N with
    | LoopEnded Enough _ => Z.of_nat (length B) = N
    | LoopEnded (Fails _ got) _ | LoopEnded (Closes got) _ =>
        got = Z.of_nat (length B) /\ got < N
    | MallocFailed _ | GuardFailed _ => B = []
    end;
  ep_mallocs :
    count_calls is_malloc T
    = match w_malloc w with Some _ => 0%nat | None => 1%nat end;
  ep_frees : count_calls is_free T = ending_frees (ending_of w N);
  ep_errors :
    count_calls is_SetErrorMessage T
    = match ending_error (ending_of w N) with
      | Some _ => 1%nat
      | None => 0%nat
      end;
  ep_read_zero :
    count_calls is_read_zero T = ending_read_zero (ending_of w N);
  ep_getfls : count_calls is_getfl T = ending_getfls (ending_of w N);
  ep_reapplied :
    count_calls is_setfl_nonblock T = ending_reapplied (ending_of w N);
  ep_flags : w_flags w' = ending_flags (w_flags w) (ending_of w N)
}.

End PostConditions.

(** ** The discipline of the buffer in a trace *)

(** Where the buffer of a request stands: not allocated yet, allocated, or
    freed. *)
Inductive buffer_state :=
| NoBuffer
| Live
| Freed.

(** Where a trace of calls takes the buffer, or [None] when it breaks the
    discipline: the buffer is allocated at most once, every [read] stores
    into an allocated buffer that has not been freed, and [free] is called
    on such a buffer only. *)
Fixpoint memory_after (st : buffer_state) (T : list call)
  : option buffer_state :=
  match T with
  | [] => Some st
  | c_malloc _ true :: T =>
      match st with NoBuffer => memory_after Live T | _ => None end
  | c_read _ _ _ :: T =>
      match st with Live => memory_after Live T | _ => None end
  | c_free :: T =>
      match st with Live => memory_after Freed T | _ => None end
  | _ :: T => memory_after st T
  end.

Definition is_fcntl (c : call) : bool :=
  match c with
  | c_fcntl_getfl _ _ | c_fcntl_setfl _ _ _ => true
  | _ => false
  end.

(** What a script holds for the loop of the synchronous addon, which passes
    over failures with [EINTR] and with [EAGAIN]. *)
Fixpoint historic_verdict {P : Platform} (evs : list event) (want got : Z)
  : verdict :=
  match evs with
  | [] => Closes got
  | Fail e :: rest =>
      if (e =? EINTR) || (e =? EAGAIN) then historic_verdict rest want got
      else Fails e got
  | Chunk b bs :: rest =>
      let n := Z.of_nat (S (length bs)) in
      if want <=? n then Enough
      else historic_verdict rest (want - n) (got + n)
  end.


(** A stretch of script whose failures are all of the two kinds the
    synchronous addon passes over. *)
Definition only_passed_over {P : Platform} (evs : list event) : Prop :=
  Forall (fun ev => match ev with
                    | Chunk _ _ => True
                    | Fail e => e = EINTR \/ e = EAGAIN
                    end) evs.

(** ** More sample descriptors *)

(** The worker of the request of 10 bytes on descriptor 7, its buffer
    allocated. *)
Definition worker_10 : PosixReadWorker.t :=
  PosixReadWorker.set_data (map (fun _ => Byte.x00) (seq 0 10))
    (PosixReadWorker.new false 7 10).

(** The descriptor of [world_alphabet] and that worker once [SetBlocking]
    has run: the flag cleared by the second of two [fcntl] calls. *)
Definition world_alphabet_guarded : world :=
  log_call (c_fcntl_setfl 7 2 0)
    (set_flags 2
       (pop_fcntl (log_call (c_fcntl_getfl 7 2050) (pop_fcntl world_alphabet)))).

Definition worker_10_guarded : PosixReadWorker.t :=
  PosixReadWorker.set_fd_was_non_blocking true worker_10.

(** The alphabet to read when [malloc] fails with [ENOMEM], and when the
    first coming [fcntl] call fails with [EBADF]. *)
Definition world_without_memory : world :=
  World 2050 (chunk_of alphabet) [] (Some 12) (fun _ => Byte.x00) 0 [].

Definition world_bad_descriptor : world :=
  a_world 2050 (chunk_of alphabet) [Some 9].

(** The alphabet in one segment, and in two segments around an interrupted
    call; the alphabet behind a call that fails with [EAGAIN]. *)
Definition alphabet_at_once : list event := chunk_of alphabet.

Definition alphabet_in_two : list event :=
  chunk_of "ABCDE" ++ Fail 4 :: chunk_of "FGHIJKLMNOPQRSTUVWXYZ".

Definition world_alphabet_later : world :=
  a_world 2050 (Fail 11 :: chunk_of alphabet) [].
(** * Properties *)

(** ** Integers, strings and lists *)

Lemma wrap_size_t_small (z : Z) : 0 <= z < 2 ^ 64 -> wrap_size_t z = z.
Proof. intros Hz. unfold wrap_size_t. apply Z.mod_small. exact Hz. Qed.

Lemma wrap_int32_range (z : Z) : - 2 ^ 31 <= wrap_int32 z < 2 ^ 31.
Proof.
  unfold wrap_int32.
  pose proof (Z.mod_pos_bound (z + 2 ^ 31) (2 ^ 32) ltac:(lia)). lia.
Qed.

Lemma wrap_int32_small (z : Z) : - 2 ^ 31 <= z < 2 ^ 31 -> wrap_int32 z = z.
Proof.
  intros Hz. unfold wrap_int32. rewrite Z.mod_small; lia.
Qed.

Lemma To_int_range (v : value) : - 2 ^ 31 <= To_int v < 2 ^ 31.
Proof.
  destruct v as [| | |n| | | |]; simpl; try lia.
  destruct n; simpl; try lia. apply wrap_int32_range.
Qed.

Lemma nat_of_ascii_differ (x y : ascii) :
  x <> y -> Z.of_nat (nat_of_ascii x) - Z.of_nat (nat_of_ascii y) <> 0.
Proof.
  intros Hxy H. apply Hxy.
  rewrite <- (ascii_nat_embedding x), <- (ascii_nat_embedding y).
  f_equal. lia.
Qed.

Lemma nat_of_ascii_zero (x : ascii) :
  Z.of_nat (nat_of_ascii x) = 0 <-> x = zero.
Proof.
  split; [|now intros ->].
  intros H. rewrite <- (ascii_nat_embedding x).
  replace (nat_of_ascii x) with 0%nat by lia. reflexivity.
Qed.

(** [strcmp] returns 0 exactly on equal C strings. *)
Lemma strcmp_0_iff (a b : string) : strcmp a b = 0 <-> c_str a = c_str b.
Proof.
  revert b. induction a as [|x a IH]; intros [|y b]; cbn [strcmp c_str].
  - tauto.
  - destruct (Ascii.eqb_spec y zero) as [->|Hy].
    + split; reflexivity.
    + split; [|discriminate]. intros H.
      destruct Hy. apply nat_of_ascii_zero. lia.
  - destruct (Ascii.eqb_spec x zero) as [->|Hx].
    + split; reflexivity.
    + split; [|discriminate]. intros H.
      destruct Hx. now apply nat_of_ascii_zero.
  - destruct (Ascii.eqb_spec x y) as [->|Hxy].
    + destruct (Ascii.eqb_spec y zero) as [->|Hy]; [tauto|].
      rewrite IH. split; [now intros ->|now intros [=]].
    + split; [intros H; now destruct (nat_of_ascii_differ x y Hxy)|].
      destruct (Ascii.eqb_spec x zero) as [->|Hx],
               (Ascii.eqb_spec y zero) as [->|Hy];
        try discriminate; [contradiction|]. intros [=]. contradiction.
Qed.

Lemma truncate_short (n : nat) (s : string) :
  (String.length s <= n)%nat -> truncate n s = s.
Proof.
  revert n. induction s as [|c s IH]; intros [|n] Hn; simpl in *;
    try reflexivity; try lia.
  f_equal. apply IH. lia.
Qed.

Lemma length_append (a b : string) :
  String.length (a +:+ b) = (String.length a + String.length b)%nat.
Proof. induction a as [|c a IH]; simpl; [reflexivity | now rewrite IH]. Qed.

Lemma fmt_digits_length (fuel : nat) (n : Z) :
  (String.length (fmt_digits fuel n) <= fuel)%nat.
Proof.
  revert n. induction fuel as [|f IH]; intros n; simpl; [lia|].
  destruct (n <? 10); simpl; [lia|].
  rewrite length_append. simpl. specialize (IH (n / 10)). lia.
Qed.





(** The end-of-stream message fits the 256 bytes of [msg]. *)
Lemma eof_message_fits (count : Z) :
  snprintf_256 ("reached end of stream (read " +:+ fmt_lu count +:+ " bytes)")
  = "reached end of stream (read " +:+ fmt_lu count +:+ " bytes)".
Proof.
  apply truncate_short. rewrite !length_append. unfold fmt_lu.
  pose proof (fmt_digits_length 20 (count mod 2 ^ 64)) as Hd.
  revert Hd. generalize (String.length (fmt_digits 20 (count mod 2 ^ 64))).
  intros n Hn. change (28 + (n + 7) <= 255)%nat. lia.
Qed.

Lemma write_at_length (d : list Byte.byte) (c : Z) (B : list Byte.byte) :
  (Z.to_nat c <= length d)%nat ->
  (Z.to_nat c + length B <= length (write_at d c B))%nat.
Proof.
  intros Hc. unfold write_at. rewrite !length_app, length_take. lia.
Qed.

Lemma write_at_nil (d : list Byte.byte) (c : Z) : write_at d c [] = d.
Proof.
  unfold write_at. simpl. rewrite Nat.add_0_r. apply take_drop.
Qed.

Lemma write_at_write_at (d : list Byte.byte) (c : Z) (B1 B2 : list Byte.byte) :
  0 <= c -> (Z.to_nat c <= length d)%nat ->
  write_at (write_at d c B1) (c + Z.of_nat (length B1)) B2
  = write_at d c (B1 ++ B2).
Proof.
  intros Hc Hd. unfold write_at.
  replace (Z.to_nat (c + Z.of_nat (length B1)))
    with (Z.to_nat c + length B1)%nat by lia.
  assert (Ht : length (take (Z.to_nat c) d) = Z.to_nat c)
    by (rewrite length_take; lia).
  rewrite (app_assoc (take (Z.to_nat c) d) B1).
  rewrite take_app_length'; [|rewrite length_app; lia].
  rewrite drop_app_ge; [|rewrite length_app; lia].
  rewrite length_app, Ht, drop_drop, length_app.
  rewrite <- !app_assoc. do 4 f_equal. lia.
Qed.

(** Writing a whole buffer leaves nothing of its first contents. *)
Lemma write_at_all (d B : list Byte.byte) :
  length B = length d -> write_at d 0 B = B.
Proof.
  intros HB. unfold write_at. simpl. rewrite drop_ge; [|lia].
  apply app_nil_r.
Qed.

(** ** Traces *)

Lemma trace_log_call (c : call) (w : world) :
  trace (log_call c w) = trace w ++ [c].
Proof. reflexivity. Qed.

Lemma count_calls_app (p : call -> bool) (A B : list call) :
  count_calls p (A ++ B) = (count_calls p A + count_calls p B)%nat.
Proof. induction A as [|c A IH]; simpl; [reflexivity | rewrite IH; lia]. Qed.

Lemma bytes_returned_app (A B : list call) :
  bytes_returned (A ++ B) = bytes_returned A + bytes_returned B.
Proof.
  induction A as [|c A IH]; simpl; [reflexivity|].
  destruct c; rewrite ?IH; lia.
Qed.

Lemma requests_follow_app (size count : Z) (A B : list call) :
  requests_follow size count (A ++ B)
  = requests_follow size count A
      && requests_follow size (count + bytes_returned A) B.
Proof.
  revert count. induction A as [|c A IH]; intros count; simpl.
  - now rewrite Z.add_0_r.
  - destruct c; rewrite ?IH; try reflexivity.
    rewrite Z.add_assoc, !andb_assoc. reflexivity.
Qed.

Lemma trace_set_errno (e : Z) (w : world) : trace (set_errno e w) = trace w.
Proof. reflexivity. Qed.

Lemma trace_set_input (i : list event) (w : world) :
  trace (set_input i w) = trace w.
Proof. reflexivity. Qed.

Lemma trace_set_flags (f : Z) (w : world) : trace (set_flags f w) = trace w.
Proof. reflexivity. Qed.

Lemma trace_set_fcntl (s : list (option Z)) (w : world) :
  trace (set_fcntl s w) = trace w.
Proof. reflexivity. Qed.

Lemma trace_sys_free (w : world) : trace (sys_free w) = trace w ++ [c_free].
Proof. reflexivity. Qed.

Create Rewrite HintDb trace.
#[local] Hint Rewrite trace_log_call trace_set_errno trace_set_input
  trace_set_flags trace_set_fcntl trace_sys_free : trace.

Ltac trace_norm :=
  autorewrite with trace; rewrite <- ?app_assoc; simpl.

(** ** The system calls *)

Lemma sys_read_closed (w : world) (fd len : Z) :
  w_input w = [] ->
  sys_read w fd len = (0, [], log_call (c_read fd len 0) w).
Proof. intros H. unfold sys_read. now rewrite H. Qed.

Lemma sys_read_fail (w : world) (fd len e : Z) (rest : list event) :
  w_input w = Fail e :: rest ->
  sys_read w fd len
  = (-1, [], log_call (c_read fd len (-1)) (set_errno e (set_input rest w))).
Proof. intros H. unfold sys_read. now rewrite H. Qed.

Lemma sys_read_chunk (w : world) (fd len : Z) (b : Byte.byte)
  (bs : list Byte.byte) (rest : list event) :
  w_input w = Chunk b bs :: rest ->
  sys_read w fd len
  = (Z.of_nat (length (take (Z.to_nat len) (b :: bs))),
     take (Z.to_nat len) (b :: bs),
     log_call (c_read fd len (Z.of_nat (length (take (Z.to_nat len) (b :: bs)))))
       (set_input match drop (Z.to_nat len) (b :: bs) with
                  | [] => rest
                  | b' :: bs' => Chunk b' bs' :: rest
                  end w)).
Proof. intros H. unfold sys_read. now rewrite H. Qed.

(** What a [read] leaves of a segment, with what it took, is the segment. *)
Lemma chunk_split (n : nat) (b : Byte.byte) (bs : list Byte.byte)
  (rest : list event) :
  b :: bs ++ pending_bytes rest
  = take n (b :: bs)
      ++ pending_bytes match drop n (b :: bs) with
                       | [] => rest
                       | b' :: bs' => Chunk b' bs' :: rest
                       end.
Proof.
  change (b :: bs ++ pending_bytes rest)
    with ((b :: bs) ++ pending_bytes rest).
  pose proof (take_drop n (b :: bs)) as Hsplit.
  destruct (drop n (b :: bs)) as [|b' bs'].
  - rewrite app_nil_r in Hsplit. now rewrite Hsplit.
  - rewrite <- Hsplit at 1. now rewrite <- app_assoc.
Qed.

Section LoopProperties.
Context {P : Platform}.
Import PosixReadWorker.

Lemma read_loop_S (fuel : nat) (w : world) (k : t) (count : Z) :
  read_loop (S fuel) w k count
  = let '(n, bytes, w1) := sys_read w (fd k) (wrap_size_t (size k - count)) in
    if n =? -1 then
      if w_errno w1 =? EINTR then
        if count <? size k then read_loop fuel w1 k count
        else Some (w1, k, count)
      else
        let '(w2, k1) := record_error "systemError"
                           ("read failed: " +:+ strerror (w_errno w1)) w1 k in
        Some (sys_free w2, k1, count)
    else if n =? 0 then
      let '(w2, k1) := record_error "endOfFile"
                         ("reached end of stream (read " +:+ fmt_lu count
                            +:+ " bytes)") w1 k in
      Some (sys_free w2, k1, count)
    else
      let k1 := set_data (write_at (data k) count bytes) k in
      let count := wrap_size_t (count + n) in
      if count <? size k then read_loop fuel w1 k1 count
      else Some (w1, k1, count).
Proof. reflexivity. Qed.



Lemma loop_ended_read (v : verdict) (k k1 k' : t) (w' : world) (count' : Z)
  (T : list call) (fd len ret : Z) :
  ret <> 0 -> size k1 = size k -> errmsg k1 = errmsg k ->
  error_prop k1 = error_prop k ->
  loop_ended v k1 k' w' count' T ->
  loop_ended v k k' w' count' (c_read fd len ret :: T).
Proof.
  intros Hret Hs He Hp.
  assert (Hz : (ret =? 0) = false) by now apply Z.eqb_neq.
  destruct v; simpl; rewrite Hz, Hs, ?He, ?Hp; tauto.
Qed.

Lemma read_loop_spec (fuel : nat) (w : world) (k : t) (count : Z) :
  (script_weight (w_input w) < fuel)%nat ->
  0 <= count < size k -> size k < 2 ^ 64 ->
  (Z.to_nat count <= length (data k))%nat ->
  exists w' k' count' B T,
    read_loop fuel w k count = Some (w', k', count')
    /\ loop_post w k count w' k' count' B T.
Proof.
  revert w k count.
  induction fuel as [|fuel IH]; intros w k count Hfuel Hcount Hsize Hdata;
    [lia|].
  rewrite read_loop_S.
  rewrite (wrap_size_t_small (size k - count)) by lia.
  set (len := size k - count) in *.
  assert (Hreq : forall ret T,
             requests_follow (size k) (count + Z.max 0 ret) T = true ->
             requests_follow (size k) count (c_read (fd k) len ret :: T) = true).
  { intros ret T HT. simpl. fold len. rewrite Z.eqb_refl, HT.
    destruct (Z.ltb_spec count (size k)); [reflexivity|lia]. }
  destruct (w_input w) as [|[b bs|e] rest] eqn:Hin.
  - (* the peer has closed *)
    rewrite (sys_read_closed _ _ _ Hin). cbv beta iota zeta.
    change (0 =? -1) with false. change (0 =? 0) with true.
    unfold record_error. cbv beta iota zeta.
    eexists _, _, _, [],
      [c_read (fd k) len 0; c_SetErrorMessage _; c_free].
    split; [reflexivity|].
    constructor;
      [ simpl; now rewrite Hin | simpl; lia | lia | now trace_norm
      | reflexivity | reflexivity | reflexivity | reflexivity | reflexivity
      | now rewrite write_at_nil | now apply Hreq | reflexivity
      | reflexivity | reflexivity | reflexivity | ].
    rewrite Hin. simpl. rewrite eof_message_fits.
    repeat split; try lia; auto.
  - (* a segment has arrived *)
    rewrite (sys_read_chunk _ _ _ _ _ _ Hin). cbv beta iota zeta.
    set (got := take (Z.to_nat len) (b :: bs)).
    set (n := Z.of_nat (length got)).
    assert (Hmin : n = Z.of_nat (Nat.min (Z.to_nat len) (S (length bs)))).
    { subst n got. now rewrite length_take. }
    assert (Hn : 1 <= n <= len /\ n <= Z.of_nat (S (length bs))) by lia.
    destruct (Z.eqb_spec n (-1)) as [|_]; [lia|].
    destruct (Z.eqb_spec n 0) as [|_]; [lia|].
    rewrite (wrap_size_t_small (count + n)) by lia.
    pose proof (chunk_split (Z.to_nat len) b bs rest) as Hsplit.
    fold got in Hsplit.
    set (k1 := set_data (write_at (data k) count got) k).
    change (size k1) with (size k).
    destruct (Z.ltb_spec (count + n) (size k)) as [Hlt|Hge].
    + (* a short read: the whole segment, and the loop goes on *)
      assert (Hdrop : drop (Z.to_nat len) (b :: bs) = []).
      { apply drop_ge. simpl length. lia. }
      rewrite Hdrop in *.
      destruct (IH (log_call (c_read (fd k) len n) (set_input rest w)) k1
                  (count + n))
        as (w' & k' & count' & B & T & Hrun & Hpost).
      { simpl. unfold script_weight, pending_bytes in *. simpl in Hfuel.
        rewrite length_app in Hfuel. lia. }
      { change (size k1) with (size k). lia. }
      { exact Hsize. }
      { subst k1 n. simpl.
        pose proof (write_at_length (data k) count got Hdata). lia. }
      exists w', k', count', (got ++ B), (c_read (fd k) len n :: T).
      split; [exact Hrun|].
      destruct Hpost as [Hp1 Hp2 Hp3 Hp4 Hp5 Hp6 Hp7 Hp8 Hp9 Hp10 Hp11 Hp12
                           Hp13 Hp14 Hp15 Hp16].
      simpl in Hp1, Hp5, Hp6.
      constructor;
        [ | rewrite length_app; subst n; lia | exact Hp3
        | rewrite Hp4; now trace_norm
        | exact Hp5 | exact Hp6 | exact Hp7 | exact Hp8 | exact Hp9
        | | | simpl; rewrite Hp12, length_app; subst n; lia
        | exact Hp13 | exact Hp14 | exact Hp15 | ].
      * rewrite Hin. unfold pending_bytes at 1. simpl.
        rewrite <- app_assoc, <- Hp1. exact Hsplit.
      * rewrite Hp10. subst k1 n. simpl.
        now apply write_at_write_at.
      * apply Hreq. replace (count + Z.max 0 n) with (count + n) by lia.
        exact Hp11.
      * rewrite Hin. simpl script_verdict.
        destruct (Z.leb_spec (size k - count) (Z.of_nat (S (length bs))));
          [lia|].
        assert (Hnn : n = Z.of_nat (S (length bs))) by lia.
        rewrite <- Hnn.
        replace (size k - count - n) with (size k1 - (count + n))
          by (change (size k1) with (size k); lia).
        apply (loop_ended_read _ k k1); try reflexivity; [lia|exact Hp16].
    + (* the buffer is full *)
      eexists _, k1, _, got, [c_read (fd k) len n].
      split; [reflexivity|].
      constructor;
        [ | reflexivity | lia | now trace_norm
        | reflexivity | reflexivity | reflexivity | reflexivity | reflexivity
        | reflexivity | now apply Hreq | simpl; lia
        | reflexivity | reflexivity | reflexivity | ].
      * rewrite Hin. simpl. unfold pending_bytes at 1. simpl. exact Hsplit.
      * rewrite Hin. simpl script_verdict.
        destruct (Z.leb_spec (size k - count) (Z.of_nat (S (length bs))));
          [|lia].
        simpl. destruct (Z.eqb_spec n 0); [lia|].
        repeat split; try reflexivity. lia.
  - (* a call that fails *)
    rewrite (sys_read_fail _ _ _ _ _ Hin). cbv beta iota zeta.
    change (-1 =? -1) with true. cbv beta iota zeta.
    change (w_errno (log_call (c_read (fd k) len (-1))
                       (set_errno e (set_input rest w)))) with e.
    destruct (Z.eqb_spec e EINTR) as [He|He].
    + (* interrupted: the test of the condition, then the next call *)
      destruct (Z.ltb_spec count (size k)) as [_|]; [|lia].
      destruct (IH (log_call (c_read (fd k) len (-1))
                      (set_errno e (set_input rest w))) k count)
        as (w' & k' & count' & B & T & Hrun & Hpost); try assumption.
      { simpl. unfold script_weight, pending_bytes in *. simpl in Hfuel.
        simpl. lia. }
      exists w', k', count', B, (c_read (fd k) len (-1) :: T).
      split; [exact Hrun|].
      destruct Hpost as [Hp1 Hp2 Hp3 Hp4 Hp5 Hp6 Hp7 Hp8 Hp9 Hp10 Hp11 Hp12
                           Hp13 Hp14 Hp15 Hp16].
      simpl in Hp1, Hp5, Hp6.
      constructor;
        [ rewrite Hin; exact Hp1 | exact Hp2 | exact Hp3
        | rewrite Hp4; now trace_norm
        | exact Hp5 | exact Hp6 | exact Hp7 | exact Hp8 | exact Hp9
        | exact Hp10 | | exact Hp12
        | exact Hp13 | exact Hp14 | exact Hp15 | ].
      * apply Hreq. simpl. rewrite Z.add_0_r. exact Hp11.
      * rewrite Hin. simpl script_verdict.
        destruct (Z.eqb_spec e EINTR); [|contradiction].
        simpl in Hp16.
        apply (loop_ended_read _ k k); try reflexivity; [lia|exact Hp16].
    + (* any other error ends the loop *)
      unfold record_error. cbv beta iota zeta.
      eexists _, _, _, [],
        [c_read (fd k) len (-1); c_SetErrorMessage _; c_free].
      split; [reflexivity|].
      constructor;
        [ simpl; now rewrite Hin | simpl; lia | lia | now trace_norm
        | reflexivity | reflexivity | reflexivity | reflexivity | reflexivity
        | now rewrite write_at_nil | now apply Hreq | reflexivity
        | reflexivity | reflexivity | reflexivity | ].
      rewrite Hin. simpl script_verdict.
      destruct (Z.eqb_spec e EINTR); [contradiction|].
      simpl. repeat split; try lia; auto.
Qed.
End LoopProperties.

Section GuardProperties.
Context {P : Platform}.
Import PosixReadWorker.

Lemma O_NONBLOCK_pos : 0 < O_NONBLOCK.
Proof.
  destruct O_NONBLOCK_bit as (i & Hi & ->). apply Z.pow_pos_nonneg; lia.
Qed.

Lemma land_cleared (flags : Z) :
  Z.land (Z.land flags (Z.lnot O_NONBLOCK)) O_NONBLOCK = 0.
Proof.
  rewrite <- Z.land_assoc, (Z.land_comm (Z.lnot O_NONBLOCK)).
  now rewrite Z.land_lnot_diag, Z.land_0_r.
Qed.

Lemma land_set (flags : Z) :
  Z.land (Z.lor flags O_NONBLOCK) O_NONBLOCK = O_NONBLOCK.
Proof.
  apply Z.bits_inj'. intros n _. rewrite Z.land_spec, Z.lor_spec.
  destruct (Z.testbit flags n), (Z.testbit O_NONBLOCK n); reflexivity.
Qed.

Lemma cleared_nonneg (flags : Z) :
  0 <= flags -> 0 <= Z.land flags (Z.lnot O_NONBLOCK).
Proof. intros H. apply Z.land_nonneg. now left. Qed.

(** Clearing the bit and setting it again gives back the flags of a
    descriptor that had it set: [O_NONBLOCK] is a single bit. *)
Lemma lor_cleared (flags : Z) :
  nonblocking flags = true ->
  Z.lor (Z.land flags (Z.lnot O_NONBLOCK)) O_NONBLOCK = flags.
Proof.
  unfold nonblocking. intros Hnb.
  destruct O_NONBLOCK_bit as (i & Hi & Hbit).
  assert (Hset : Z.testbit flags i = true).
  { destruct (Z.testbit flags i) eqn:Hti; [reflexivity|].
    exfalso. apply negb_true_iff, Z.eqb_neq in Hnb. apply Hnb.
    apply Z.bits_inj'. intros n Hn.
    rewrite Z.land_spec, Hbit, Z.pow2_bits_eqb, Z.bits_0 by lia.
    destruct (Z.eqb_spec i n); [subst; now rewrite Hti | apply andb_false_r]. }
  apply Z.bits_inj'. intros n Hn.
  rewrite Z.lor_spec, Z.land_spec, Z.lnot_spec, Hbit, Z.pow2_bits_eqb by lia.
  destruct (Z.eqb_spec i n); [subst; now rewrite Hset|].
  simpl. now rewrite andb_true_r, orb_false_r.
Qed.


Lemma fcntl_fails_pop (w : world) (i : nat) :
  fcntl_fails (pop_fcntl w) i = fcntl_fails w (S i).
Proof.
  unfold fcntl_fails, pop_fcntl. simpl. now destruct (w_fcntl w).
Qed.

Lemma trace_pop_fcntl (w : world) : trace (pop_fcntl w) = trace w.
Proof. reflexivity. Qed.

#[local] Hint Rewrite trace_pop_fcntl : trace.

Lemma UnsetBlocking_spec (w : world) (k : t) :
  0 <= w_flags w ->
  exists ret w' Tr,
    UnsetBlocking w k = (ret, w')
    /\ trace w' = trace w ++ Tr
    /\ w_input w' = w_input w
    /\ (ret =? 0) = match restoration_errno
                           (restoration_of (fd_was_non_blocking k) w) with
                    | None => true
                    | Some _ => false
                    end
    /\ (forall e,
          restoration_errno (restoration_of (fd_was_non_blocking k) w) = Some e ->
          w_errno w' = e)
    /\ w_flags w' = match restoration_of (fd_was_non_blocking k) w with
                    | Restored => Z.lor (w_flags w) O_NONBLOCK
                    | _ => w_flags w
                    end
    /\ count_calls is_getfl Tr
       = match restoration_of (fd_was_non_blocking k) w with
         | NotNeeded => 0%nat
         | _ => 1%nat
         end
    /\ count_calls is_setfl_nonblock Tr
       = match restoration_of (fd_was_non_blocking k) w with
         | Restored | SetflFailed _ => 1%nat
         | _ => 0%nat
         end
    /\ count_calls is_free Tr = 0%nat
    /\ count_calls is_SetErrorMessage Tr = 0%nat
    /\ count_calls is_read_zero Tr = 0%nat
    /\ count_calls is_malloc Tr = 0%nat
    /\ bytes_returned Tr = 0
    /\ (forall s c, requests_follow s c Tr = true).
Proof.
  intros Hfl. unfold UnsetBlocking, restoration_of.
  destruct (fd_was_non_blocking k).
  2:{ exists 0, w, []. split; [reflexivity|]. split; [now rewrite app_nil_r|].
      repeat split; try reflexivity. simpl. congruence. }
  unfold fcntl_getfl, fcntl_setfl, next_fcntl.
  destruct (fcntl_fails w 0) as [e|] eqn:H0.
  { change (-1 =? -1) with true. cbv beta iota zeta.
    eexists _, _, [c_fcntl_getfl (fd k) (-1)].
    split; [reflexivity|]. split; [now trace_norm|].
    repeat split; try reflexivity. simpl. congruence. }
  change (w_flags (pop_fcntl w)) with (w_flags w).
  destruct (Z.eqb_spec (w_flags w) (-1)) as [|_]; [lia|].
  cbv beta iota zeta.
  change (fcntl_fails (log_call (c_fcntl_getfl (fd k) (w_flags w)) (pop_fcntl w)) 0)
    with (fcntl_fails (pop_fcntl w) 0).
  rewrite fcntl_fails_pop.
  assert (Hbit : negb (Z.land (Z.lor (w_flags w) O_NONBLOCK) O_NONBLOCK =? 0)
                 = true).
  { rewrite land_set. pose proof O_NONBLOCK_pos.
    destruct (Z.eqb_spec O_NONBLOCK 0); [lia|reflexivity]. }
  destruct (fcntl_fails w 1) as [e|] eqn:H1.
  - change (-1 =? -1) with true. cbv beta iota zeta.
    eexists _, _, [c_fcntl_getfl (fd k) (w_flags w);
                   c_fcntl_setfl (fd k) (Z.lor (w_flags w) O_NONBLOCK) (-1)].
    split; [reflexivity|]. split; [now trace_norm|].
    repeat split; try reflexivity.
    + simpl. congruence.
    + simpl. now rewrite Hbit.
  - change (0 =? -1) with false. cbv beta iota zeta.
    eexists _, _, [c_fcntl_getfl (fd k) (w_flags w);
                   c_fcntl_setfl (fd k) (Z.lor (w_flags w) O_NONBLOCK) 0].
    split; [reflexivity|]. split; [now trace_norm|].
    repeat split; try reflexivity.
    + simpl. congruence.
    + simpl. now rewrite Hbit.
Qed.


Lemma Execute_tail_spec (w2 : world) (k2 : t) :
  0 <= w_flags w2 -> 0 < size k2 < 2 ^ 64 ->
  length (data k2) = Z.to_nat (size k2) ->
  errmsg k2 = None -> error_prop k2 = None ->
  exists w' k' B T,
    match read_loop (S (script_weight (w_input w2))) w2 k2 0 with
    | None => None
    | Some (w3, k, _) =>
        let '(r, w4) := UnsetBlocking w3 k in
        if negb (r =? 0) then
          match ErrorMessage k with
          | None =>
              let '(w5, k) :=
                record_error "systemError"
                  ("fnctl failed: " +:+ strerror (w_errno w4)) w4 k in
              Some (sys_free w5, k)
          | Some _ => Some (w4, k)
          end
        else Some (w4, k)
    end = Some (w', k')
    /\ trace w' = trace w2 ++ T
    /\ pending_bytes (w_input w2) = B ++ pending_bytes (w_input w')
    /\ Z.of_nat (length B) <= size k2
    /\ bytes_returned T = Z.of_nat (length B)
    /\ requests_follow (size k2) 0 T = true
    /\ fd k' = fd k2 /\ size k' = size k2
    /\ match ending_error
               (LoopEnded (script_verdict (w_input w2) (size k2) 0)
                  (restoration_of (fd_was_non_blocking k2) w2)) with
       | Some (p, m) => error_prop k' = Some p /\ errmsg k' = Some m
       | None =>
           error_prop k' = None /\ errmsg k' = None
           /\ data k' = B /\ Z.of_nat (length B) = size k2
       end
    /\ match script_verdict (w_input w2) (size k2) 0 with
       | Fails _ got | Closes got =>
           got = Z.of_nat (length B) /\ got < size k2
       | Enough => Z.of_nat (length B) = size k2
       end
    /\ count_calls is_malloc T = 0%nat
    /\ count_calls is_free T
       = ending_frees
           (LoopEnded (script_verdict (w_input w2) (size k2) 0)
              (restoration_of (fd_was_non_blocking k2) w2))
    /\ count_calls is_SetErrorMessage T
       = match ending_error
                 (LoopEnded (script_verdict (w_input w2) (size k2) 0)
                    (restoration_of (fd_was_non_blocking k2) w2)) with
         | Some _ => 1%nat
         | None => 0%nat
         end
    /\ count_calls is_read_zero T
       = ending_read_zero
           (LoopEnded (script_verdict (w_input w2) (size k2) 0)
              (restoration_of (fd_was_non_blocking k2) w2))
    /\ S (count_calls is_getfl T)
       = ending_getfls
           (LoopEnded (script_verdict (w_input w2) (size k2) 0)
              (restoration_of (fd_was_non_blocking k2) w2))
    /\ count_calls is_setfl_nonblock T
       = ending_reapplied
           (LoopEnded (script_verdict (w_input w2) (size k2) 0)
              (restoration_of (fd_was_non_blocking k2) w2))
    /\ w_flags w' = match restoration_of (fd_was_non_blocking k2) w2 with
                    | Restored => Z.lor (w_flags w2) O_NONBLOCK
                    | _ => w_flags w2
                    end.
Proof.
  intros Hfl HN Hlen Hmsg Hprop.
  destruct (read_loop_spec (S (script_weight (w_input w2))) w2 k2 0)
    as (w3 & k3 & count3 & B & Tl & Hrun & Hpost); try lia.
  destruct Hpost as [Hp1 Hp2 Hp3 Hp4 Hp5 Hp6 Hp7 Hp8 Hp9 Hp10 Hp11 Hp12
                       Hp13 Hp14 Hp15 Hp16].
  rewrite Hrun. cbv beta iota zeta.
  destruct (UnsetBlocking_spec w3 k3) as
    (ret & w4 & Tr & Hun & Htr & Hin & Hret & Herrno & Hflags & Hg & Hs & Hf
       & He & Hz & Hm & Hb & Hq); [lia|].
  rewrite Hun. cbv beta iota zeta.
  assert (Hr : restoration_of (fd_was_non_blocking k3) w3
               = restoration_of (fd_was_non_blocking k2) w2).
  { unfold restoration_of, fcntl_fails. now rewrite Hp9, Hp6. }
  rewrite Hr in *. clear Hr.
  rewrite Z.sub_0_r in Hp16.
  assert (HB : Z.of_nat (length B) <= size k2) by lia.
  assert (Hpend : pending_bytes (w_input w2) = B ++ pending_bytes (w_input w4))
    by (now rewrite Hin).
  assert (Htrace : trace w4 = trace w2 ++ (Tl ++ Tr))
    by (now rewrite Htr, Hp4, app_assoc).
  assert (Hdata : count3 = size k2 -> data k3 = B).
  { intros Hfull. rewrite Hp10. apply write_at_all. lia. }
  set (v := script_verdict (w_input w2) (size k2) 0) in *.
  set (r := restoration_of (fd_was_non_blocking k2) w2) in *.
  clearbody v r.
  destruct (restoration_errno r) as [e|] eqn:Hre.
  - (* the restoration failed *)
    destruct (Z.eqb_spec ret 0) as [|_]; [discriminate|].
    cbv beta iota zeta. change (negb false) with true. cbv beta iota zeta.
    rewrite (Herrno e eq_refl).
    destruct v as [|e' got|got]; simpl in Hp16.
    + (* after a full read: the failure is the error of the request *)
      destruct Hp16 as (Hfull & Hmsg3 & Hprop3 & Hfr & Hse & Hrz).
      unfold ErrorMessage. rewrite Hmsg3, Hmsg.
      unfold record_error. cbv beta iota zeta.
      eexists _, _, B, (Tl ++ Tr ++ [c_SetErrorMessage _; c_free]).
      split; [reflexivity|].
      rewrite !count_calls_app, !bytes_returned_app, !requests_follow_app.
      rewrite Hp11, Hp12, Hp13, Hp14, Hp15, Hf, He, Hz, Hm, Hb, Hq, Hg, Hs,
        Hfr, Hse, Hrz.
      split; [trace_norm; rewrite Htrace; now rewrite <- !app_assoc|].
      split; [exact Hpend|].
      simpl ending_error. rewrite Hre.
      destruct r; try discriminate; simpl;
        repeat split; try assumption; try lia; try congruence.
    + (* after an error of the loop: that error stays *)
      destruct Hp16 as (Hne & Hgot & Hlt & Hmsg3 & Hprop3 & Hfr & Hse & Hrz).
      unfold ErrorMessage. rewrite Hmsg3.
      exists w4, k3, B, (Tl ++ Tr).
      split; [reflexivity|].
      rewrite !count_calls_app, !bytes_returned_app, !requests_follow_app.
      rewrite Hp11, Hp12, Hp13, Hp14, Hp15, Hf, He, Hz, Hm, Hb, Hq, Hg, Hs,
        Hfr, Hse, Hrz.
      destruct r; try discriminate; simpl;
        repeat split; try assumption; try lia; try congruence.
    + destruct Hp16 as (Hgot & Hlt & Hnil & Hmsg3 & Hprop3 & Hfr & Hse & Hrz).
      unfold ErrorMessage. rewrite Hmsg3.
      exists w4, k3, B, (Tl ++ Tr).
      split; [reflexivity|].
      rewrite !count_calls_app, !bytes_returned_app, !requests_follow_app.
      rewrite Hp11, Hp12, Hp13, Hp14, Hp15, Hf, He, Hz, Hm, Hb, Hq, Hg, Hs,
        Hfr, Hse, Hrz.
      destruct r; try discriminate; simpl;
        repeat split; try assumption; try lia; try congruence.
  - (* the mode is as it was *)
    destruct (Z.eqb_spec ret 0) as [_|]; [|discriminate].
    change (negb true) with false. cbv beta iota zeta.
    exists w4, k3, B, (Tl ++ Tr).
    split; [reflexivity|].
    rewrite !count_calls_app, !bytes_returned_app, !requests_follow_app.
    rewrite Hp11, Hp12, Hp13, Hp14, Hp15, Hf, He, Hz, Hm, Hb, Hq, Hg, Hs.
    destruct v as [|e' got|got]; simpl in Hp16; simpl ending_error;
      rewrite ?Hre.
    + destruct Hp16 as (Hfull & Hmsg3 & Hprop3 & Hfr & Hse & Hrz).
      rewrite Hfr, Hse, Hrz.
      destruct r; try discriminate; simpl;
        repeat split; try assumption; try lia; try congruence; auto.
    + destruct Hp16 as (Hne & Hgot & Hlt & Hmsg3 & Hprop3 & Hfr & Hse & Hrz).
      rewrite Hfr, Hse, Hrz.
      destruct r; try discriminate; simpl;
        repeat split; try assumption; try lia; try congruence.
    + destruct Hp16 as (Hgot & Hlt & Hnil & Hmsg3 & Hprop3 & Hfr & Hse & Hrz).
      rewrite Hfr, Hse, Hrz.
      destruct r; try discriminate; simpl;
        repeat split; try assumption; try lia; try congruence.
Qed.

Lemma Execute_spec (w : world) (indet : bool) (d N : Z) :
  0 <= w_flags w -> 0 < N < 2 ^ 64 ->
  exists w' k' B T,
    Execute w (new indet d N) = Some (w', k')
    /\ exec_post w d N w' k' B T.
Proof.
  intros Hfl HN. unfold Execute, sys_malloc.
  change (size (new indet d N)) with N.
  destruct (w_malloc w) as [e|] eqn:Hm.
  - (* malloc failed *)
    unfold record_error. cbv beta iota zeta.
    eexists _, _, [], [c_malloc N false; c_SetErrorMessage _].
    split; [reflexivity|].
    constructor; unfold ending_of; rewrite ?Hm;
      try reflexivity; try (simpl; lia).
    + now trace_norm.
    + split; reflexivity.
  - set (k1 := set_data (map (w_junk w) (seq 0 (Z.to_nat N))) (new indet d N)).
    unfold SetBlocking, fcntl_getfl, next_fcntl.
    change (fcntl_fails (log_call (c_malloc N true) w) 0)
      with (fcntl_fails w 0).
    destruct (fcntl_fails w 0) as [e|] eqn:H0.
    + (* F_GETFL failed *)
      change (-1 =? -1) with true. cbv beta iota zeta.
      change (negb (-1 =? 0)) with true. cbv beta iota zeta.
      unfold record_error. cbv beta iota zeta.
      eexists _, _, [],
        [c_malloc N true; c_fcntl_getfl d (-1); c_SetErrorMessage _; c_free].
      split; [reflexivity|].
      constructor; unfold ending_of; rewrite ?Hm, ?H0;
        try reflexivity; try (simpl; lia).
      * now trace_norm.
      * split; reflexivity.
    + change (w_flags (pop_fcntl (log_call (c_malloc N true) w)))
        with (w_flags w).
      destruct (Z.eqb_spec (w_flags w) (-1)) as [|_]; [lia|].
      cbv beta iota zeta.
      change (fd_was_non_blocking
                (set_fd_was_non_blocking
                   (negb (Z.land (w_flags w) O_NONBLOCK =? 0)) k1))
        with (nonblocking (w_flags w)).
      change (negb (Z.land (w_flags w) O_NONBLOCK =? 0))
        with (nonblocking (w_flags w)).
      destruct (nonblocking (w_flags w)) eqn:Hnb.
      * unfold fcntl_setfl, next_fcntl.
        change (fcntl_fails
                  (log_call (c_fcntl_getfl (fd k1) (w_flags w))
                     (pop_fcntl (log_call (c_malloc N true) w))) 0)
          with (fcntl_fails (pop_fcntl w) 0).
        rewrite fcntl_fails_pop.
        destruct (fcntl_fails w 1) as [e|] eqn:H1.
        -- (* F_SETFL failed *)
           change (-1 =? -1) with true. cbv beta iota zeta.
           change (negb (-1 =? 0)) with true. cbv beta iota zeta.
           unfold record_error. cbv beta iota zeta.
           eexists _, _, [],
             [c_malloc N true; c_fcntl_getfl d (w_flags w);
              c_fcntl_setfl d (Z.land (w_flags w) (Z.lnot O_NONBLOCK)) (-1);
              c_SetErrorMessage _; c_free].
           split; [reflexivity|].
           constructor; unfold ending_of; rewrite ?Hm, ?H0, ?Hnb, ?H1;
             try reflexivity; try (simpl; lia).
           ++ now trace_norm.
           ++ split; reflexivity.
           ++ simpl. now rewrite land_cleared.
        -- (* the descriptor is blocking now *)
           change (0 =? -1) with false. cbv beta iota zeta.
           change (negb (0 =? 0)) with false. cbv beta iota zeta.
           set (k2 := set_fd_was_non_blocking true k1).
           set (w2 := log_call _ _).
           destruct (Execute_tail_spec w2 k2)
             as (w' & k' & B & T2 & Hrun & Ht & Hpend & HB & Hret & Hreq
                   & Hfd & Hsize & Herr & Hgot & Hmal & Hfree & Hset & Hzero & Hget
                   & Hre & Hflags);
             [ now apply cleared_nonneg | exact HN
             | subst k2 k1; simpl; now rewrite length_map, length_seq
             | reflexivity | reflexivity | ].
           change (size k2) with N in *. change (fd k2) with d in *.
           change (w_input w2) with (w_input w) in *.
           change (fd_was_non_blocking k2) with true in *.
           change (w_flags w2) with (Z.land (w_flags w) (Z.lnot O_NONBLOCK))
             in *.
           assert (Hr : restoration_of true w2
                        = match fcntl_fails w 2 with
                          | Some e => GetflFailed e
                          | None =>
                              match fcntl_fails w 3 with
                              | Some e => SetflFailed e
                              | None => Restored
                              end
                          end).
           { unfold restoration_of.
             change (fcntl_fails w2) with (fcntl_fails (pop_fcntl (pop_fcntl w))).
             now rewrite !fcntl_fails_pop. }
           rewrite Hr in *. clear Hr.
           exists w', k', B,
             ([c_malloc N true; c_fcntl_getfl d (w_flags w);
               c_fcntl_setfl d (Z.land (w_flags w) (Z.lnot O_NONBLOCK)) 0]
                ++ T2).
           split; [exact Hrun|].
           constructor; unfold ending_of; rewrite ?Hm, ?H0, ?Hnb, ?H1;
             rewrite ?count_calls_app, ?bytes_returned_app,
               ?requests_follow_app;
             [ rewrite Ht; subst w2; now trace_norm
             | exact Hpend | exact HB | simpl; exact Hret | simpl; exact Hreq
             | exact Hfd | exact Hsize | exact Herr | exact Hgot
             | simpl; now rewrite Hmal | simpl; exact Hfree
             | simpl; exact Hset | simpl; exact Hzero
             | etransitivity; [|exact Hget]; reflexivity
             | simpl; now rewrite land_cleared | ].
           rewrite Hflags.
           destruct (fcntl_fails w 2); [reflexivity|].
           destruct (fcntl_fails w 3); [reflexivity|].
           now apply lor_cleared.
      * (* the descriptor was blocking *)
        change (negb (0 =? 0)) with false. cbv beta iota zeta.
        set (k2 := set_fd_was_non_blocking false k1).
        set (w2 := log_call _ _).
        destruct (Execute_tail_spec w2 k2)
          as (w' & k' & B & T2 & Hrun & Ht & Hpend & HB & Hret & Hreq
                & Hfd & Hsize & Herr & Hgot & Hmal & Hfree & Hset & Hzero & Hget
                & Hre & Hflags);
          [ exact Hfl | exact HN
          | subst k2 k1; simpl; now rewrite length_map, length_seq
          | reflexivity | reflexivity | ].
        change (size k2) with N in *. change (fd k2) with d in *.
        change (w_input w2) with (w_input w) in *.
        change (fd_was_non_blocking k2) with false in *.
        change (w_flags w2) with (w_flags w) in *.
        change (restoration_of false w2) with NotNeeded in *.
        exists w', k', B, ([c_malloc N true; c_fcntl_getfl d (w_flags w)] ++ T2).
        split; [exact Hrun|].
        constructor; unfold ending_of; rewrite ?Hm, ?H0, ?Hnb;
          rewrite ?count_calls_app, ?bytes_returned_app,
            ?requests_follow_app;
          [ rewrite Ht; subst w2; now trace_norm
          | exact Hpend | exact HB | simpl; exact Hret | simpl; exact Hreq
          | exact Hfd | exact Hsize | exact Herr | exact Hgot
          | simpl; now rewrite Hmal | simpl; exact Hfree
          | simpl; exact Hset | simpl; exact Hzero
          | etransitivity; [|exact Hget]; reflexivity
          | simpl; exact Hre | exact Hflags ].
Qed.
(** Whenever [Execute] leaves an error message it has set [error_prop]. *)
Lemma error_prop_set (w : world) (indet : bool) (d N : Z) (w' : world)
  (k' : t) :
  0 <= w_flags w -> 0 < N < 2 ^ 64 ->
  Execute w (new indet d N) = Some (w', k') ->
  errmsg k' <> None -> error_prop k' <> None.
Proof.
  intros Hfl HN Hrun Hmsg.
  destruct (Execute_spec w indet d N Hfl HN) as (w1 & k1 & B & T & Hrun1 & Hpost).
  rewrite Hrun in Hrun1. injection Hrun1 as <- <-.
  pose proof (ep_error _ _ _ _ _ _ _ Hpost) as Herr.
  destruct (ending_error (ending_of w N)) as [[p m]|].
  - destruct Herr as [Hp _]. congruence.
  - destruct Herr as (_ & Hm & _). contradiction.
Qed.

End GuardProperties.

(** ** The checks of [Read] and the whole request *)

Lemma GetFdFromSocket_range (socket : value) :
  GetFdFromSocket socket = -1 \/ 0 <= GetFdFromSocket socket.
Proof.
  unfold GetFdFromSocket.
  repeat match goal with
         | |- context [if ?c then _ else _] => destruct c eqn:?
         end; try (now left).
  right. lia.
Qed.

Lemma Read_Queued_inv (info : list value) (fd N : Z) :
  Read info = Queued fd N ->
  length info = 3%nat
  /\ LooksLikeASocket (arg info 0) = true
  /\ IsNumber (arg info 1) = true
  /\ N = To_int (arg info 1) /\ 0 < N < 2 ^ 31
  /\ IsFunction (arg info 2) = true
  /\ SocketIsReadable (arg info 0) = true
  /\ fd = GetFdFromSocket (arg info 0) /\ 0 <= fd.
Proof.
  unfold Read. intros H.
  destruct (Nat.eqb_spec (length info) 3) as [Hlen|]; [|discriminate].
  destruct (LooksLikeASocket (arg info 0)); [|discriminate].
  destruct (IsNumber (arg info 1)); [|discriminate].
  destruct (Z.leb_spec (To_int (arg info 1)) 0) as [|Hpos]; [discriminate|].
  destruct (IsFunction (arg info 2)); [|discriminate].
  destruct (SocketIsReadable (arg info 0)); [|discriminate].
  simpl in H.
  destruct (Z.eqb_spec (GetFdFromSocket (arg info 0)) (-1)) as [|Hfd];
    [discriminate|].
  injection H as <- <-.
  pose proof (To_int_range (arg info 1)) as Hr.
  rewrite wrap_size_t_small by lia.
  destruct (GetFdFromSocket_range (arg info 0)); [contradiction|].
  repeat split; try reflexivity; try assumption; lia.
Qed.

Section Requests.
Context {P : Platform}.
Import PosixReadWorker.

Lemma WorkComplete_spec (w : world) (d N : Z) (w' : world) (k' : t)
  (B : list Byte.byte) (T : list call) :
  0 < N < 2 ^ 31 ->
  exec_post w d N w' k' B T ->
  WorkComplete k' = [expected_callback (ending_of w N) B].
Proof.
  intros HN Hpost. pose proof (ep_error _ _ _ _ _ _ _ Hpost) as Herr.
  pose proof (ep_size _ _ _ _ _ _ _ Hpost) as Hsize.
  unfold WorkComplete, expected_callback, ErrorMessage.
  destruct (ending_error (ending_of w N)) as [[p m]|].
  - destruct Herr as [Hp Hm]. unfold HandleErrorCallback, ErrorMessage, Call.
    now rewrite Hm, Hp.
  - destruct Herr as (_ & Hm & Hd & Hl). rewrite Hm.
    unfold HandleOKCallback, Call. rewrite Hsize, Hd.
    unfold wrap_uint32. rewrite Z.mod_small by lia.
    rewrite take_ge by lia. reflexivity.
Qed.

(** An accepted request: the worker runs to its end, and the completion
    handler is called once, with what the ending says. *)
Lemma posixRead_queued (info : list value) (indet : bool) (w : world)
  (fd N : Z) :
  0 <= w_flags w ->
  Read info = Queued fd N ->
  exists w' k' B T,
    posixRead info indet w
    = Some (Run None [expected_callback (ending_of w N) B] w')
    /\ exec_post w fd N w' k' B T.
Proof.
  intros Hfl HQ. destruct (Read_Queued_inv _ _ _ HQ) as (_ & _ & _ & _ & HN & _).
  destruct (Execute_spec w indet fd N Hfl) as (w' & k' & B & T & Hrun & Hpost);
    [lia|].
  exists w', k', B, T. split; [|exact Hpost].
  unfold posixRead. rewrite HQ, Hrun.
  now rewrite (WorkComplete_spec _ _ _ _ _ _ _ HN Hpost).
Qed.



Lemma ending_of_LoopEnded (w : world) (N : Z) (v : verdict) (r0 : restoration) :
  ending_of w N = LoopEnded v r0 ->
  w_malloc w = None /\ fcntl_fails w 0 = None
  /\ v = script_verdict (w_input w) N 0
  /\ (r0 <> NotNeeded -> nonblocking (w_flags w) = true /\ fcntl_fails w 1 = None).
Proof.
  unfold ending_of. intros H.
  destruct (w_malloc w); [discriminate|].
  destruct (fcntl_fails w 0); [discriminate|].
  destruct (nonblocking (w_flags w)).
  - destruct (fcntl_fails w 1); [discriminate|].
    injection H as <- <-. repeat split; reflexivity.
  - injection H as <- <-. repeat split; try reflexivity; contradiction.
Qed.


(** C5.  When a [read] of the request returns 0, the completion handler
    receives an error with the endOfFile flag whose message is exactly
    "reached end of stream (read {count} bytes)", {count} being the number
    of bytes the [read] calls of the request returned, fewer than
    requested. *)
Theorem end_of_stream_reports_count (info : list value) (indet : bool)
  (w : world) (r : run) (T : list call) :
  0 <= w_flags w ->
  posixRead info indet w = Some r ->
  trace (after r) = trace w ++ T ->
  (0 < count_calls is_read_zero T)%nat ->
  let count := bytes_returned T in
  let msg := "reached end of stream (read " +:+ fmt_lu count +:+ " bytes)" in
  raised r = None
  /\ callbacks r = [[ErrorWithProperty "endOfFile" msg]]
  /\ outcome_of [ErrorWithProperty "endOfFile" msg] = Some (EndOfFile msg)
  /\ 0 <= count < To_int (arg info 1)
  /\ exists B,
       pending_bytes (w_input w) = B ++ pending_bytes (w_input (after r))
       /\ count = Z.of_nat (length B).
Proof.
  intros Hfl Hrun Htr Hzero count msg.
  assert (Hnone : after r = w -> False).
  { intros Hw. rewrite Hw in Htr.
    rewrite <- (app_nil_r (trace w)) in Htr at 1.
    apply app_inv_head in Htr. subst T. simpl in Hzero. lia. }
  unfold posixRead in Hrun.
  destruct (Read info) as [kind message|argv|fd N] eqn:HQ.
  - injection Hrun as <-. now destruct Hnone.
  - injection Hrun as <-. now destruct Hnone.
  - clear Hnone.
    destruct (Read_Queued_inv _ _ _ HQ) as (_ & _ & _ & HN & _).
    destruct (posixRead_queued info indet w fd N Hfl HQ)
      as (w' & k' & B & T' & Hrun' & Hpost).
    unfold posixRead in Hrun'. rewrite HQ in Hrun'. rewrite Hrun' in Hrun.
    injection Hrun as <-. simpl in *.
    destruct Hpost as [Htr' Hpend _ Hret _ _ _ _ Hread _ _ _ Hrz _ _ _].
    rewrite Htr' in Htr. apply app_inv_head in Htr. subst T'.
    rewrite Hrz in Hzero.
    destruct (ending_of w N) as [e|e|[|e got|got] r0]; simpl in Hzero;
      try lia.
    destruct Hread as [Hgot Hlt].
    subst msg count. rewrite Hret, <- Hgot.
    repeat split; try reflexivity; try lia.
    exists B. split; [exact Hpend|]. now rewrite <- Hgot.
Qed.

(** C4.  When the loop has read all N bytes and restoring the non-blocking
    mode then fails, with errno [e], the completion handler receives an
    error with the systemError flag, made from that failure, and no
    buffer: the buffer is freed. *)
Theorem restoration_failure_overrides_success (info : list value)
  (indet : bool) (w : world) (fd N : Z) (r0 : restoration) (e : Z) :
  0 <= w_flags w ->
  Read info = Queued fd N ->
  ending_of w N = LoopEnded Enough r0 ->
  restoration_errno r0 = Some e ->
  let msg := snprintf_256 ("fnctl failed: " +:+ strerror e) in
  exists r T,
    posixRead info indet w = Some r
    /\ raised r = None
    /\ callbacks r = [[ErrorWithProperty "systemError" msg]]
    /\ outcome_of [ErrorWithProperty "systemError" msg] = Some (SystemError msg)
    /\ trace (after r) = trace w ++ T
    /\ bytes_returned T = N
    /\ count_calls is_SetErrorMessage T = 1%nat
    /\ count_calls is_free T = 1%nat.
Proof.
  intros Hfl HQ Hend Hre msg.
  destruct (posixRead_queued info indet w fd N Hfl HQ)
    as (w' & k' & B & T & Hrun & Hpost).
  destruct Hpost as [Htr _ _ Hret _ _ _ _ Hread _ Hfree Hset _ _ _ _].
  rewrite Hend in *. simpl in Hread, Hfree, Hset.
  unfold expected_callback in Hrun. simpl in Hrun. rewrite Hre in *.
  eexists _, T. split; [exact Hrun|]. simpl.
  repeat split; try assumption; try reflexivity.
  - lia.
  - now destruct r0.
Qed.

(** C10.  When the loop has recorded an error of its own (a failed [read],
    or the end of the stream) and restoring the non-blocking mode fails as
    well, the completion handler receives the error of the loop and nothing
    of the second failure: one error message is set in all, and the
    descriptor is left in blocking mode although it was non-blocking. *)
Theorem restoration_failure_after_loop_error_is_dropped (info : list value)
  (indet : bool) (w : world) (fd N : Z) (v : verdict) (r0 : restoration)
  (e : Z) :
  0 <= w_flags w ->
  Read info = Queued fd N ->
  ending_of w N = LoopEnded v r0 ->
  v <> Enough ->
  restoration_errno r0 = Some e ->
  exists r T,
    posixRead info indet w = Some r
    /\ raised r = None
    /\ callbacks r
       = [[match v with
           | Fails e' _ =>
               ErrorWithProperty "systemError"
                 (snprintf_256 ("read failed: " +:+ strerror e'))
           | Closes got =>
               ErrorWithProperty "endOfFile"
                 ("reached end of stream (read " +:+ fmt_lu got +:+ " bytes)")
           | Enough => VUndefined
           end]]
    /\ trace (after r) = trace w ++ T
    /\ count_calls is_SetErrorMessage T = 1%nat
    /\ count_calls is_free T = 1%nat
    /\ nonblocking (w_flags w) = true
    /\ nonblocking (w_flags (after r)) = false.
Proof.
  intros Hfl HQ Hend Hv Hre.
  destruct (posixRead_queued info indet w fd N Hfl HQ)
    as (w' & k' & B & T & Hrun & Hpost).
  destruct Hpost as [Htr _ _ _ _ _ _ _ _ _ Hfree Hset _ _ _ Hflags].
  destruct (ending_of_LoopEnded _ _ _ _ Hend) as (_ & _ & _ & Hnb).
  destruct Hnb as [Hnb _]; [now destruct r0|].
  rewrite Hend in *.
  eexists _, T. split; [exact Hrun|]. simpl.
  assert (Hleft : nonblocking (w_flags w') = false).
  { rewrite Hflags. destruct r0; try discriminate; simpl;
      unfold nonblocking; now rewrite land_cleared. }
  destruct v as [|e' got|got]; [contradiction| |];
    (repeat split; try assumption; try reflexivity; now destruct r0).
Qed.




Lemma script_verdict_EINTR (evs1 evs2 : list event) (want got : Z) :
  script_verdict (evs1 ++ Fail EINTR :: evs2) want got
  = script_verdict (evs1 ++ evs2) want got.
Proof.
  revert want got. induction evs1 as [|[b bs|e] evs1 IH]; intros want got;
    simpl.
  - now rewrite Z.eqb_refl.
  - now rewrite IH.
  - now rewrite IH.
Qed.

Lemma script_verdict_Fail (evs1 evs2 : list event) (e want got : Z) :
  only_interrupted evs1 ->
  Z.of_nat (length (pending_bytes evs1)) < want ->
  e <> EINTR ->
  script_verdict (evs1 ++ Fail e :: evs2) want got
  = Fails e (got + Z.of_nat (length (pending_bytes evs1))).
Proof.
  intros Hint. revert want got.
  induction Hint as [|[b bs|e'] evs1 Hev Hint IH]; intros want got Hlen He.
  - simpl. destruct (Z.eqb_spec e EINTR); [contradiction|].
    now rewrite Z.add_0_r.
  - unfold pending_bytes in Hlen. simpl in Hlen.
    rewrite length_app in Hlen. cbn [app script_verdict].
    destruct (Z.leb_spec want (Z.of_nat (S (length bs)))); [lia|].
    rewrite IH by (unfold pending_bytes; lia || exact He).
    unfold pending_bytes. simpl. rewrite length_app. f_equal. lia.
  - subst e'. cbn [app script_verdict]. rewrite Z.eqb_refl.
    now rewrite IH.
Qed.

Lemma pending_bytes_EINTR (evs1 evs2 : list event) (e : Z) :
  pending_bytes (evs1 ++ Fail e :: evs2) = pending_bytes (evs1 ++ evs2).
Proof.
  unfold pending_bytes. now rewrite !map_app, !concat_app.
Qed.


(** C2, as the sources have it.  In the worker a [read] that fails with
    [EINTR] is retried transparently: wherever such a failure stands in the
    script, the completion handler receives what it receives without it,
    and the descriptor is left the same.  A [read] that fails with any other
    errno, [EAGAIN] included, after interruptions and fewer than N bytes,
    ends the loop: the handler receives an error with the systemError flag
    and the message "read failed: ...".  In the synchronous addon both
    [EINTR] and [EAGAIN] lead to the next [read]. *)
Theorem only_EINTR_is_retried_by_the_worker (info : list value)
  (indet : bool) (w : world) (fd N : Z) :
  0 <= w_flags w ->
  Read info = Queued fd N ->
  (forall evs1 evs2,
      exists r1 r2,
        posixRead info indet (set_input (evs1 ++ Fail EINTR :: evs2) w)
        = Some r1
        /\ posixRead info indet (set_input (evs1 ++ evs2) w) = Some r2
        /\ raised r1 = raised r2
        /\ callbacks r1 = callbacks r2
        /\ w_flags (after r1) = w_flags (after r2)
        /\ pending_bytes (w_input (after r1))
           = pending_bytes (w_input (after r2)))
  /\ (forall e evs1 evs2 v r0,
         e <> EINTR ->
         w_input w = evs1 ++ Fail e :: evs2 ->
         only_interrupted evs1 ->
         Z.of_nat (length (pending_bytes evs1)) < N ->
         ending_of w N = LoopEnded v r0 ->
         exists r,
           posixRead info indet w = Some r
           /\ callbacks r
              = [[ErrorWithProperty "systemError"
                    (snprintf_256 ("read failed: " +:+ strerror e))]])
  /\ EAGAIN <> EINTR
  /\ (forall fuel w' d size data count e rest,
         w_input w' = Fail e :: rest ->
         e = EINTR \/ e = EAGAIN ->
         count < size ->
         Historic.read_loop (S fuel) w' d size data count
         = Historic.read_loop fuel
             (log_call (c_read d (wrap_size_t (size - count)) (-1))
                (set_errno e (set_input rest w')))
             d size data count).
Proof.
  intros Hfl HQ. split; [|split; [|split]].
  - intros evs1 evs2.
    set (w1 := set_input (evs1 ++ Fail EINTR :: evs2) w).
    set (w2 := set_input (evs1 ++ evs2) w).
    destruct (posixRead_queued info indet w1 fd N Hfl HQ)
      as (w1' & k1 & B1 & T1 & Hrun1 & Hpost1).
    destruct (posixRead_queued info indet w2 fd N Hfl HQ)
      as (w2' & k2 & B2 & T2 & Hrun2 & Hpost2).
    assert (Hend : ending_of w1 N = ending_of w2 N).
    { unfold ending_of. subst w1 w2. simpl.
      now rewrite script_verdict_EINTR. }
    assert (Hpend : pending_bytes (w_input w1) = pending_bytes (w_input w2)).
    { subst w1 w2. simpl. apply pending_bytes_EINTR. }
    destruct Hpost1 as [_ Hp1 _ _ _ _ _ _ Hread1 _ _ _ _ _ _ Hfl1].
    destruct Hpost2 as [_ Hp2 _ _ _ _ _ _ Hread2 _ _ _ _ _ _ Hfl2].
    rewrite Hend in *.
    assert (HB : B1 = B2).
    { assert (HL : length B1 = length B2).
      { destruct (ending_of w2 N) as [e|e|[|e got|got] r0];
          first [ now subst | lia | destruct Hread1, Hread2; lia ]. }
      apply (f_equal (take (length B1))) in Hp1, Hp2.
      rewrite take_app_length in Hp1. rewrite HL in Hp2 at 2.
      rewrite take_app_length in Hp2. congruence. }
    subst B2.
    eexists _, _. split; [exact Hrun1|]. split; [exact Hrun2|]. simpl.
    repeat split.
    + rewrite Hfl1, Hfl2. reflexivity.
    + rewrite Hp1 in Hpend. rewrite Hp2 in Hpend at 1.
      now apply app_inv_head in Hpend.
  - intros e evs1 evs2 v r0 He Hin Hint Hlen Hend.
    destruct (posixRead_queued info indet w fd N Hfl HQ)
      as (w' & k' & B & T & Hrun & Hpost).
    destruct (ending_of_LoopEnded _ _ _ _ Hend) as (_ & _ & Hv & _).
    rewrite Hin, script_verdict_Fail in Hv by assumption. subst v.
    rewrite Hend in Hrun.
    eexists. split; [exact Hrun|]. reflexivity.
  - intros H. apply EINTR_not_EAGAIN. now symmetry.
  - intros fuel w' d size data count e rest Hin He Hlt.
    simpl. rewrite (sys_read_fail _ _ _ _ _ Hin). cbv beta iota zeta.
    change (-1 =? -1) with true. cbv beta iota zeta.
    change (w_errno (log_call (c_read d (wrap_size_t (size - count)) (-1))
                       (set_errno e (set_input rest w')))) with e.
    assert (Hretry : (e =? EINTR) || (e =? EAGAIN) = true).
    { destruct He as [-> | ->]; rewrite Z.eqb_refl;
        [reflexivity | apply orb_true_r]. }
    rewrite Hretry.
    destruct (Z.ltb_spec count size); [reflexivity|lia].
Qed.


End Requests.

(** ** The argument and stream checks *)

Lemma To_int_integer (z : Z) :
  - 2 ^ 31 <= z < 2 ^ 31 -> To_int (VNumber (Fin (inject_Z z))) = z.
Proof.
  intros Hz. simpl. rewrite Z.quot_1_r. now apply wrap_int32_small.
Qed.

Lemma SocketIsReadable_true (socket : value) :
  SocketIsReadable socket = true <-> Get socket "readable" = VBool true.
Proof.
  unfold SocketIsReadable, Has, Get.
  destruct socket as [| | | | | | |c props]; simpl; try (split; discriminate).
  destruct (props !! "readable") as [v|] eqn:Hv; simpl.
  - destruct v as [| |[|]| | | | |]; simpl; split; congruence.
  - split; discriminate.
Qed.

Lemma GetFdFromSocket_unresolved (socket : value) :
  GetFdFromSocket socket = -1
  <-> Has socket "_handle" = false
      \/ IsObject (Get socket "_handle") = false
      \/ strcmp "TCP" (GetConstructorName (Get socket "_handle")) <> 0
      \/ Has (Get socket "_handle") "fd" = false
      \/ IsNumber (Get (Get socket "_handle") "fd") = false
      \/ To_int (Get (Get socket "_handle") "fd") < 0.
Proof.
  unfold GetFdFromSocket.
  destruct (Has socket "_handle"); cbn [negb]; [|intuition].
  destruct (IsObject (Get socket "_handle")); cbn [negb]; [|intuition].
  destruct (Z.eqb_spec (strcmp "TCP" (GetConstructorName (Get socket "_handle")))
              0)
    as [Hc|Hc]; cbn [negb];
    [|split; [intros _; right; right; left; exact Hc | reflexivity]].
  destruct (Has (Get socket "_handle") "fd"); cbn [negb]; [|intuition].
  destruct (IsNumber (Get (Get socket "_handle") "fd")); cbn [negb];
    [|intuition].
  destruct (Z.ltb_spec (To_int (Get (Get socket "_handle") "fd")) 0);
    [intuition|].
  split; [lia|].
  intros [|[|[|[|[|]]]]]; try discriminate; lia.
Qed.

(** C6, as the code has it.  For a call with three arguments whose first
    looks like a socket, [read] throws the TypeError "second argument should
    be a positive integer" (at once, nothing allocated, nothing called,
    the descriptor untouched) exactly when the second argument is not a
    number or its conversion to a 32-bit int is not positive.  For whole
    numbers in the range of an int the conversion is the number itself, so
    zero and the negative ones are rejected; a fraction is truncated first,
    so 2.5 converts to 2. *)
Theorem size_is_checked_by_int_conversion {P : Platform} (info : list value)
  (indet : bool) (w : world) :
  length info = 3%nat ->
  LooksLikeASocket (arg info 0) = true ->
  (posixRead info indet w
   = Some (Run (Some ("TypeError",
                      "second argument should be a positive integer")) [] w)
   <-> IsNumber (arg info 1) = false \/ To_int (arg info 1) <= 0)
  /\ (forall z, - 2 ^ 31 <= z < 2 ^ 31 ->
        To_int (VNumber (Fin (inject_Z z))) = z)
  /\ To_int (VNumber NaN) = 0
  /\ To_int (VNumber (Fin (5 # 2))) = 2.
Proof.
  intros Hlen Hsock. split; [|split; [exact To_int_integer|split; reflexivity]].
  unfold posixRead, Read. rewrite Hlen, Hsock. simpl.
  destruct (IsNumber (arg info 1)); simpl; [|split; [now left|reflexivity]].
  destruct (Z.leb_spec (To_int (arg info 1)) 0) as [Hle|Hgt]; simpl;
    [split; [now right|reflexivity]|].
  split; [|intros [|]; [discriminate|lia]].
  repeat match goal with
         | |- context [if ?c then _ else _] => destruct c
         end; try discriminate.
  destruct (PosixReadWorker.Execute _ _) as [[w' k']|]; discriminate.
Qed.

(** C7, as the code has it.  For a call that passes the argument checks
    nothing is thrown and the descriptor is not touched: when the readable
    flag of the socket is not [true] the callback receives an error with the
    badStream flag and the message "socket is not readable"; when it is
    [true] and no descriptor can be got from the handle, it receives one
    with the message "malformed socket object, cannot get file descriptor";
    and when a descriptor can be got the worker is queued on it.  No
    descriptor can be got exactly when [_handle] is missing or not an
    object, its constructor name does not read "TCP" for [strcmp], or its
    [fd] is missing, not a number, or converts to a negative int. *)
Theorem stream_checks_report_badStream {P : Platform} (info : list value)
  (indet : bool) (w : world) :
  length info = 3%nat ->
  LooksLikeASocket (arg info 0) = true ->
  IsNumber (arg info 1) = true ->
  0 < To_int (arg info 1) ->
  IsFunction (arg info 2) = true ->
  let socket := arg info 0 in
  let not_readable := ErrorWithProperty "badStream" "socket is not readable" in
  let malformed :=
    ErrorWithProperty "badStream"
      "malformed socket object, cannot get file descriptor" in
  (Get socket "readable" <> VBool true ->
   posixRead info indet w = Some (Run None [[not_readable]] w))
  /\ (Get socket "readable" = VBool true ->
      GetFdFromSocket socket = -1 ->
      posixRead info indet w = Some (Run None [[malformed]] w))
  /\ outcome_of [not_readable] = Some (BadStream "socket is not readable")
  /\ outcome_of [malformed]
     = Some (BadStream "malformed socket object, cannot get file descriptor")
  /\ (GetFdFromSocket socket = -1
      <-> Has socket "_handle" = false
          \/ IsObject (Get socket "_handle") = false
          \/ strcmp "TCP" (GetConstructorName (Get socket "_handle")) <> 0
          \/ Has (Get socket "_handle") "fd" = false
          \/ IsNumber (Get (Get socket "_handle") "fd") = false
          \/ To_int (Get (Get socket "_handle") "fd") < 0)
  /\ (Get socket "readable" = VBool true ->
      GetFdFromSocket socket <> -1 ->
      Read info
      = Queued (To_int (Get (Get socket "_handle") "fd"))
          (To_int (arg info 1)))
  /\ (forall kind message, Read info <> Thrown kind message).
Proof.
  intros Hlen Hsock Hnum Hpos Hfun socket not_readable malformed.
  assert (Hchecks : forall res,
             (if negb (SocketIsReadable socket) then
                CalledBack [[not_readable]]
              else if GetFdFromSocket socket =? -1 then
                     CalledBack [[malformed]]
                   else Queued (GetFdFromSocket socket)
                          (wrap_size_t (To_int (arg info 1)))) = res ->
             Read info = res).
  { intros res <-. unfold Read. rewrite Hlen, Hsock, Hnum, Hfun. simpl.
    destruct (Z.leb_spec (To_int (arg info 1)) 0); [lia|]. reflexivity. }
  split; [|split; [|split; [reflexivity|split; [reflexivity|split; [|split]]]]].
  - intros Hr. unfold posixRead. erewrite Hchecks; [|reflexivity].
    destruct (SocketIsReadable socket) eqn:Hs; [|reflexivity].
    now apply SocketIsReadable_true in Hs.
  - intros Hr Hfd. unfold posixRead. erewrite Hchecks; [|reflexivity].
    apply SocketIsReadable_true in Hr. rewrite Hr, Hfd. reflexivity.
  - apply GetFdFromSocket_unresolved.
  - intros Hr Hfd. erewrite Hchecks; [|reflexivity].
    apply SocketIsReadable_true in Hr. rewrite Hr. cbn [negb].
    destruct (Z.eqb_spec (GetFdFromSocket socket) (-1)) as [|_];
      [contradiction|].
    pose proof (To_int_range (arg info 1)).
    rewrite wrap_size_t_small by lia. f_equal.
    revert Hfd. unfold GetFdFromSocket.
    repeat match goal with
           | |- context [if ?c then _ else _] => destruct c
           end; congruence.
  - intros kind message. erewrite Hchecks; [|reflexivity].
    repeat match goal with
           | |- context [if ?c then _ else _] => destruct c
           end; discriminate.
Qed.

(** ** On Linux: the scenarios of the test-suite *)

Example reads_10_bytes :
  exists r,
    posixRead (P:=linux) (request (tcp_socket true 7) 10) false
      (a_world 2050 (chunk_of alphabet) []) = Some r
    /\ callbacks r = [[VNull; VBuffer (bytes_of "ABCDEFGHIJ")]]
    /\ pending_bytes (w_input (after r)) = bytes_of "KLMNOPQRSTUVWXYZ"
    /\ w_flags (after r) = 2050.
Proof. eexists. split; [vm_compute; reflexivity|]. repeat split. Qed.

Example accepts_data_sent_by_chunks :
  exists r,
    posixRead (P:=linux) (request (tcp_socket true 7) 25) false
      (a_world 2050
         (chunk_of "----------" ++ Fail 4 :: chunk_of "0123456789"
            ++ chunk_of alphabet) []) = Some r
    /\ callbacks r = [[VNull; VBuffer (bytes_of "----------0123456789ABCDE")]]
    /\ pending_bytes (w_input (after r)) = bytes_of "FGHIJKLMNOPQRSTUVWXYZ".
Proof. eexists. split; [vm_compute; reflexivity|]. repeat split. Qed.

Example detects_end_of_stream :
  exists r,
    posixRead (P:=linux) (request (tcp_socket true 7) 10) false
      (a_world 2050 (chunk_of "123456789") []) = Some r
    /\ callbacks r
       = [[ErrorWithProperty "endOfFile" "reached end of stream (read 9 bytes)"]]
    /\ w_flags (after r) = 2050.
Proof. eexists. split; [vm_compute; reflexivity|]. repeat split. Qed.

(** The synchronous addon leaves the loop by [return] on an error, past the
    code that sets [O_NONBLOCK] again (its TODO says so): the descriptor
    stays in blocking mode. *)
Example historic_error_exit_skips_restoration :
  exists w',
    Historic.Read (P:=linux) (request (tcp_socket true 7) 10)
      (a_world 2050 (chunk_of "123456789") [])
    = Some (Historic.Threw "Error" "reached end of stream (read 9 bytes)", w')
    /\ nonblocking (P:=linux) (w_flags w') = false
    /\ count_calls (is_setfl_nonblock (P:=linux)) (trace w') = 0%nat.
Proof. eexists. split; [vm_compute; reflexivity|]. repeat split. Qed.

(** The synchronous addon goes on to the next [read] after [EAGAIN]. *)
Example historic_retries_EAGAIN :
  exists w',
    Historic.Read (P:=linux) (request (tcp_socket true 7) 1)
      (a_world 2 (Fail 11 :: chunk_of "A") [])
    = Some (Historic.Returned (VBuffer (bytes_of "A")), w').
Proof. eexists. vm_compute. reflexivity. Qed.

(** ** Where the code departs from the wording of the interface *)

(** The worker does not retry [EAGAIN]: a request whose only failing [read]
    fails with [EAGAIN] ends with a systemError, although the byte asked for
    is there for the next [read]. *)
Lemma EAGAIN_ends_the_worker_loop :
  EAGAIN (Platform:=linux) = 11
  /\ exists r,
       posixRead (P:=linux) (request (tcp_socket true 7) 1) false
         (a_world 2 (Fail 11 :: chunk_of "A") []) = Some r
       /\ callbacks r
          = [[ErrorWithProperty "systemError"
                "read failed: Resource temporarily unavailable"]]
       /\ outcome_of (hd [] (callbacks r))
          = Some (SystemError "read failed: Resource temporarily unavailable")
       /\ pending_bytes (w_input (after r)) = bytes_of "A".
Proof.
  split; [reflexivity|].
  eexists. split; [vm_compute; reflexivity|]. repeat split.
Qed.


(** 2.5 is not a positive integer, and [read] takes it: nothing is thrown,
    and the request is one of 2 bytes. *)
Lemma fraction_is_accepted_as_size :
  is_positive_integer (VNumber (Fin (5 # 2))) = false
  /\ Read (request (tcp_socket true 7) (5 # 2)) = Queued 7 2
  /\ exists r,
       posixRead (P:=linux) (request (tcp_socket true 7) (5 # 2)) false
         (a_world 2050 (chunk_of alphabet) []) = Some r
       /\ raised r = None
       /\ callbacks r = [[VNull; VBuffer (bytes_of "AB")]].
Proof.
  split; [reflexivity|]. split; [vm_compute; reflexivity|].
  eexists. split; [vm_compute; reflexivity|]. repeat split.
Qed.

(** A socket that is not readable and has no handle: no descriptor can be
    got from it, and the message is the one of the readable flag. *)
Lemma unreadable_socket_without_handle :
  (forall kind message,
      Read (request unreadable_socket 10) <> Thrown kind message)
  /\ GetFdFromSocket unreadable_socket = -1
  /\ posixRead (P:=linux) (request unreadable_socket 10) false world_alphabet
     = Some (Run None
               [[ErrorWithProperty "badStream" "socket is not readable"]]
               world_alphabet)
  /\ ErrorWithProperty "badStream" "socket is not readable"
     <> ErrorWithProperty "badStream"
          "malformed socket object, cannot get file descriptor".
Proof.
  split; [intros kind message; vm_compute; discriminate|].
  split; [reflexivity|]. split; [vm_compute; reflexivity|].
  intros H. apply (f_equal (fun e => Get e "message")) in H.
  vm_compute in H. discriminate.
Qed.

(** ** Instances on Linux *)


Lemma end_of_stream_reports_count_witness :
  0 <= w_flags world_digits
  /\ posixRead (P:=linux) request_10 false world_digits = Some digits_run
  /\ trace (after digits_run) = trace world_digits ++ digits_trace
  /\ (0 < count_calls is_read_zero digits_trace)%nat
  /\ raised digits_run = None
  /\ callbacks digits_run
     = [[ErrorWithProperty "endOfFile"
           ("reached end of stream (read "
              +:+ fmt_lu (bytes_returned digits_trace) +:+ " bytes)")]]
  /\ outcome_of
       [ErrorWithProperty "endOfFile"
          ("reached end of stream (read "
             +:+ fmt_lu (bytes_returned digits_trace) +:+ " bytes)")]
     = Some (EndOfFile
               ("reached end of stream (read "
                  +:+ fmt_lu (bytes_returned digits_trace) +:+ " bytes)"))
  /\ 0 <= bytes_returned digits_trace < To_int (arg request_10 1)
  /\ exists B,
       pending_bytes (w_input world_digits)
       = B ++ pending_bytes (w_input (after digits_run))
       /\ bytes_returned digits_trace = Z.of_nat (length B).
Proof.
  split; [simpl; lia|]. split; [vm_compute; reflexivity|].
  split; [vm_compute; reflexivity|]. split; [simpl; lia|].
  apply (end_of_stream_reports_count (P:=linux) request_10 false world_digits
           digits_run digits_trace);
    [simpl; lia | vm_compute; reflexivity | vm_compute; reflexivity
    | simpl; lia].
Defined.

Lemma restoration_failure_overrides_success_witness :
  0 <= w_flags world_alphabet_unrestorable
  /\ Read request_10 = Queued 7 10
  /\ ending_of (P:=linux) world_alphabet_unrestorable 10
     = LoopEnded Enough (GetflFailed 9)
  /\ restoration_errno (GetflFailed 9) = Some 9
  /\ exists r T,
       posixRead (P:=linux) request_10 false world_alphabet_unrestorable
       = Some r
       /\ raised r = None
       /\ callbacks r
          = [[ErrorWithProperty "systemError"
                (snprintf_256 ("fnctl failed: " +:+ linux_strerror 9))]]
       /\ outcome_of
            [ErrorWithProperty "systemError"
               (snprintf_256 ("fnctl failed: " +:+ linux_strerror 9))]
          = Some (SystemError
                    (snprintf_256 ("fnctl failed: " +:+ linux_strerror 9)))
       /\ trace (after r) = trace world_alphabet_unrestorable ++ T
       /\ bytes_returned T = 10
       /\ count_calls is_SetErrorMessage T = 1%nat
       /\ count_calls is_free T = 1%nat.
Proof.
  split; [simpl; lia|]. split; [vm_compute; reflexivity|].
  split; [vm_compute; reflexivity|]. split; [reflexivity|].
  apply (restoration_failure_overrides_success (P:=linux) request_10 false
           world_alphabet_unrestorable 7 10 (GetflFailed 9) 9);
    [simpl; lia | vm_compute; reflexivity | vm_compute; reflexivity
    | reflexivity].
Defined.

Lemma restoration_failure_after_loop_error_is_dropped_witness :
  0 <= w_flags world_digits_unrestorable
  /\ Read request_10 = Queued 7 10
  /\ ending_of (P:=linux) world_digits_unrestorable 10
     = LoopEnded (Closes 9) (GetflFailed 9)
  /\ Closes 9 <> Enough
  /\ restoration_errno (GetflFailed 9) = Some 9
  /\ exists r T,
       posixRead (P:=linux) request_10 false world_digits_unrestorable = Some r
       /\ raised r = None
       /\ callbacks r
          = [[ErrorWithProperty "endOfFile"
                ("reached end of stream (read " +:+ fmt_lu 9 +:+ " bytes)")]]
       /\ trace (after r) = trace world_digits_unrestorable ++ T
       /\ count_calls is_SetErrorMessage T = 1%nat
       /\ count_calls is_free T = 1%nat
       /\ nonblocking (P:=linux) (w_flags world_digits_unrestorable) = true
       /\ nonblocking (P:=linux) (w_flags (after r)) = false.
Proof.
  split; [simpl; lia|]. split; [vm_compute; reflexivity|].
  split; [vm_compute; reflexivity|]. split; [discriminate|].
  split; [reflexivity|].
  apply (restoration_failure_after_loop_error_is_dropped (P:=linux) request_10
           false world_digits_unrestorable 7 10 (Closes 9) (GetflFailed 9) 9);
    [simpl; lia | vm_compute; reflexivity | vm_compute; reflexivity
    | discriminate | reflexivity].
Defined.




Lemma only_EINTR_is_retried_by_the_worker_witness :
  0 <= w_flags world_alphabet
  /\ Read request_10 = Queued 7 10
  /\ exists r1 r2,
       posixRead (P:=linux) request_10 false
         (set_input (chunk_of "ABCDE" ++ Fail 4 :: chunk_of "FGHIJKLM")
            world_alphabet) = Some r1
       /\ posixRead (P:=linux) request_10 false
            (set_input (chunk_of "ABCDE" ++ chunk_of "FGHIJKLM")
               world_alphabet) = Some r2
       /\ raised r1 = raised r2
       /\ callbacks r1 = callbacks r2
       /\ w_flags (after r1) = w_flags (after r2)
       /\ pending_bytes (w_input (after r1))
          = pending_bytes (w_input (after r2)).
Proof.
  split; [simpl; lia|]. split; [vm_compute; reflexivity|].
  apply (proj1 (only_EINTR_is_retried_by_the_worker (P:=linux) request_10
                  false world_alphabet 7 10 ltac:(simpl; lia)
                  ltac:(vm_compute; reflexivity))
           (chunk_of "ABCDE") (chunk_of "FGHIJKLM")).
Defined.

Lemma size_is_checked_by_int_conversion_witness :
  length (request (tcp_socket true 7) 0) = 3%nat
  /\ LooksLikeASocket (arg (request (tcp_socket true 7) 0) 0) = true
  /\ posixRead (P:=linux) (request (tcp_socket true 7) 0) false world_alphabet
     = Some (Run (Some ("TypeError",
                        "second argument should be a positive integer"))
               [] world_alphabet).
Proof.
  split; [reflexivity|]. split; [reflexivity|].
  apply (proj2 (proj1 (size_is_checked_by_int_conversion (P:=linux)
                         (request (tcp_socket true 7) 0) false world_alphabet
                         eq_refl eq_refl))).
  right. vm_compute. discriminate.
Defined.

Lemma stream_checks_report_badStream_witness :
  length (request unreadable_socket 10) = 3%nat
  /\ LooksLikeASocket (arg (request unreadable_socket 10) 0) = true
  /\ IsNumber (arg (request unreadable_socket 10) 1) = true
  /\ 0 < To_int (arg (request unreadable_socket 10) 1)
  /\ IsFunction (arg (request unreadable_socket 10) 2) = true
  /\ Get (arg (request unreadable_socket 10) 0) "readable" <> VBool true
  /\ posixRead (P:=linux) (request unreadable_socket 10) false world_alphabet
     = Some (Run None
               [[ErrorWithProperty "badStream" "socket is not readable"]]
               world_alphabet).
Proof.
  split; [reflexivity|]. split; [reflexivity|]. split; [reflexivity|].
  split; [reflexivity|]. split; [reflexivity|].
  split; [vm_compute; discriminate|].
  apply (proj1 (stream_checks_report_badStream (P:=linux)
                  (request unreadable_socket 10) false world_alphabet
                  eq_refl eq_refl eq_refl eq_refl eq_refl)).
  vm_compute. discriminate.
Defined.

(** * Further properties of the code *)

(** ** The blocking-mode guard, call by call *)

Section Guard.
Context {P : Platform}.
Import PosixReadWorker.

Lemma land_lnot_blocking (flags : Z) :
  nonblocking flags = false -> Z.land flags (Z.lnot O_NONBLOCK) = flags.
Proof.
  unfold nonblocking. intros Hnb.
  apply negb_false_iff, Z.eqb_eq in Hnb.
  destruct O_NONBLOCK_bit as (i & Hi & Hbit).
  assert (Hclear : Z.testbit flags i = false).
  { apply (f_equal (fun z => Z.testbit z i)) in Hnb.
    rewrite Z.land_spec, Hbit, Z.pow2_bits_eqb, Z.eqb_refl, Z.bits_0 in Hnb
      by lia.
    now rewrite andb_true_r in Hnb. }
  apply Z.bits_inj'. intros n Hn.
  rewrite Z.land_spec, Z.lnot_spec, Hbit, Z.pow2_bits_eqb by lia.
  destruct (Z.eqb_spec i n); [subst; now rewrite Hclear|].
  apply andb_true_r.
Qed.

(** X1.  [SetBlocking] returns 0 or -1.  When it returns 0 the descriptor is in
    blocking mode, with every other flag as it was, and
    [fd_was_non_blocking] tells the mode it was in; a descriptor that was
    blocking already is inspected by one [F_GETFL] and not set.  When it
    returns -1 the flags of the descriptor are unchanged.  In both cases
    nothing is read, and the error state and the buffer of the worker are
    untouched. *)
Theorem SetBlocking_forces_blocking_mode (w : world) (k : t) :
  0 <= w_flags w ->
  exists ret w' k',
    SetBlocking w k = (ret, w', k')
    /\ (ret = 0 \/ ret = -1)
    /\ (ret = 0 <->
        fcntl_fails w 0 = None
        /\ (nonblocking (w_flags w) = true -> fcntl_fails w 1 = None))
    /\ (ret = 0 ->
        w_flags w' = Z.land (w_flags w) (Z.lnot O_NONBLOCK)
        /\ nonblocking (w_flags w') = false
        /\ fd_was_non_blocking k' = nonblocking (w_flags w))
    /\ (ret = 0 -> nonblocking (w_flags w) = false ->
        w_flags w' = w_flags w
        /\ trace w' = trace w ++ [c_fcntl_getfl (fd k) (w_flags w)])
    /\ (ret = -1 -> w_flags w' = w_flags w)
    /\ w_input w' = w_input w
    /\ errmsg k' = errmsg k /\ error_prop k' = error_prop k
    /\ data k' = data k /\ size k' = size k /\ fd k' = fd k.
Proof.
  intros Hfl. unfold SetBlocking, fcntl_getfl, fcntl_setfl, next_fcntl.
  destruct (fcntl_fails w 0) as [e|] eqn:H0.
  { change (-1 =? -1) with true. cbv beta iota zeta.
    eexists _, _, _. split; [reflexivity|].
    repeat split; try reflexivity; try (now right); try lia;
      try discriminate; intros; intuition discriminate. }
  change (w_flags (pop_fcntl w)) with (w_flags w).
  destruct (Z.eqb_spec (w_flags w) (-1)) as [|_]; [lia|].
  cbv beta iota zeta.
  change (fd_was_non_blocking
            (set_fd_was_non_blocking
               (negb (Z.land (w_flags w) O_NONBLOCK =? 0)) k))
    with (nonblocking (w_flags w)).
  change (negb (Z.land (w_flags w) O_NONBLOCK =? 0))
    with (nonblocking (w_flags w)).
  destruct (nonblocking (w_flags w)) eqn:Hnb.
  - change (fcntl_fails
              (log_call (c_fcntl_getfl (fd k) (w_flags w)) (pop_fcntl w)) 0)
      with (fcntl_fails (pop_fcntl w) 0).
    rewrite fcntl_fails_pop.
    destruct (fcntl_fails w 1) as [e|] eqn:H1.
    + change (-1 =? -1) with true. cbv beta iota zeta.
      eexists _, _, _. split; [reflexivity|].
      repeat split; try reflexivity; try (now right); try lia;
        try discriminate; intros; intuition discriminate.
    + change (0 =? -1) with false. cbv beta iota zeta.
      eexists _, _, _. split; [reflexivity|].
      repeat split; try reflexivity; try (now left); try lia;
        try discriminate; intros; try congruence.
      unfold nonblocking. simpl. now rewrite land_cleared.
  - eexists _, _, _. split; [reflexivity|].
    repeat split; try reflexivity; try (now left); try lia;
      try discriminate; intros; try congruence.
    + simpl. symmetry. now apply land_lnot_blocking.
    + now trace_norm.
Qed.

(** X2.  The guard is a round trip.  When none of its [fcntl] calls fails,
    [SetBlocking] returns 0, and [UnsetBlocking], run afterwards on a
    descriptor whose flags and coming [fcntl] results nobody else changed
    in between, gives the descriptor exactly the flags it had before
    [SetBlocking]. *)
Theorem guard_round_trip (w : world) (k : t) (ret : Z) (w1 : world) (k1 : t)
  (w2 : world) (k2 : t) :
  0 <= w_flags w ->
  fcntl_fails w 0 = None -> fcntl_fails w 1 = None ->
  fcntl_fails w 2 = None -> fcntl_fails w 3 = None ->
  SetBlocking w k = (ret, w1, k1) ->
  w_flags w2 = w_flags w1 -> w_fcntl w2 = w_fcntl w1 ->
  fd_was_non_blocking k2 = fd_was_non_blocking k1 ->
  ret = 0
  /\ exists w3,
       UnsetBlocking w2 k2 = (0, w3)
       /\ w_flags w3 = w_flags w
       /\ w_input w3 = w_input w2.
Proof.
  intros Hfl H0 H1 H2 H3.
  unfold SetBlocking, fcntl_getfl, fcntl_setfl, next_fcntl. rewrite H0.
  change (w_flags (pop_fcntl w)) with (w_flags w).
  destruct (Z.eqb_spec (w_flags w) (-1)) as [|_]; [lia|].
  cbv beta iota zeta.
  change (fd_was_non_blocking
            (set_fd_was_non_blocking
               (negb (Z.land (w_flags w) O_NONBLOCK =? 0)) k))
    with (nonblocking (w_flags w)).
  change (negb (Z.land (w_flags w) O_NONBLOCK =? 0))
    with (nonblocking (w_flags w)).
  destruct (nonblocking (w_flags w)) eqn:Hnb.
  - change (fcntl_fails
              (log_call (c_fcntl_getfl (fd k) (w_flags w)) (pop_fcntl w)) 0)
      with (fcntl_fails (pop_fcntl w) 0).
    rewrite fcntl_fails_pop, H1.
    change (0 =? -1) with false. cbv beta iota zeta.
    intros HS. injection HS as <- <- <-.
    intros Hf Hs Hk. simpl in Hf, Hk. split; [reflexivity|].
    destruct (UnsetBlocking_spec w2 k2) as
      (ret & w3 & Tr & Hun & _ & Hin & Hret & _ & Hflags & _);
      [rewrite Hf; now apply cleared_nonneg|].
    assert (Hr : restoration_of (fd_was_non_blocking k2) w2 = Restored).
    { unfold restoration_of, fcntl_fails. rewrite Hk, Hs.
      repeat match goal with
             | |- context [default None (w_fcntl ?x !! ?i)] =>
                 change (default None (w_fcntl x !! i))
                   with (fcntl_fails (pop_fcntl (pop_fcntl w)) i)
             end.
      now rewrite !fcntl_fails_pop, H2, H3. }
    rewrite Hr in *. simpl in Hret.
    apply Z.eqb_eq in Hret. subst ret.
    exists w3. split; [exact Hun|]. split; [|exact Hin].
    rewrite Hflags, Hf. now apply lor_cleared.
  - intros HS. injection HS as <- <- <-.
    intros Hf Hs Hk. simpl in Hf, Hk. split; [reflexivity|].
    exists w2. unfold UnsetBlocking. rewrite Hk.
    repeat split. exact Hf.
Qed.

End Guard.

(** ** The arguments of [Read] *)

Lemma wrap_int32_period (z : Z) : wrap_int32 (z + 2 ^ 32) = wrap_int32 z.
Proof.
  unfold wrap_int32.
  replace (z + 2 ^ 32 + 2 ^ 31) with (z + 2 ^ 31 + 1 * 2 ^ 32) by lia.
  now rewrite Z_mod_plus_full.
Qed.

Lemma LooksLikeASocket_true (v : value) :
  LooksLikeASocket v = true
  <-> exists c props, v = VObject c props /\ c_str c = "Socket".
Proof.
  unfold LooksLikeASocket. split.
  - destruct v as [| | | | | | |c props]; cbn [IsObject negb GetConstructorName];
      try discriminate.
    destruct (Z.eqb_spec (strcmp "Socket" c) 0) as [Hc|]; [|discriminate].
    intros _. exists c, props. split; [reflexivity|].
    apply strcmp_0_iff in Hc. now rewrite <- Hc.
  - intros (c & props & -> & Hc). cbn [IsObject negb GetConstructorName].
    assert (H0 : strcmp "Socket" c = 0) by (apply strcmp_0_iff; now rewrite Hc).
    now rewrite H0.
Qed.

(** X3.  Every exception of [Read] is a TypeError, thrown before anything else
    is done (no callback, the descriptor untouched), and the four checks
    come in this order: the number of arguments, which must be three; the
    socket; the size; the callback. *)
Theorem Read_throws_TypeErrors_in_order {P : Platform} (info : list value)
  (indet : bool) (w : world) :
  (length info <> 3%nat ->
   Read info = Thrown "TypeError" "wrong number of arguments")
  /\ (length info = 3%nat -> LooksLikeASocket (arg info 0) = false ->
      Read info = Thrown "TypeError" "first argument should be a socket")
  /\ (length info = 3%nat -> LooksLikeASocket (arg info 0) = true ->
      IsNumber (arg info 1) = false \/ To_int (arg info 1) <= 0 ->
      Read info
      = Thrown "TypeError" "second argument should be a positive integer")
  /\ (length info = 3%nat -> LooksLikeASocket (arg info 0) = true ->
      IsNumber (arg info 1) = true -> 0 < To_int (arg info 1) ->
      IsFunction (arg info 2) = false ->
      Read info = Thrown "TypeError" "third argument should be a function")
  /\ (length info = 3%nat -> LooksLikeASocket (arg info 0) = true ->
      IsNumber (arg info 1) = true -> 0 < To_int (arg info 1) ->
      IsFunction (arg info 2) = true ->
      forall kind message, Read info <> Thrown kind message)
  /\ (forall kind message,
         Read info = Thrown kind message ->
         kind = "TypeError"
         /\ posixRead info indet w = Some (Run (Some (kind, message)) [] w)).
Proof.
  assert (Hkind : forall kind message,
             Read info = Thrown kind message -> kind = "TypeError").
  { intros kind message. unfold Read.
    repeat match goal with
           | |- context [if ?c then _ else _] => destruct c
           end; intros [=]; congruence. }
  split; [|split; [|split; [|split; [|split]]]].
  - intros Hlen. unfold Read.
    destruct (Nat.eqb_spec (length info) 3); [contradiction|reflexivity].
  - intros Hlen Hl. unfold Read. now rewrite Hlen, Hl.
  - intros Hlen Hl Hsize. unfold Read. rewrite Hlen, Hl. cbn [Nat.eqb negb].
    destruct (IsNumber (arg info 1)); [|reflexivity]. cbn [negb orb].
    destruct Hsize as [|Hle]; [discriminate|].
    destruct (Z.leb_spec (To_int (arg info 1)) 0); [reflexivity|lia].
  - intros Hlen Hl Hnum Hpos Hfun. unfold Read.
    rewrite Hlen, Hl, Hnum, Hfun. cbn [Nat.eqb negb orb].
    destruct (Z.leb_spec (To_int (arg info 1)) 0); [lia|reflexivity].
  - intros Hlen Hl Hnum Hpos Hfun kind message. unfold Read.
    rewrite Hlen, Hl, Hnum, Hfun. cbn [Nat.eqb negb orb].
    destruct (Z.leb_spec (To_int (arg info 1)) 0); [lia|].
    repeat match goal with
           | |- context [if ?c then _ else _] => destruct c
           end; discriminate.
  - intros kind message HT. split; [now apply (Hkind kind message)|].
    unfold posixRead. now rewrite HT.
Qed.

(** X4.  [LooksLikeASocket] looks at the constructor name, as [strcmp] reads
    it, and at nothing else (the source says the check "can be easily be
    fooled").  A value that is not an object whose name reads "Socket" is
    thrown out with "first argument should be a socket", fields or no
    fields.  An object whose name reads "Socket" passes whatever it holds:
    so does one named "Socket" followed by a NUL and anything, and one
    without any field, which is then reported, through the callback, as not
    readable. *)
Theorem only_the_constructor_name_is_checked {P : Platform} (v : value) :
  (forall size cb,
      (forall c props, v = VObject c props -> c_str c <> "Socket") ->
      Read [v; size; cb]
      = Thrown "TypeError" "first argument should be a socket")
  /\ (forall c props,
         c_str c = "Socket" -> LooksLikeASocket (VObject c props) = true)
  /\ (forall suffix props,
         LooksLikeASocket (VObject ("Socket" +:+ String zero suffix) props)
         = true)
  /\ (forall c size cb indet w,
         c_str c = "Socket" ->
         IsNumber size = true -> 0 < To_int size -> IsFunction cb = true ->
         posixRead [VObject c ∅; size; cb] indet w
         = Some (Run None
                   [[ErrorWithProperty "badStream" "socket is not readable"]]
                   w)).
Proof.
  split; [|split; [|split]].
  - intros size cb Hv. unfold Read. cbn [length Nat.eqb negb].
    change (arg [v; size; cb] 0) with v.
    destruct (LooksLikeASocket v) eqn:Hl; [|reflexivity].
    apply LooksLikeASocket_true in Hl as (c & props & -> & Hc).
    now destruct (Hv c props).
  - intros c props Hc. apply LooksLikeASocket_true. eauto.
  - intros suffix props. apply LooksLikeASocket_true.
    eexists _, _. split; reflexivity.
  - intros c size cb indet w Hc Hnum Hpos Hfun. unfold posixRead, Read.
    cbn [length Nat.eqb negb].
    change (arg [VObject c ∅; size; cb] 0) with (VObject c ∅).
    change (arg [VObject c ∅; size; cb] 1) with size.
    change (arg [VObject c ∅; size; cb] 2) with cb.
    assert (Hl : LooksLikeASocket (VObject c ∅) = true)
      by (apply LooksLikeASocket_true; eauto).
    rewrite Hl, Hnum, Hfun.
    destruct (Z.leb_spec (To_int size) 0); [lia|]. reflexivity.
Qed.

Lemma GetFdFromSocket_bounds (socket : value) :
  GetFdFromSocket socket = -1 \/ 0 <= GetFdFromSocket socket < 2 ^ 31.
Proof.
  unfold GetFdFromSocket.
  repeat match goal with
         | |- context [if ?c then _ else _] => destruct c eqn:?
         end; try (now left).
  right. pose proof (To_int_range (Get (Get socket "_handle") "fd")). lia.
Qed.

(** X5.  [GetFdFromSocket] gives -1 or a descriptor between 0 and 2^31 - 1, and
    for a socket whose [_handle] is a [TCP] with a whole [fd] in that range
    it gives that [fd]; 0 is a descriptor like any other. *)
Theorem descriptor_is_resolved_exactly (socket : value) :
  (GetFdFromSocket socket = -1 \/ 0 <= GetFdFromSocket socket < 2 ^ 31)
  /\ (forall c props hprops z,
         socket = VObject c props ->
         props !! "_handle" = Some (VObject "TCP" hprops) ->
         hprops !! "fd" = Some (VNumber (Fin (inject_Z z))) ->
         0 <= z < 2 ^ 31 ->
         GetFdFromSocket socket = z).
Proof.
  split; [apply GetFdFromSocket_bounds|].
  intros c props hprops z -> Hh Hfd Hz.
  assert (Hhas : Has (VObject c props) "_handle" = true)
    by (unfold Has; rewrite Hh; apply bool_decide_eq_true_2; eauto).
  assert (Hget : Get (VObject c props) "_handle" = VObject "TCP" hprops)
    by (unfold Get; now rewrite Hh).
  assert (Hhas' : Has (VObject "TCP" hprops) "fd" = true)
    by (unfold Has; rewrite Hfd; apply bool_decide_eq_true_2; eauto).
  assert (Hget' : Get (VObject "TCP" hprops) "fd" = VNumber (Fin (inject_Z z)))
    by (unfold Get; now rewrite Hfd).
  unfold GetFdFromSocket. rewrite Hhas, Hget, Hhas', Hget'.
  cbn [negb IsObject GetConstructorName IsNumber].
  change (strcmp "TCP" "TCP" =? 0) with true. cbn [negb].
  rewrite To_int_integer by lia.
  destruct (Z.ltb_spec z 0); [lia|reflexivity].
Qed.

(** X6.  The size is taken modulo 2^32 into the range of an [int]: a whole
    number and the same number plus 2^32 are the same request, a whole
    number from 2^31 to 2^32 is thrown out, and the size of an accepted
    request is between 1 and 2^31 - 1, its descriptor between 0 and
    2^31 - 1. *)
Theorem size_is_taken_modulo_2_32 (socket cb : value) :
  (forall z,
      Read [socket; VNumber (Fin (inject_Z (z + 2 ^ 32))); cb]
      = Read [socket; VNumber (Fin (inject_Z z)); cb])
  /\ (forall z,
         2 ^ 31 <= z <= 2 ^ 32 ->
         LooksLikeASocket socket = true ->
         Read [socket; VNumber (Fin (inject_Z z)); cb]
         = Thrown "TypeError" "second argument should be a positive integer")
  /\ (forall size fd N,
         Read [socket; size; cb] = Queued fd N ->
         0 < N < 2 ^ 31 /\ 0 <= fd < 2 ^ 31).
Proof.
  assert (Hint : forall z, To_int (VNumber (Fin (inject_Z z))) = wrap_int32 z).
  { intros z. simpl. now rewrite Z.quot_1_r. }
  split; [|split].
  - intros z. unfold Read. cbn [length Nat.eqb negb].
    change (arg [socket; VNumber (Fin (inject_Z (z + 2 ^ 32))); cb] 1)
      with (VNumber (Fin (inject_Z (z + 2 ^ 32)))).
    change (arg [socket; VNumber (Fin (inject_Z z)); cb] 1)
      with (VNumber (Fin (inject_Z z))).
    rewrite !Hint, wrap_int32_period. reflexivity.
  - intros z Hz Hsock. unfold Read. cbn [length Nat.eqb negb].
    change (arg [socket; VNumber (Fin (inject_Z z)); cb] 0)
      with socket.
    change (arg [socket; VNumber (Fin (inject_Z z)); cb] 1)
      with (VNumber (Fin (inject_Z z))).
    rewrite Hsock, Hint. cbn [negb IsNumber orb].
    assert (Hneg : wrap_int32 z <= 0).
    { unfold wrap_int32.
      replace (z + 2 ^ 31) with (z - 2 ^ 32 + 2 ^ 31 + 1 * 2 ^ 32) by lia.
      rewrite Z_mod_plus_full, Z.mod_small; lia. }
    destruct (Z.leb_spec (wrap_int32 z) 0); [reflexivity|lia].
  - intros size fd N HQ.
    destruct (Read_Queued_inv _ _ _ HQ)
      as (_ & _ & _ & _ & HN & _ & _ & Hfd & Hpos).
    split; [exact HN|].
    destruct (GetFdFromSocket_bounds (arg [socket; size; cb] 0)); lia.
Qed.

(** ** The message of the end of the stream *)



(** ** The loop and the buffer *)

Lemma write_at_same_length (d : list Byte.byte) (c : Z) (B : list Byte.byte) :
  (Z.to_nat c + length B <= length d)%nat ->
  length (write_at d c B) = length d.
Proof.
  intros H. unfold write_at.
  rewrite !length_app, length_take, length_drop. lia.
Qed.

Lemma write_at_before (d : list Byte.byte) (c : Z) (B : list Byte.byte) :
  (Z.to_nat c <= length d)%nat ->
  take (Z.to_nat c) (write_at d c B) = take (Z.to_nat c) d.
Proof.
  intros H. unfold write_at.
  rewrite take_app_length'; [reflexivity|]. rewrite length_take. lia.
Qed.

Lemma write_at_from (d : list Byte.byte) (c : Z) (B : list Byte.byte) :
  (Z.to_nat c <= length d)%nat ->
  drop (Z.to_nat c) (write_at d c B)
  = B ++ drop (Z.to_nat c + length B) d.
Proof.
  intros H. unfold write_at.
  rewrite drop_app_length'; [reflexivity|]. rewrite length_take. lia.
Qed.

Section LoopInvariants.
Context {P : Platform}.
Import PosixReadWorker.

(** X9.  The loop, started with [count] bytes of the [size] of the buffer
    filled: it ends, with a count that has not decreased and does not
    exceed [size]; the buffer has the length it had, its bytes before
    [count] and from the final count on are untouched, and between the two
    stand exactly the bytes taken off the descriptor, in order; the count is
    [size] exactly when the loop recorded no error; the flags of the
    descriptor are not touched. *)
Theorem read_loop_fills_the_buffer_in_order (fuel : nat) (w : world) (k : t)
  (count : Z) :
  (script_weight (w_input w) < fuel)%nat ->
  0 <= count < size k -> size k < 2 ^ 64 ->
  length (data k) = Z.to_nat (size k) ->
  errmsg k = None ->
  exists w' k' count' B,
    read_loop fuel w k count = Some (w', k', count')
    /\ count <= count' <= size k
    /\ count' = count + Z.of_nat (length B)
    /\ pending_bytes (w_input w) = B ++ pending_bytes (w_input w')
    /\ length (data k') = length (data k)
    /\ take (Z.to_nat count) (data k') = take (Z.to_nat count) (data k)
    /\ take (length B) (drop (Z.to_nat count) (data k')) = B
    /\ drop (Z.to_nat count') (data k') = drop (Z.to_nat count') (data k)
    /\ (count' = size k <-> errmsg k' = None)
    /\ w_flags w' = w_flags w.
Proof.
  intros Hfuel Hcount Hsize Hlen Hmsg.
  destruct (read_loop_spec fuel w k count Hfuel Hcount Hsize)
    as (w' & k' & count' & B & T & Hrun & Hpost); [lia|].
  destruct Hpost as [Hp1 Hp2 Hp3 Hp4 Hp5 Hp6 Hp7 Hp8 Hp9 Hp10 Hp11 Hp12
                       Hp13 Hp14 Hp15 Hp16].
  exists w', k', count', B. split; [exact Hrun|].
  split; [lia|]. split; [exact Hp2|]. split; [exact Hp1|].
  rewrite Hp10.
  split; [apply write_at_same_length; lia|].
  split; [apply write_at_before; lia|].
  split; [rewrite write_at_from by lia; now rewrite take_app_length|].
  split.
  - unfold write_at.
    replace (Z.to_nat count') with (Z.to_nat count + length B)%nat by lia.
    rewrite app_assoc, drop_app_length'; [reflexivity|].
    rewrite length_app, length_take. lia.
  - split; [|exact Hp5].
    destruct (script_verdict (w_input w) (size k - count) count)
      as [|e got|got]; simpl in Hp16.
    + destruct Hp16 as (Hc & Hm & _). rewrite Hm, Hmsg. tauto.
    + destruct Hp16 as (_ & _ & Hlt & Hm & _). rewrite Hm.
      split; [lia|discriminate].
    + destruct Hp16 as (_ & Hlt & _ & Hm & _). rewrite Hm.
      split; [lia|discriminate].
Qed.

End LoopInvariants.

(** ** Whole requests *)

Lemma script_verdict_interrupted {P : Platform} (evs : list event)
  (want got : Z) :
  only_interrupted evs -> 0 < want ->
  script_verdict evs want got
  = if want <=? Z.of_nat (length (pending_bytes evs)) then Enough
    else Closes (got + Z.of_nat (length (pending_bytes evs))).
Proof.
  intros Hint. revert want got.
  induction Hint as [|[b bs|e] evs Hev Hint IH]; intros want got Hw.
  - unfold pending_bytes. cbn [script_verdict map concat length].
    change (Z.of_nat 0) with 0.
    destruct (Z.leb_spec want 0); [lia|]. now rewrite Z.add_0_r.
  - unfold pending_bytes. cbn [script_verdict map concat event_bytes].
    rewrite length_app.
    change (concat (map event_bytes evs)) with (pending_bytes evs).
    change (length (b :: bs)) with (S (length bs)).
    destruct (Z.leb_spec want (Z.of_nat (S (length bs)))) as [Hle|Hgt].
    + destruct (Z.leb_spec want
                  (Z.of_nat (S (length bs) + length (pending_bytes evs))));
        [reflexivity|lia].
    + rewrite IH by lia.
      destruct (Z.leb_spec (want - Z.of_nat (S (length bs)))
                  (Z.of_nat (length (pending_bytes evs))));
        destruct (Z.leb_spec want
                    (Z.of_nat (S (length bs) + length (pending_bytes evs))));
        try lia; [reflexivity|]. f_equal. lia.
  - subst e. cbn [script_verdict]. rewrite Z.eqb_refl.
    rewrite IH by exact Hw. reflexivity.
Qed.

Section MoreRequests.
Context {P : Platform}.
Import PosixReadWorker.

#[local] Hint Rewrite trace_pop_fcntl : trace.

(** X10.  A request never changes a flag of the descriptor other than
    [O_NONBLOCK]; it leaves all the flags as they were when the descriptor
    was blocking at entry, and when neither [fcntl] call of the restoration
    fails. *)
Theorem request_changes_no_other_flag (info : list value) (indet : bool)
  (w : world) (fd N : Z) :
  0 <= w_flags w ->
  Read info = Queued fd N ->
  exists r,
    posixRead info indet w = Some r
    /\ Z.land (w_flags (after r)) (Z.lnot O_NONBLOCK)
       = Z.land (w_flags w) (Z.lnot O_NONBLOCK)
    /\ (nonblocking (w_flags w) = false -> w_flags (after r) = w_flags w)
    /\ (fcntl_fails w 2 = None -> fcntl_fails w 3 = None ->
        w_flags (after r) = w_flags w).
Proof.
  intros Hfl HQ.
  destruct (posixRead_queued info indet w fd N Hfl HQ)
    as (w' & k' & B & T & Hrun & Hpost).
  pose proof (ep_flags _ _ _ _ _ _ _ Hpost) as Hflags.
  eexists. split; [exact Hrun|]. cbn [after]. rewrite Hflags.
  unfold ending_of.
  destruct (w_malloc w); [repeat split; reflexivity|].
  destruct (fcntl_fails w 0); [repeat split; reflexivity|].
  destruct (nonblocking (w_flags w)); [|repeat split; reflexivity].
  destruct (fcntl_fails w 1); [repeat split; reflexivity|].
  destruct (fcntl_fails w 2) as [e2|].
  { cbn [ending_flags]. rewrite <- Z.land_assoc, Z.land_diag.
    repeat split; discriminate. }
  destruct (fcntl_fails w 3) as [e3|].
  { cbn [ending_flags]. rewrite <- Z.land_assoc, Z.land_diag.
    repeat split; discriminate. }
  repeat split; reflexivity.
Qed.

(** X11.  When [malloc] fails, the request makes no other system call: the
    handler receives a systemError "malloc failed: ..." with the text of
    [errno], nothing is freed, and the descriptor keeps its flags and its
    data. *)
Theorem malloc_failure_touches_nothing (info : list value) (indet : bool)
  (w : world) (fd N e : Z) :
  Read info = Queued fd N ->
  w_malloc w = Some e ->
  exists r,
    posixRead info indet w = Some r
    /\ raised r = None
    /\ callbacks r
       = [[ErrorWithProperty "systemError"
             (snprintf_256 ("malloc failed: " +:+ strerror e))]]
    /\ trace (after r)
       = trace w ++ [c_malloc N false;
                     c_SetErrorMessage
                       (snprintf_256 ("malloc failed: " +:+ strerror e))]
    /\ w_input (after r) = w_input w
    /\ w_flags (after r) = w_flags w
    /\ w_fcntl (after r) = w_fcntl w.
Proof.
  intros HQ Hm. unfold posixRead. rewrite HQ.
  unfold Execute, sys_malloc. change (size (new indet fd N)) with N.
  rewrite Hm. unfold record_error. cbv beta iota zeta.
  eexists. split; [reflexivity|]. cbn [raised callbacks after].
  split; [reflexivity|]. split; [reflexivity|].
  split; [now trace_norm|]. repeat split; reflexivity.
Qed.

(** X12.  When [SetBlocking] fails (its [F_GETFL], or the [F_SETFL] that clears
    [O_NONBLOCK]), the loop is not entered: no [read] is issued, the
    buffer is freed once, the handler receives a systemError
    "fnctl failed: ..." with the text of [errno], and the descriptor keeps
    its flags and its data. *)
Theorem guard_failure_reads_nothing (info : list value) (indet : bool)
  (w : world) (fd N e : Z) :
  0 <= w_flags w ->
  Read info = Queued fd N ->
  ending_of w N = GuardFailed e ->
  exists r T,
    posixRead info indet w = Some r
    /\ raised r = None
    /\ callbacks r
       = [[ErrorWithProperty "systemError"
             (snprintf_256 ("fnctl failed: " +:+ strerror e))]]
    /\ trace (after r) = trace w ++ T
    /\ count_calls is_read T = 0%nat
    /\ count_calls is_malloc T = 1%nat
    /\ count_calls is_free T = 1%nat
    /\ count_calls is_setfl_nonblock T = 0%nat
    /\ w_input (after r) = w_input w
    /\ w_flags (after r) = w_flags w.
Proof.
  intros Hfl HQ Hend. unfold posixRead. rewrite HQ.
  unfold ending_of in Hend.
  unfold Execute, sys_malloc. change (size (new indet fd N)) with N.
  destruct (w_malloc w) as [e0|] eqn:Hm; [discriminate|].
  unfold SetBlocking, fcntl_getfl, next_fcntl.
  change (fcntl_fails (log_call (c_malloc N true) w) 0)
    with (fcntl_fails w 0).
  destruct (fcntl_fails w 0) as [e0|] eqn:H0.
  - injection Hend as ->.
    change (-1 =? -1) with true. cbv beta iota zeta.
    change (negb (-1 =? 0)) with true. cbv beta iota zeta.
    unfold record_error. cbv beta iota zeta.
    eexists _, [c_malloc N true; c_fcntl_getfl fd (-1); c_SetErrorMessage _;
                c_free].
    split; [reflexivity|]. cbn [raised callbacks after].
    split; [reflexivity|]. split; [reflexivity|].
    split; [now trace_norm|]. repeat split; reflexivity.
  - change (w_flags (pop_fcntl (log_call (c_malloc N true) w)))
      with (w_flags w).
    destruct (Z.eqb_spec (w_flags w) (-1)) as [|_]; [lia|].
    cbv beta iota zeta.
    set (k1 := set_data _ _).
    change (fd_was_non_blocking
              (set_fd_was_non_blocking
                 (negb (Z.land (w_flags w) O_NONBLOCK =? 0)) k1))
      with (nonblocking (w_flags w)).
    destruct (nonblocking (w_flags w)) eqn:Hnb; [|discriminate].
    unfold fcntl_setfl, next_fcntl.
    change (fcntl_fails
              (log_call (c_fcntl_getfl (PosixReadWorker.fd k1) (w_flags w))
                 (pop_fcntl (log_call (c_malloc N true) w))) 0)
      with (fcntl_fails (pop_fcntl w) 0).
    rewrite fcntl_fails_pop.
    destruct (fcntl_fails w 1) as [e1|] eqn:H1; [|discriminate].
    injection Hend as ->.
    change (-1 =? -1) with true. cbv beta iota zeta.
    change (negb (-1 =? 0)) with true. cbv beta iota zeta.
    unfold record_error. cbv beta iota zeta.
    eexists _, [c_malloc N true; c_fcntl_getfl fd (w_flags w);
                c_fcntl_setfl fd (Z.land (w_flags w) (Z.lnot O_NONBLOCK)) (-1);
                c_SetErrorMessage _; c_free].
    split; [reflexivity|]. cbn [raised callbacks after].
    split; [reflexivity|]. split; [reflexivity|].
    split; [now trace_norm|].
    repeat split; try reflexivity.
    simpl. now rewrite land_cleared.
Qed.

(** X13.  How the stream is cut into chunks, and how many [read] calls are
    interrupted on the way, does not show: two scripts that deliver the
    same bytes and whose only failures are [EINTR] give the handler the
    same arguments and leave the same bytes and flags on the descriptor. *)
Theorem chunking_of_the_stream_does_not_show (info : list value)
  (indet : bool) (w : world) (fd N : Z) (evs1 evs2 : list event) :
  0 <= w_flags w ->
  Read info = Queued fd N ->
  only_interrupted evs1 -> only_interrupted evs2 ->
  pending_bytes evs1 = pending_bytes evs2 ->
  exists r1 r2,
    posixRead info indet (set_input evs1 w) = Some r1
    /\ posixRead info indet (set_input evs2 w) = Some r2
    /\ raised r1 = raised r2
    /\ callbacks r1 = callbacks r2
    /\ w_flags (after r1) = w_flags (after r2)
    /\ pending_bytes (w_input (after r1))
       = pending_bytes (w_input (after r2)).
Proof.
  intros Hfl HQ Hint1 Hint2 Hsame.
  destruct (Read_Queued_inv _ _ _ HQ) as (_ & _ & _ & _ & HN & _).
  set (w1 := set_input evs1 w). set (w2 := set_input evs2 w).
  destruct (posixRead_queued info indet w1 fd N Hfl HQ)
    as (w1' & k1 & B1 & T1 & Hrun1 & Hpost1).
  destruct (posixRead_queued info indet w2 fd N Hfl HQ)
    as (w2' & k2 & B2 & T2 & Hrun2 & Hpost2).
  assert (Hend : ending_of w1 N = ending_of w2 N).
  { unfold ending_of. subst w1 w2. simpl.
    rewrite !script_verdict_interrupted by (assumption || lia).
    now rewrite Hsame. }
  assert (Hpend : pending_bytes (w_input w1) = pending_bytes (w_input w2)).
  { subst w1 w2. exact Hsame. }
  destruct Hpost1 as [_ Hp1 _ _ _ _ _ _ Hread1 _ _ _ _ _ _ Hfl1].
  destruct Hpost2 as [_ Hp2 _ _ _ _ _ _ Hread2 _ _ _ _ _ _ Hfl2].
  rewrite Hend in *.
  assert (HB : B1 = B2).
  { assert (HL : length B1 = length B2).
    { destruct (ending_of w2 N) as [e|e|[|e got|got] r0];
        first [ now subst | lia | destruct Hread1, Hread2; lia ]. }
    apply (f_equal (take (length B1))) in Hp1, Hp2.
    rewrite take_app_length in Hp1. rewrite HL in Hp2 at 2.
    rewrite take_app_length in Hp2. congruence. }
  subst B2.
  eexists _, _. split; [exact Hrun1|]. split; [exact Hrun2|]. simpl.
  repeat split.
  + rewrite Hfl1, Hfl2. reflexivity.
  + rewrite Hp1 in Hpend. rewrite Hp2 in Hpend at 1.
    now apply app_inv_head in Hpend.
Qed.

(** X14.  The constructor leaves [fd_was_non_blocking] uninitialised; no request
    depends on what the field holds then: [SetBlocking] writes it before
    [UnsetBlocking] reads it, and when [SetBlocking] fails before writing it
    [UnsetBlocking] is not called. *)
Theorem uninitialised_field_is_never_read (info : list value) (w : world) :
  posixRead info true w = posixRead info false w.
Proof.
  unfold posixRead. destruct (Read info) as [kind m|argv|d N];
    try reflexivity.
  unfold Execute, sys_malloc.
  change (size (new true d N)) with N. change (size (new false d N)) with N.
  destruct (w_malloc w); [reflexivity|].
  unfold SetBlocking, fcntl_getfl, next_fcntl. cbn [fd set_data new].
  destruct (fcntl_fails _ 0); [reflexivity|].
  cbv beta iota zeta.
  match goal with |- context [?x =? -1] => destruct (x =? -1) end;
    [reflexivity|].
  reflexivity.
Qed.

End MoreRequests.

(** ** The buffer, from [malloc] to [free] or to the handler *)

Lemma memory_after_app (st : buffer_state) (A B : list call) :
  memory_after st (A ++ B)
  = match memory_after st A with
    | Some st' => memory_after st' B
    | None => None
    end.
Proof.
  revert st. induction A as [|c A IH]; intros st; [reflexivity|].
  destruct c as [sz [|]| | | | |]; destruct st; simpl; auto.
Qed.

Lemma memory_after_fcntl (st : buffer_state) (T : list call) :
  forallb is_fcntl T = true -> memory_after st T = Some st.
Proof.
  induction T as [|c T IH]; [reflexivity|].
  destruct c; simpl; try discriminate; exact IH.
Qed.

Lemma sys_read_trace (w : world) (fd len n : Z) (bytes : list Byte.byte)
  (w1 : world) :
  sys_read w fd len = (n, bytes, w1) ->
  exists ret, trace w1 = trace w ++ [c_read fd len ret].
Proof.
  unfold sys_read.
  destruct (w_input w) as [|[b bs|e] rest]; intros [= <- <- <-];
    eexists; now trace_norm.
Qed.

Section BufferDiscipline.
Context {P : Platform}.
Import PosixReadWorker.

#[local] Hint Rewrite trace_pop_fcntl : trace.

Lemma SetBlocking_calls (w : world) (k : t) (r : Z) (w' : world) (k' : t) :
  SetBlocking w k = (r, w', k') ->
  errmsg k' = errmsg k
  /\ exists T, trace w' = trace w ++ T /\ forallb is_fcntl T = true.
Proof.
  unfold SetBlocking, fcntl_getfl, next_fcntl.
  destruct (fcntl_fails w 0) as [e|]; cbv beta iota zeta.
  { change (-1 =? -1) with true. cbv beta iota zeta.
    intros [= <- <- <-]. split; [reflexivity|].
    eexists. split; [now trace_norm|reflexivity]. }
  destruct (_ =? -1).
  { intros [= <- <- <-]. split; [reflexivity|].
    eexists. split; [now trace_norm|reflexivity]. }
  destruct (fd_was_non_blocking _).
  - unfold fcntl_setfl, next_fcntl.
    destruct (fcntl_fails _ 0) as [e|]; cbv beta iota zeta.
    + change (-1 =? -1) with true. cbv beta iota zeta.
      intros [= <- <- <-]. split; [reflexivity|].
      eexists. split; [now trace_norm|reflexivity].
    + change (0 =? -1) with false. cbv beta iota zeta.
      intros [= <- <- <-]. split; [reflexivity|].
      eexists. split; [now trace_norm|reflexivity].
  - intros [= <- <- <-]. split; [reflexivity|].
    eexists. split; [now trace_norm|reflexivity].
Qed.

Lemma UnsetBlocking_calls (w : world) (k : t) (r : Z) (w' : world) :
  UnsetBlocking w k = (r, w') ->
  exists T, trace w' = trace w ++ T /\ forallb is_fcntl T = true.
Proof.
  unfold UnsetBlocking, fcntl_getfl, next_fcntl.
  destruct (fd_was_non_blocking k).
  2:{ intros [= <- <-]. exists []. split; [now rewrite app_nil_r|reflexivity]. }
  destruct (fcntl_fails w 0) as [e|]; cbv beta iota zeta.
  { change (-1 =? -1) with true. cbv beta iota zeta.
    intros [= <- <-]. eexists. split; [now trace_norm|reflexivity]. }
  destruct (_ =? -1).
  { intros [= <- <-]. eexists. split; [now trace_norm|reflexivity]. }
  unfold fcntl_setfl, next_fcntl.
  destruct (fcntl_fails _ 0) as [e|]; cbv beta iota zeta.
  - change (-1 =? -1) with true. cbv beta iota zeta.
    intros [= <- <-]. eexists. split; [now trace_norm|reflexivity].
  - change (0 =? -1) with false. cbv beta iota zeta.
    intros [= <- <-]. eexists. split; [now trace_norm|reflexivity].
Qed.

Lemma read_loop_memory (fuel : nat) (w : world) (k : t) (count : Z)
  (w' : world) (k' : t) (count' : Z) :
  read_loop fuel w k count = Some (w', k', count') ->
  errmsg k = None ->
  exists T,
    trace w' = trace w ++ T
    /\ memory_after Live T
       = Some match errmsg k' with None => Live | Some _ => Freed end.
Proof.
  revert w k count.
  induction fuel as [|fuel IH]; intros w k count Hrun Hmsg; [discriminate|].
  rewrite read_loop_S in Hrun.
  destruct (sys_read w (fd k) (wrap_size_t (size k - count)))
    as [[n bytes] w1] eqn:Hread.
  apply sys_read_trace in Hread as [ret Ht].
  assert (Hgo : forall k1 c1,
             read_loop fuel w1 k1 c1 = Some (w', k', count') ->
             errmsg k1 = None ->
             exists T,
               trace w' = trace w ++ T
               /\ memory_after Live T
                  = Some match errmsg k' with None => Live | Some _ => Freed end).
  { intros k1 c1 H1 Hm1. destruct (IH _ _ _ H1 Hm1) as (T & HT & Hmem).
    eexists (c_read _ _ ret :: T). split; [|exact Hmem].
    rewrite HT, Ht, <- app_assoc. reflexivity. }
  assert (Hend : forall k1,
             Some (w1, k1, count) = Some (w', k', count') ->
             errmsg k1 = None ->
             exists T,
               trace w' = trace w ++ T
               /\ memory_after Live T
                  = Some match errmsg k' with None => Live | Some _ => Freed end).
  { intros k1 [= <- <- _] Hm1. eexists [c_read _ _ ret].
    split; [exact Ht|]. now rewrite Hm1. }
  assert (Herr : forall p m c1,
             (let '(w2, k1) := record_error p m w1 k in
              Some (sys_free w2, k1, c1)) = Some (w', k', count') ->
             exists T,
               trace w' = trace w ++ T
               /\ memory_after Live T
                  = Some match errmsg k' with None => Live | Some _ => Freed end).
  { intros p m c1. unfold record_error. intros [= <- <- _].
    eexists [c_read _ _ ret; c_SetErrorMessage _; c_free].
    split; [trace_norm; now rewrite Ht, <- app_assoc|reflexivity]. }
  destruct (n =? -1).
  - destruct (w_errno w1 =? EINTR); [|now apply Herr in Hrun].
    destruct (count <? size k); [now apply Hgo in Hrun|].
    now apply Hend in Hrun.
  - destruct (n =? 0); [now apply Herr in Hrun|].
    cbv zeta in Hrun.
    destruct (wrap_size_t (count + n) <? size _).
    + now apply Hgo in Hrun.
    + injection Hrun as <- <- _. eexists [c_read _ _ ret].
      split; [exact Ht|]. cbn [errmsg set_data]. now rewrite Hmsg.
Qed.

Lemma Execute_memory (w : world) (indet : bool) (d N : Z) (w' : world)
  (k' : t) :
  Execute w (new indet d N) = Some (w', k') ->
  exists T,
    trace w' = trace w ++ T
    /\ memory_after NoBuffer T
       = Some match errmsg k' with
              | None => Live
              | Some _ =>
                  match w_malloc w with Some _ => NoBuffer | None => Freed end
              end.
Proof.
  unfold Execute, sys_malloc. change (size (new indet d N)) with N.
  destruct (w_malloc w) as [e|] eqn:Hm.
  { unfold record_error. intros [= <- <-].
    eexists [c_malloc N false; c_SetErrorMessage _].
    split; [now trace_norm|reflexivity]. }
  set (k1 := set_data _ _). set (w1 := log_call _ w).
  destruct (SetBlocking w1 k1) as [[r w2] k2] eqn:HS.
  destruct (SetBlocking_calls _ _ _ _ _ HS) as (Hk2 & T1 & HT1 & Hf1).
  assert (Hw1 : trace w1 = trace w ++ [c_malloc N true])
    by (subst w1; now trace_norm).
  destruct (negb (r =? 0)).
  { unfold record_error. intros [= <- <-].
    exists (c_malloc N true :: T1 ++ [c_SetErrorMessage
                                       (snprintf_256
                                          ("fnctl failed: "
                                             +:+ strerror (w_errno w2)));
                                     c_free]).
    split.
    - trace_norm. rewrite HT1, Hw1, <- !app_assoc. reflexivity.
    - cbn [memory_after]. rewrite memory_after_app, memory_after_fcntl by exact Hf1.
      reflexivity. }
  destruct (read_loop (S (script_weight (w_input w2))) w2 k2 0)
    as [[[w3 k3] c3]|] eqn:HL; [|discriminate].
  destruct (read_loop_memory _ _ _ _ _ _ _ HL) as (T2 & HT2 & Hmem2);
    [now rewrite Hk2|].
  destruct (UnsetBlocking w3 k3) as [r4 w4] eqn:HU.
  destruct (UnsetBlocking_calls _ _ _ _ HU) as (T3 & HT3 & Hf3).
  assert (Htr : trace w4 = trace w ++ c_malloc N true :: T1 ++ T2 ++ T3).
  { rewrite HT3, HT2, HT1, Hw1, <- !app_assoc. reflexivity. }
  assert (Hmem : memory_after NoBuffer (c_malloc N true :: T1 ++ T2 ++ T3)
                 = Some match errmsg k3 with None => Live | Some _ => Freed end).
  { cbn [memory_after].
    rewrite memory_after_app, memory_after_fcntl by exact Hf1.
    rewrite memory_after_app, Hmem2. now apply memory_after_fcntl. }
  unfold ErrorMessage.
  destruct (negb (r4 =? 0)); [destruct (errmsg k3) as [m|] eqn:Hm3|].
  - intros [= <- <-]. eexists. split; [exact Htr|]. now rewrite Hmem, Hm3.
  - unfold record_error. intros [= <- <-].
    exists ((c_malloc N true :: T1 ++ T2 ++ T3)
              ++ [c_SetErrorMessage
                    (snprintf_256 ("fnctl failed: " +:+ strerror (w_errno w4)));
                  c_free]).
    split.
    + autorewrite with trace. rewrite Htr.
      repeat (progress (rewrite <- ?app_assoc; simpl)). reflexivity.
    + rewrite memory_after_app, Hmem. reflexivity.
  - intros [= <- <-]. eexists. split; [exact Htr|]. exact Hmem.
Qed.

(** X15.  The calls of a request keep the discipline of the buffer, in their
    order: at most one allocation; every [read] stores into the buffer
    after it is allocated and before it is freed; [free] is called on an
    allocated buffer only, and at most once.  The buffer is still allocated
    at the end exactly when the handler receives it. *)
Theorem buffer_is_used_only_while_allocated (info : list value)
  (indet : bool) (w : world) (fd N : Z) :
  0 <= w_flags w ->
  Read info = Queued fd N ->
  exists r T st,
    posixRead info indet w = Some r
    /\ trace (after r) = trace w ++ T
    /\ memory_after NoBuffer T = Some st
    /\ (st = Live <-> exists b, callbacks r = [[VNull; VBuffer b]]).
Proof.
  intros Hfl HQ.
  destruct (Read_Queued_inv _ _ _ HQ) as (_ & _ & _ & _ & HN & _).
  destruct (Execute_spec w indet fd N Hfl) as (w' & k' & B & T0 & Hrun & _);
    [lia|].
  destruct (Execute_memory _ _ _ _ _ _ Hrun) as (T & HT & Hmem).
  unfold posixRead. rewrite HQ, Hrun.
  eexists _, T, _. split; [reflexivity|]. cbn [after callbacks].
  split; [exact HT|]. split; [exact Hmem|].
  unfold WorkComplete, ErrorMessage.
  destruct (errmsg k') as [m|].
  - unfold HandleErrorCallback. split.
    + destruct (w_malloc w); discriminate.
    + intros [b Hb]. discriminate.
  - split; [|reflexivity]. intros _. unfold HandleOKCallback. eauto.
Qed.

End BufferDiscipline.

(** ** The synchronous addon *)

Ltac settle_codes :=
  cbn [fst snd]; repeat split; intros; try reflexivity; try lia;
  try congruence;
  try (repeat match goal with H : _ /\ _ |- _ => destruct H end;
       (discriminate || congruence || lia)).

(** X16.  The synchronous addon and the worker accept the same sockets, and
    resolve them to the same descriptor: [get_fd_from_socket] returns a
    descriptor exactly when the object passes [LooksLikeASocket],
    [SocketIsReadable] and [GetFdFromSocket] of the worker's addon, and it
    is the descriptor that [GetFdFromSocket] returns.  Otherwise it
    returns a code from -4 to -1, and has thrown an exception itself
    exactly when the code is -4. *)
Theorem both_addons_accept_the_same_sockets (object : value) :
  (0 <= fst (Historic.get_fd_from_socket object) <->
   LooksLikeASocket object = true /\ SocketIsReadable object = true
   /\ GetFdFromSocket object <> -1)
  /\ (0 <= fst (Historic.get_fd_from_socket object) ->
      Historic.get_fd_from_socket object = (GetFdFromSocket object, None))
  /\ (fst (Historic.get_fd_from_socket object) < 0 ->
      -4 <= fst (Historic.get_fd_from_socket object) <= -1)
  /\ (snd (Historic.get_fd_from_socket object) <> None <->
      fst (Historic.get_fd_from_socket object) = -4).
Proof.
  unfold Historic.get_fd_from_socket, LooksLikeASocket, SocketIsReadable,
    GetFdFromSocket.
  destruct (IsObject object); cbn [negb]; [|settle_codes].
  destruct (strcmp "Socket" (GetConstructorName object) =? 0); cbn [negb];
    [|settle_codes].
  destruct (Has object "readable"); cbn [negb]; [|settle_codes].
  destruct (IsBoolean (Get object "readable")); cbn [negb orb andb];
    [|settle_codes].
  destruct (To_bool (Get object "readable")); cbn [negb]; [|settle_codes].
  destruct (Has object "_handle"); cbn [negb]; [|settle_codes].
  destruct (IsObject (Get object "_handle")); cbn [negb]; [|settle_codes].
  destruct (strcmp "TCP" (GetConstructorName (Get object "_handle")) =? 0);
    cbn [negb]; [|settle_codes].
  destruct (Has (Get object "_handle") "fd"); cbn [negb]; [|settle_codes].
  destruct (IsNumber (Get (Get object "_handle") "fd")); cbn [negb];
    [|settle_codes].
  destruct (Z.ltb_spec (To_int (Get (Get object "_handle") "fd")) 0);
    settle_codes.
Qed.

Section HistoricProperties.
Context {P : Platform}.

#[local] Hint Rewrite trace_pop_fcntl : trace.

Lemma historic_read_loop_S (fuel : nat) (w : world) (fd size : Z)
  (data : list Byte.byte) (count : Z) :
  Historic.read_loop (S fuel) w fd size data count
  = let '(n, bytes, w1) := sys_read w fd (wrap_size_t (size - count)) in
    if n =? -1 then
      if (w_errno w1 =? EINTR) || (w_errno w1 =? EAGAIN) then
        if count <? size then Historic.read_loop fuel w1 fd size data count
        else Some (w1, inr (data, count))
      else
        Some (w1, inl (snprintf_256
                         ("read failed: " +:+ strerror (w_errno w1))))
    else if n =? 0 then
      Some (w1, inl (snprintf_256
                       ("reached end of stream (read " +:+ fmt_lu count
                          +:+ " bytes)")))
    else
      let data := write_at data count bytes in
      let count := wrap_size_t (count + n) in
      if count <? size then Historic.read_loop fuel w1 fd size data count
      else Some (w1, inr (data, count)).
Proof. reflexivity. Qed.

(** What the loop of the synchronous addon does on a script: [B] are the
    bytes it takes off the descriptor, [T] the calls it makes. *)
Lemma historic_read_loop_spec (fuel : nat) (w : world) (fd size : Z)
  (data : list Byte.byte) (count : Z) :
  (PosixReadWorker.script_weight (w_input w) < fuel)%nat ->
  0 <= count < size -> size < 2 ^ 64 ->
  (Z.to_nat count <= length data)%nat ->
  exists w' res B T,
    Historic.read_loop fuel w fd size data count = Some (w', res)
    /\ pending_bytes (w_input w) = B ++ pending_bytes (w_input w')
    /\ trace w' = trace w ++ T
    /\ w_flags w' = w_flags w
    /\ w_fcntl w' = w_fcntl w
    /\ forallb is_read T = true
    /\ match historic_verdict (w_input w) (size - count) count with
       | Enough =>
           res = inr (write_at data count B, size)
           /\ count + Z.of_nat (length B) = size
       | Fails e got =>
           res = inl (snprintf_256 ("read failed: " +:+ strerror e))
           /\ got = count + Z.of_nat (length B) /\ got < size
       | Closes got =>
           res = inl ("reached end of stream (read " +:+ fmt_lu got
                        +:+ " bytes)")
           /\ got = count + Z.of_nat (length B) /\ got < size
       end.
Proof.
  revert w data count.
  induction fuel as [|fuel IH]; intros w data count Hfuel Hcount Hsize Hdata;
    [lia|].
  rewrite historic_read_loop_S.
  rewrite (wrap_size_t_small (size - count)) by lia.
  set (len := size - count) in *.
  destruct (w_input w) as [|[b bs|e] rest] eqn:Hin.
  - (* the peer has closed *)
    rewrite (sys_read_closed _ _ _ Hin). cbv beta iota zeta.
    change (0 =? -1) with false. change (0 =? 0) with true.
    cbv beta iota zeta. rewrite eof_message_fits.
    eexists _, _, [], [c_read fd len 0].
    split; [reflexivity|]. split; [simpl; now rewrite Hin|].
    split; [now trace_norm|]. do 3 (split; [reflexivity|]).
    cbn [historic_verdict]. split; [reflexivity|]. simpl. lia.
  - (* a segment has arrived *)
    rewrite (sys_read_chunk _ _ _ _ _ _ Hin). cbv beta iota zeta.
    set (got := take (Z.to_nat len) (b :: bs)).
    set (n := Z.of_nat (length got)).
    assert (Hmin : n = Z.of_nat (Nat.min (Z.to_nat len) (S (length bs)))).
    { subst n got. now rewrite length_take. }
    assert (Hn : 1 <= n <= len /\ n <= Z.of_nat (S (length bs))) by lia.
    destruct (Z.eqb_spec n (-1)) as [|_]; [lia|].
    destruct (Z.eqb_spec n 0) as [|_]; [lia|].
    rewrite (wrap_size_t_small (count + n)) by lia.
    pose proof (chunk_split (Z.to_nat len) b bs rest) as Hsplit.
    fold got in Hsplit.
    cbn [historic_verdict].
    destruct (Z.ltb_spec (count + n) size) as [Hlt|Hge].
    + (* a short read: the whole segment, and the loop goes on *)
      assert (Hdrop : drop (Z.to_nat len) (b :: bs) = []).
      { apply drop_ge. simpl length. lia. }
      rewrite Hdrop in *.
      destruct (IH (log_call (c_read fd len n) (set_input rest w))
                  (write_at data count got) (count + n))
        as (w' & res & B & T & Hrun & Hpend & Htr & Hflags & Hfc & Hreads
              & Hend).
      { simpl. unfold PosixReadWorker.script_weight, pending_bytes in *.
        simpl in Hfuel. rewrite length_app in Hfuel. lia. }
      { lia. }
      { exact Hsize. }
      { subst n. pose proof (write_at_length data count got Hdata). lia. }
      exists w', res, (got ++ B), (c_read fd len n :: T).
      split; [exact Hrun|]. simpl in Hpend, Hflags, Hfc.
      split.
      { unfold pending_bytes at 1. simpl.
        rewrite <- app_assoc, <- Hpend. exact Hsplit. }
      split; [rewrite Htr; now trace_norm|].
      do 2 (split; [assumption|]). split; [exact Hreads|].
      destruct (Z.leb_spec len (Z.of_nat (S (length bs)))); [lia|].
      assert (Hnn : n = Z.of_nat (S (length bs))) by lia.
      rewrite <- Hnn.
      replace (len - n) with (size - (count + n)) by (subst len; lia).
      cbn [set_input w_input log_call] in Hend.
      destruct (historic_verdict rest (size - (count + n)) (count + n))
        as [|e got'|got'].
      * destruct Hend as [-> Hl]. rewrite length_app. split; [|lia].
        f_equal. f_equal. subst n. now apply write_at_write_at; lia.
      * destruct Hend as (-> & Hg & Hl). rewrite length_app.
        split; [reflexivity|lia].
      * destruct Hend as (-> & Hg & Hl). rewrite length_app.
        split; [reflexivity|lia].
    + (* the buffer is full *)
      eexists _, _, got, [c_read fd len n].
      split; [reflexivity|].
      split; [simpl; unfold pending_bytes at 1; simpl; exact Hsplit|].
      split; [now trace_norm|]. do 3 (split; [reflexivity|]).
      destruct (Z.leb_spec len (Z.of_nat (S (length bs)))); [|lia].
      split; [|lia]. do 2 f_equal. lia.
  - (* a call that fails *)
    rewrite (sys_read_fail _ _ _ _ _ Hin). cbv beta iota zeta.
    change (-1 =? -1) with true. cbv beta iota zeta.
    change (w_errno (log_call (c_read fd len (-1))
                       (set_errno e (set_input rest w)))) with e.
    cbn [historic_verdict].
    destruct ((e =? EINTR) || (e =? EAGAIN)).
    + (* passed over: the test of the condition, then the next call *)
      destruct (Z.ltb_spec count size) as [_|]; [|lia].
      destruct (IH (log_call (c_read fd len (-1))
                      (set_errno e (set_input rest w))) data count)
        as (w' & res & B & T & Hrun & Hpend & Htr & Hflags & Hfc & Hreads
              & Hend); try assumption.
      { simpl. unfold PosixReadWorker.script_weight, pending_bytes in *.
        simpl in Hfuel. simpl. lia. }
      exists w', res, B, (c_read fd len (-1) :: T).
      split; [exact Hrun|]. split; [exact Hpend|].
      split; [rewrite Htr; now trace_norm|].
      do 2 (split; [assumption|]). split; [exact Hreads|]. exact Hend.
    + eexists _, _, [], [c_read fd len (-1)].
      split; [reflexivity|]. split; [reflexivity|].
      split; [now trace_norm|]. do 3 (split; [reflexivity|]).
      split; [reflexivity|]. simpl. lia.
Qed.

Lemma reads_are_no_fcntl (T : list call) :
  forallb is_read T = true ->
  count_calls is_getfl T = 0%nat /\ count_calls is_setfl_nonblock T = 0%nat.
Proof.
  induction T as [|c T IH]; [now split|].
  destruct c; simpl; try discriminate. exact IH.
Qed.

(** The synchronous [Read] once its checks and its guard have passed. *)
Lemma historic_Read_spec (info : list value) (w : world) (fd N : Z) :
  (2 <= length info)%nat ->
  Historic.get_fd_from_socket (arg info 0) = (fd, None) -> 0 <= fd ->
  IsNumber (arg info 1) = true -> To_int (arg info 1) = N -> 0 < N ->
  0 <= w_flags w ->
  fcntl_fails w 0 = None ->
  (nonblocking (w_flags w) = true -> fcntl_fails w 1 = None) ->
  exists res w' B T,
    Historic.Read info w = Some (res, w')
    /\ pending_bytes (w_input w) = B ++ pending_bytes (w_input w')
    /\ trace w' = trace w ++ T
    /\ count_calls is_getfl T = 1%nat
    /\ match historic_verdict (w_input w) N 0 with
       | Enough =>
           Z.of_nat (length B) = N
           /\ match (if nonblocking (w_flags w) then fcntl_fails w 2
                     else None) with
              | Some e =>
                  res = Historic.Exited
                  /\ w_flags w' = Z.land (w_flags w) (Z.lnot O_NONBLOCK)
              | None =>
                  res = Historic.Returned (VBuffer B)
                  /\ w_flags w' = w_flags w
              end
       | Fails e got =>
           res = Historic.Threw "Error"
                   (snprintf_256 ("read failed: " +:+ strerror e))
           /\ got = Z.of_nat (length B) /\ got < N
           /\ w_flags w' = Z.land (w_flags w) (Z.lnot O_NONBLOCK)
           /\ count_calls is_setfl_nonblock T = 0%nat
       | Closes got =>
           res = Historic.Threw "Error"
                   ("reached end of stream (read " +:+ fmt_lu got
                      +:+ " bytes)")
           /\ got = Z.of_nat (length B) /\ got < N
           /\ w_flags w' = Z.land (w_flags w) (Z.lnot O_NONBLOCK)
           /\ count_calls is_setfl_nonblock T = 0%nat
       end.
Proof.
  intros Hlen Hfd Hfd0 Hnum HN Hpos Hfl H0 H1.
  pose proof (To_int_range (arg info 1)) as Hr. rewrite HN in Hr.
  unfold Historic.Read.
  destruct (Nat.ltb_spec (length info) 2) as [|_]; [lia|].
  rewrite Hfd. cbv beta iota zeta.
  destruct (Z.ltb_spec fd 0) as [|_]; [lia|].
  rewrite Hnum, HN. cbn [negb orb].
  destruct (Z.leb_spec N 0) as [|_]; [lia|].
  rewrite (wrap_size_t_small N) by lia.
  unfold wrap_uint32. rewrite (Z.mod_small N) by lia.
  set (data := map (w_junk w) (seq 0 (Z.to_nat N))).
  assert (Hdata : length data = Z.to_nat N)
    by (subst data; now rewrite length_map, length_seq).
  unfold fcntl_getfl, next_fcntl. rewrite H0.
  change (w_flags (pop_fcntl w)) with (w_flags w).
  destruct (Z.ltb_spec (w_flags w) 0) as [|_]; [lia|].
  cbv beta iota zeta.
  change (negb (Z.land (w_flags w) O_NONBLOCK =? 0))
    with (nonblocking (w_flags w)).
  destruct (nonblocking (w_flags w)) eqn:Hnb.
  - (* the descriptor was non-blocking *)
    unfold fcntl_setfl at 1. unfold next_fcntl.
    change (fcntl_fails (log_call (c_fcntl_getfl fd (w_flags w)) (pop_fcntl w)) 0)
      with (fcntl_fails (pop_fcntl w) 0).
    rewrite fcntl_fails_pop, (H1 eq_refl).
    change (0 <? 0) with false. cbv beta iota zeta.
    set (w2 := log_call (c_fcntl_setfl _ _ _) _).
    destruct (historic_read_loop_spec
                (S (PosixReadWorker.script_weight (w_input w2))) w2 fd N data 0)
      as (w3 & res & B & T & Hrun & Hpend & Htr & Hflags & Hfc & Hreads
            & Hend); [lia|lia|lia|simpl; lia|].
    rewrite Hrun. clear Hrun.
    destruct (reads_are_no_fcntl T Hreads) as [Hget Hset].
    change (w_input w2) with (w_input w) in *.
    change (w_flags w2) with (Z.land (w_flags w) (Z.lnot O_NONBLOCK)) in *.
    assert (Htr2 : trace w3
                   = trace w
                       ++ [c_fcntl_getfl fd (w_flags w);
                           c_fcntl_setfl fd
                             (Z.land (w_flags w) (Z.lnot O_NONBLOCK)) 0] ++ T).
    { rewrite Htr. subst w2. now trace_norm. }
    assert (Hcleared : count_calls is_setfl_nonblock
                         ([c_fcntl_getfl fd (w_flags w);
                           c_fcntl_setfl fd
                             (Z.land (w_flags w) (Z.lnot O_NONBLOCK)) 0] ++ T)
                       = 0%nat).
    { rewrite count_calls_app, Hset. simpl. now rewrite land_cleared. }
    rewrite Z.sub_0_r in Hend.
    destruct (historic_verdict (w_input w) N 0) as [|e got|got].
    + destruct Hend as [-> HB].
      rewrite write_at_all by lia.
      unfold fcntl_setfl, next_fcntl.
      assert (Hf2 : fcntl_fails w3 0 = fcntl_fails w 2).
      { unfold fcntl_fails. rewrite Hfc.
        change (default None (w_fcntl w2 !! 0%nat))
          with (fcntl_fails (pop_fcntl (pop_fcntl w)) 0).
        now rewrite !fcntl_fails_pop. }
      rewrite Hf2.
      destruct (fcntl_fails w 2) as [e|].
      * change (-1 <? 0) with true. cbv beta iota zeta.
        eexists _, _, B, _. split; [reflexivity|].
        split; [exact Hpend|].
        split; [trace_norm; rewrite Htr2; now rewrite <- !app_assoc|].
        split; [rewrite !count_calls_app, Hget; reflexivity|].
        split; [lia|]. split; [reflexivity|]. exact Hflags.
      * change (0 <? 0) with false. cbv beta iota zeta.
        eexists _, _, B, _. split; [reflexivity|].
        split; [exact Hpend|].
        split; [trace_norm; rewrite Htr2; now rewrite <- !app_assoc|].
        split; [rewrite !count_calls_app, Hget; reflexivity|].
        split; [lia|]. split; [reflexivity|]. now apply lor_cleared.
    + destruct Hend as (-> & Hg & Hl).
      eexists _, _, B, _. split; [reflexivity|].
      split; [exact Hpend|]. split; [exact Htr2|].
      split; [rewrite count_calls_app, Hget; reflexivity|].
      repeat split; try assumption; lia.
    + destruct Hend as (-> & Hg & Hl).
      eexists _, _, B, _. split; [reflexivity|].
      split; [exact Hpend|]. split; [exact Htr2|].
      split; [rewrite count_calls_app, Hget; reflexivity|].
      repeat split; try assumption; lia.
  - (* the descriptor was blocking *)
    set (w2 := log_call (c_fcntl_getfl _ _) _).
    destruct (historic_read_loop_spec
                (S (PosixReadWorker.script_weight (w_input w2))) w2 fd N data 0)
      as (w3 & res & B & T & Hrun & Hpend & Htr & Hflags & Hfc & Hreads
            & Hend); [lia|lia|lia|simpl; lia|].
    rewrite Hrun. clear Hrun.
    destruct (reads_are_no_fcntl T Hreads) as [Hget Hset].
    change (w_input w2) with (w_input w) in *.
    change (w_flags w2) with (w_flags w) in *.
    rewrite (land_lnot_blocking _ Hnb).
    assert (Htr2 : trace w3 = trace w ++ [c_fcntl_getfl fd (w_flags w)] ++ T).
    { rewrite Htr. subst w2. now trace_norm. }
    rewrite Z.sub_0_r in Hend.
    destruct (historic_verdict (w_input w) N 0) as [|e got|got].
    + destruct Hend as [-> HB].
      rewrite write_at_all by lia.
      eexists _, _, B, _. split; [reflexivity|].
      split; [exact Hpend|]. split; [exact Htr2|].
      split; [rewrite count_calls_app, Hget; reflexivity|].
      split; [lia|]. split; [reflexivity|]. exact Hflags.
    + destruct Hend as (-> & Hg & Hl).
      eexists _, _, B, _. split; [reflexivity|].
      split; [exact Hpend|]. split; [exact Htr2|].
      split; [rewrite count_calls_app, Hget; reflexivity|].
      repeat split; try assumption; lia.
    + destruct Hend as (-> & Hg & Hl).
      eexists _, _, B, _. split; [reflexivity|].
      split; [exact Hpend|]. split; [exact Htr2|].
      split; [rewrite count_calls_app, Hget; reflexivity|].
      repeat split; try assumption; lia.
Qed.

Lemma historic_verdict_passed_over (evs : list event) (want got : Z) :
  only_passed_over evs -> 0 < want ->
  historic_verdict evs want got
  = if want <=? Z.of_nat (length (pending_bytes evs)) then Enough
    else Closes (got + Z.of_nat (length (pending_bytes evs))).
Proof.
  intros Hint. revert want got.
  induction Hint as [|[b bs|e] evs Hev Hint IH]; intros want got Hw.
  - unfold pending_bytes. cbn [historic_verdict map concat length].
    change (Z.of_nat 0) with 0.
    destruct (Z.leb_spec want 0); [lia|]. now rewrite Z.add_0_r.
  - unfold pending_bytes. cbn [historic_verdict map concat event_bytes].
    rewrite length_app.
    change (concat (map event_bytes evs)) with (pending_bytes evs).
    change (length (b :: bs)) with (S (length bs)).
    destruct (Z.leb_spec want (Z.of_nat (S (length bs)))) as [Hle|Hgt].
    + destruct (Z.leb_spec want
                  (Z.of_nat (S (length bs) + length (pending_bytes evs))));
        [reflexivity|lia].
    + rewrite IH by lia.
      destruct (Z.leb_spec (want - Z.of_nat (S (length bs)))
                  (Z.of_nat (length (pending_bytes evs))));
        destruct (Z.leb_spec want
                    (Z.of_nat (S (length bs) + length (pending_bytes evs))));
        try lia; [reflexivity|]. f_equal. lia.
  - cbn [historic_verdict].
    assert (Hpass : (e =? EINTR) || (e =? EAGAIN) = true).
    { destruct Hev as [-> | ->]; rewrite Z.eqb_refl;
        [reflexivity|apply orb_true_r]. }
    rewrite Hpass. rewrite IH by exact Hw. reflexivity.
Qed.

Lemma no_handle_code (object : value) :
  fst (Historic.get_fd_from_socket object) = -4 ->
  Historic.get_fd_from_socket object
  = (-4, Some ("TypeError", "socket has no handle")).
Proof.
  unfold Historic.get_fd_from_socket.
  repeat match goal with
         | |- context [if ?c then _ else _] => destruct c eqn:?
         end; cbn [fst]; intros H; try reflexivity; try discriminate.
  lia.
Qed.

(** X17.  The checks of the synchronous [Read], in their order: each failing
    check throws, with the kind and the message given, and nothing has been
    done to the descriptor.  The socket is checked before the size; a socket
    that is not readable or has no descriptor is answered by an exception,
    an [Error] and not a [TypeError]; a socket without a TCP handle by the
    TypeError "socket has no handle". *)
Theorem synchronous_checks_throw (info : list value) (w : world) :
  ((length info < 2)%nat ->
   Historic.Read info w
   = Some (Historic.Threw "TypeError" "wrong number of arguments", w))
  /\ ((2 <= length info)%nat ->
      (fst (Historic.get_fd_from_socket (arg info 0)) = -1 ->
       Historic.Read info w
       = Some (Historic.Threw "TypeError" "first argument should be a socket",
               w))
      /\ (fst (Historic.get_fd_from_socket (arg info 0)) = -2 ->
          Historic.Read info w
          = Some (Historic.Threw "Error" "socket file descriptor is invalid",
                  w))
      /\ (fst (Historic.get_fd_from_socket (arg info 0)) = -3 ->
          Historic.Read info w
          = Some (Historic.Threw "Error" "socket is not readable", w))
      /\ (fst (Historic.get_fd_from_socket (arg info 0)) = -4 ->
          Historic.Read info w
          = Some (Historic.Threw "TypeError" "socket has no handle", w))
      /\ (0 <= fst (Historic.get_fd_from_socket (arg info 0)) ->
          IsNumber (arg info 1) = false \/ To_int (arg info 1) <= 0 ->
          Historic.Read info w
          = Some (Historic.Threw "TypeError"
                    "second argument should be a positive integer", w))).
Proof.
  unfold Historic.Read. split.
  { intros Hlen. destruct (Nat.ltb_spec (length info) 2); [reflexivity|lia]. }
  intros Hlen. destruct (Nat.ltb_spec (length info) 2) as [|_]; [lia|].
  split; [|split; [|split; [|split]]].
  - destruct (Historic.get_fd_from_socket (arg info 0)) as [fd pending].
    cbn [fst]. intros ->. reflexivity.
  - destruct (Historic.get_fd_from_socket (arg info 0)) as [fd pending].
    cbn [fst]. intros ->. reflexivity.
  - destruct (Historic.get_fd_from_socket (arg info 0)) as [fd pending].
    cbn [fst]. intros ->. reflexivity.
  - intros H4. rewrite (no_handle_code _ H4). reflexivity.
  - destruct (Historic.get_fd_from_socket (arg info 0)) as [fd pending].
    cbn [fst]. intros Hfd Hsize.
    destruct (Z.ltb_spec fd 0) as [|_]; [lia|].
    destruct Hsize as [-> | Hle]; [reflexivity|].
    destruct (Z.leb_spec (To_int (arg info 1)) 0) as [_|]; [|lia].
    now rewrite orb_true_r.
Qed.

(** X18.  The synchronous addon waits through [EINTR] and [EAGAIN]: on a script
    whose failures are only of these two kinds and that holds at least N
    bytes, it returns a buffer of the first N bytes, leaves the rest on the
    descriptor, and gives the descriptor the flags it had. *)
Theorem synchronous_read_waits_through_EAGAIN (info : list value)
  (w : world) (fd N : Z) :
  (2 <= length info)%nat ->
  Historic.get_fd_from_socket (arg info 0) = (fd, None) -> 0 <= fd ->
  IsNumber (arg info 1) = true -> To_int (arg info 1) = N -> 0 < N ->
  0 <= w_flags w ->
  fcntl_fails w 0 = None -> fcntl_fails w 1 = None ->
  fcntl_fails w 2 = None ->
  only_passed_over (w_input w) ->
  N <= Z.of_nat (length (pending_bytes (w_input w))) ->
  exists w',
    Historic.Read info w
    = Some (Historic.Returned
              (VBuffer (take (Z.to_nat N) (pending_bytes (w_input w)))), w')
    /\ pending_bytes (w_input w')
       = drop (Z.to_nat N) (pending_bytes (w_input w))
    /\ w_flags w' = w_flags w.
Proof.
  intros Hlen Hfd Hfd0 Hnum HN Hpos Hfl H0 H1 H2 Hpass Hhas.
  destruct (historic_Read_spec info w fd N Hlen Hfd Hfd0 Hnum HN Hpos Hfl H0)
    as (res & w' & B & T & Hrun & Hpend & _ & _ & Hend); [now intros _|].
  rewrite historic_verdict_passed_over in Hend by assumption.
  destruct (Z.leb_spec N (Z.of_nat (length (pending_bytes (w_input w)))));
    [|lia].
  destruct Hend as [HB Hres]. rewrite H2 in Hres.
  assert (Hnone : (if nonblocking (w_flags w) then None else None)
                  = @None Z) by now destruct (nonblocking (w_flags w)).
  rewrite Hnone in Hres. destruct Hres as [-> Hflags].
  assert (HBn : length B = Z.to_nat N) by lia.
  exists w'. rewrite Hpend, <- HBn, take_app_length, drop_app_length.
  repeat split; assumption.
Qed.

(** X19.  On an error inside the loop (a [read] that fails for good, or the end
    of the stream before N bytes) the synchronous [Read] throws an [Error]
    and returns at once, past the code that sets [O_NONBLOCK] again: no
    [F_SETFL] with [O_NONBLOCK] is issued, and the descriptor is left in
    blocking mode. *)
Theorem synchronous_error_exit_leaves_blocking_mode (info : list value)
  (w : world) (fd N : Z) :
  (2 <= length info)%nat ->
  Historic.get_fd_from_socket (arg info 0) = (fd, None) -> 0 <= fd ->
  IsNumber (arg info 1) = true -> To_int (arg info 1) = N -> 0 < N ->
  0 <= w_flags w ->
  fcntl_fails w 0 = None -> fcntl_fails w 1 = None ->
  historic_verdict (w_input w) N 0 <> Enough ->
  exists w' B T,
    Historic.Read info w
    = Some (Historic.Threw "Error"
              match historic_verdict (w_input w) N 0 with
              | Fails e _ => snprintf_256 ("read failed: " +:+ strerror e)
              | _ => "reached end of stream (read "
                       +:+ fmt_lu (Z.of_nat (length B)) +:+ " bytes)"
              end, w')
    /\ trace w' = trace w ++ T
    /\ pending_bytes (w_input w) = B ++ pending_bytes (w_input w')
    /\ Z.of_nat (length B) < N
    /\ count_calls is_setfl_nonblock T = 0%nat
    /\ w_flags w' = Z.land (w_flags w) (Z.lnot O_NONBLOCK)
    /\ nonblocking (w_flags w') = false.
Proof.
  intros Hlen Hfd Hfd0 Hnum HN Hpos Hfl H0 H1 Hne.
  destruct (historic_Read_spec info w fd N Hlen Hfd Hfd0 Hnum HN Hpos Hfl H0)
    as (res & w' & B & T & Hrun & Hpend & Htr & _ & Hend); [now intros _|].
  exists w', B, T.
  destruct (historic_verdict (w_input w) N 0) as [|e got|got];
    [contradiction| |].
  - destruct Hend as (-> & Hg & Hl & Hflags & Hset).
    split; [exact Hrun|]. repeat split; try assumption; try lia.
    unfold nonblocking. now rewrite Hflags, land_cleared.
  - destruct Hend as (-> & Hg & Hl & Hflags & Hset). subst got.
    split; [exact Hrun|]. repeat split; try assumption; try lia.
    unfold nonblocking. now rewrite Hflags, land_cleared.
Qed.

(** X20.  A failing [fcntl] ends the process: [exit] after a failed [F_GETFL],
    with nothing else done; [exit] after a failed [F_SETFL] of the guard,
    with nothing read; and [exit] after a failed [F_SETFL] of the
    restoration, when the N bytes have been taken off the descriptor
    already and the descriptor is in blocking mode. *)
Theorem synchronous_fcntl_failure_exits (info : list value) (w : world)
  (fd N : Z) :
  (2 <= length info)%nat ->
  Historic.get_fd_from_socket (arg info 0) = (fd, None) -> 0 <= fd ->
  IsNumber (arg info 1) = true -> To_int (arg info 1) = N -> 0 < N ->
  0 <= w_flags w ->
  (forall e, fcntl_fails w 0 = Some e ->
     exists w',
       Historic.Read info w = Some (Historic.Exited, w')
       /\ trace w' = trace w ++ [c_fcntl_getfl fd (-1)]
       /\ w_input w' = w_input w /\ w_flags w' = w_flags w)
  /\ (forall e, fcntl_fails w 0 = None -> nonblocking (w_flags w) = true ->
       fcntl_fails w 1 = Some e ->
       exists w',
         Historic.Read info w = Some (Historic.Exited, w')
         /\ trace w'
            = trace w
                ++ [c_fcntl_getfl fd (w_flags w);
                    c_fcntl_setfl fd (Z.land (w_flags w) (Z.lnot O_NONBLOCK))
                      (-1)]
         /\ w_input w' = w_input w /\ w_flags w' = w_flags w)
  /\ (forall e, fcntl_fails w 0 = None -> nonblocking (w_flags w) = true ->
       fcntl_fails w 1 = None -> fcntl_fails w 2 = Some e ->
       historic_verdict (w_input w) N 0 = Enough ->
       exists w' B,
         Historic.Read info w = Some (Historic.Exited, w')
         /\ pending_bytes (w_input w) = B ++ pending_bytes (w_input w')
         /\ Z.of_nat (length B) = N
         /\ nonblocking (w_flags w') = false).
Proof.
  intros Hlen Hfd Hfd0 Hnum HN Hpos Hfl.
  pose proof (To_int_range (arg info 1)) as Hr. rewrite HN in Hr.
  split; [|split].
  - intros e H0. unfold Historic.Read.
    destruct (Nat.ltb_spec (length info) 2) as [|_]; [lia|].
    rewrite Hfd. cbv beta iota zeta.
    destruct (Z.ltb_spec fd 0) as [|_]; [lia|].
    rewrite Hnum, HN. cbn [negb orb].
    destruct (Z.leb_spec N 0) as [|_]; [lia|].
    unfold fcntl_getfl, next_fcntl. rewrite H0.
    change (-1 <? 0) with true. cbv beta iota zeta.
    eexists. split; [reflexivity|]. split; [now trace_norm|].
    split; reflexivity.
  - intros e H0 Hnb H1. unfold Historic.Read.
    destruct (Nat.ltb_spec (length info) 2) as [|_]; [lia|].
    rewrite Hfd. cbv beta iota zeta.
    destruct (Z.ltb_spec fd 0) as [|_]; [lia|].
    rewrite Hnum, HN. cbn [negb orb].
    destruct (Z.leb_spec N 0) as [|_]; [lia|].
    unfold fcntl_getfl, next_fcntl. rewrite H0.
    change (w_flags (pop_fcntl w)) with (w_flags w).
    destruct (Z.ltb_spec (w_flags w) 0) as [|_]; [lia|].
    cbv beta iota zeta.
    change (negb (Z.land (w_flags w) O_NONBLOCK =? 0))
      with (nonblocking (w_flags w)).
    rewrite Hnb. unfold fcntl_setfl, next_fcntl.
    change (fcntl_fails (log_call (c_fcntl_getfl fd (w_flags w)) (pop_fcntl w)) 0)
      with (fcntl_fails (pop_fcntl w) 0).
    rewrite fcntl_fails_pop, H1.
    change (-1 <? 0) with true. cbv beta iota zeta.
    eexists. split; [reflexivity|]. split; [now trace_norm|].
    split; reflexivity.
  - intros e H0 Hnb H1 H2 Hv.
    destruct (historic_Read_spec info w fd N Hlen Hfd Hfd0 Hnum HN Hpos Hfl H0)
      as (res & w' & B & T & Hrun & Hpend & _ & _ & Hend); [now intros _|].
    rewrite Hv, Hnb, H2 in Hend. destruct Hend as (HB & -> & Hflags).
    exists w', B. repeat split; try assumption.
    unfold nonblocking. now rewrite Hflags, land_cleared.
Qed.

End HistoricProperties.

(** ** The two addons side by side *)

Lemma get_fd_from_socket_accepts (object : value) :
  LooksLikeASocket object = true -> SocketIsReadable object = true ->
  GetFdFromSocket object <> -1 ->
  Historic.get_fd_from_socket object = (GetFdFromSocket object, None).
Proof.
  unfold Historic.get_fd_from_socket, LooksLikeASocket, SocketIsReadable,
    GetFdFromSocket.
  destruct (IsObject object); cbn [negb]; [|discriminate].
  destruct (strcmp "Socket" (GetConstructorName object) =? 0); cbn [negb];
    [|discriminate].
  intros _.
  destruct (Has object "readable"); cbn [negb]; [|discriminate].
  destruct (IsBoolean (Get object "readable")); cbn [negb orb andb];
    [|discriminate].
  destruct (To_bool (Get object "readable")); cbn [negb]; [|discriminate].
  intros _.
  destruct (Has object "_handle"); cbn [negb]; [|congruence].
  destruct (IsObject (Get object "_handle")); cbn [negb]; [|congruence].
  destruct (strcmp "TCP" (GetConstructorName (Get object "_handle")) =? 0);
    cbn [negb]; [|congruence].
  destruct (Has (Get object "_handle") "fd"); cbn [negb]; [|congruence].
  destruct (IsNumber (Get (Get object "_handle") "fd")); cbn [negb];
    [|congruence].
  destruct (To_int (Get (Get object "_handle") "fd") <? 0);
    [congruence|reflexivity].
Qed.

Lemma only_interrupted_passed_over {P : Platform} (evs : list event) :
  only_interrupted evs -> only_passed_over evs.
Proof.
  unfold only_interrupted, only_passed_over. intros H.
  eapply Forall_impl; [exact H|].
  intros [b bs|e]; [trivial|]. intros ->. now left.
Qed.

(** X21.  The worker kept what the synchronous addon returned: a call that the
    worker's [Read] accepts is accepted by the synchronous [Read], and when
    no call fails but for interrupted reads and the descriptor holds at
    least N bytes, the buffer that the completion handler receives is the
    buffer that the synchronous [Read] returns, and both leave the
    descriptor with the same bytes and the same flags. *)
Theorem both_addons_deliver_the_same_buffer {P : Platform}
  (info : list value) (indet : bool) (w : world) (fd N : Z) :
  0 <= w_flags w ->
  Read info = Queued fd N ->
  w_malloc w = None ->
  fcntl_fails w 0 = None -> fcntl_fails w 1 = None ->
  fcntl_fails w 2 = None -> fcntl_fails w 3 = None ->
  only_interrupted (w_input w) ->
  N <= Z.of_nat (length (pending_bytes (w_input w))) ->
  exists r w' b,
    posixRead info indet w = Some r
    /\ callbacks r = [[VNull; VBuffer b]]
    /\ Historic.Read info w = Some (Historic.Returned (VBuffer b), w')
    /\ b = take (Z.to_nat N) (pending_bytes (w_input w))
    /\ pending_bytes (w_input (after r)) = pending_bytes (w_input w')
    /\ w_flags (after r) = w_flags w'.
Proof.
  intros Hfl HQ Hm H0 H1 H2 H3 Hint Hhas.
  destruct (Read_Queued_inv _ _ _ HQ)
    as (Hlen & Hsock & Hnum & HN & Hpos & _ & Hreadable & Hfd & Hfd0).
  assert (Hacc : Historic.get_fd_from_socket (arg info 0) = (fd, None)).
  { rewrite Hfd. apply get_fd_from_socket_accepts; try assumption.
    rewrite <- Hfd. lia. }
  destruct (historic_Read_spec info w fd N ltac:(lia) Hacc Hfd0 Hnum
              (eq_sym HN) ltac:(lia) Hfl H0 (fun _ => H1))
    as (res & w' & B' & T' & Hrun' & Hpend' & _ & _ & Hend').
  rewrite historic_verdict_passed_over in Hend'
    by (try apply only_interrupted_passed_over; assumption || lia).
  destruct (posixRead_queued info indet w fd N Hfl HQ)
    as (w1 & k1 & B & T & Hrun & Hpost).
  pose proof (ep_pending _ _ _ _ _ _ _ Hpost) as Hpend.
  pose proof (ep_read _ _ _ _ _ _ _ Hpost) as Hread.
  pose proof (ep_flags _ _ _ _ _ _ _ Hpost) as Hflags.
  assert (Hending : ending_of w N
                    = LoopEnded Enough
                        (if nonblocking (w_flags w) then Restored
                         else NotNeeded)).
  { unfold ending_of. rewrite Hm, H0, H1, H2, H3.
    rewrite script_verdict_interrupted by (assumption || lia).
    destruct (Z.leb_spec N (Z.of_nat (length (pending_bytes (w_input w)))));
      [|lia].
    now destruct (nonblocking (w_flags w)). }
  rewrite Hending in Hrun, Hread, Hflags.
  destruct (Z.leb_spec N (Z.of_nat (length (pending_bytes (w_input w)))));
    [|lia].
  destruct Hend' as [HB' Hres]. rewrite H2 in Hres.
  assert (Hnone : (if nonblocking (w_flags w) then None else None)
                  = @None Z) by now destruct (nonblocking (w_flags w)).
  rewrite Hnone in Hres. destruct Hres as [-> Hflags'].
  assert (HBB : B = B' /\ pending_bytes (w_input w1)
                          = pending_bytes (w_input w')).
  { assert (HL : length B = length B') by lia.
    rewrite Hpend in Hpend'.
    pose proof (f_equal (take (length B)) Hpend') as Ht.
    rewrite take_app_length in Ht. rewrite HL in Ht.
    rewrite take_app_length in Ht. subst B'.
    split; [reflexivity|]. now apply app_inv_head in Hpend'. }
  destruct HBB as [<- Hrest].
  exists (Run None
            [expected_callback
               (LoopEnded Enough
                  (if nonblocking (w_flags w) then Restored else NotNeeded)) B]
            w1), w', B.
  split; [exact Hrun|]. cbn [callbacks after].
  split; [now destruct (nonblocking (w_flags w))|].
  split; [exact Hrun'|].
  split; [rewrite Hpend; replace (Z.to_nat N) with (length B) by lia;
          now rewrite take_app_length|].
  split; [exact Hrest|].
  rewrite Hflags, Hflags'. now destruct (nonblocking (w_flags w)).
Qed.

(** ** The restoration, the buffer and the handler, call by call *)

Section CallByCall.
Context {P : Platform}.
Import PosixReadWorker.

#[local] Hint Rewrite trace_pop_fcntl : trace.

Lemma UnsetBlocking_trace (w : world) (k : t) :
  0 <= w_flags w ->
  trace (snd (UnsetBlocking w k))
  = trace w
      ++ restoration_calls (fd k) (w_flags w)
           (restoration_of (fd_was_non_blocking k) w).
Proof.
  intros Hfl. unfold UnsetBlocking, restoration_of.
  destruct (fd_was_non_blocking k); [|simpl; now rewrite app_nil_r].
  unfold fcntl_getfl, fcntl_setfl, next_fcntl.
  destruct (fcntl_fails w 0) as [e|] eqn:H0.
  { change (-1 =? -1) with true. cbv beta iota zeta. cbn [snd].
    now trace_norm. }
  change (w_flags (pop_fcntl w)) with (w_flags w).
  destruct (Z.eqb_spec (w_flags w) (-1)) as [|_]; [lia|].
  cbv beta iota zeta.
  change (fcntl_fails (log_call (c_fcntl_getfl (fd k) (w_flags w)) (pop_fcntl w)) 0)
    with (fcntl_fails (pop_fcntl w) 0).
  rewrite fcntl_fails_pop.
  destruct (fcntl_fails w 1) as [e|] eqn:H1.
  - change (-1 =? -1) with true. cbv beta iota zeta. cbn [snd].
    now trace_norm.
  - change (0 =? -1) with false. cbv beta iota zeta. cbn [snd].
    now trace_norm.
Qed.

(** The loop is a do-while: its first call is a [read]. *)
Lemma read_loop_first_read (fuel : nat) (w : world) (k : t) (count : Z)
  (w' : world) (k' : t) (count' : Z) :
  read_loop fuel w k count = Some (w', k', count') ->
  errmsg k = None ->
  exists ret T,
    trace w'
    = trace w ++ c_read (fd k) (wrap_size_t (size k - count)) ret :: T.
Proof.
  destruct fuel as [|fuel]; [discriminate|]. intros Hrun Hmsg.
  rewrite read_loop_S in Hrun.
  destruct (sys_read w (fd k) (wrap_size_t (size k - count)))
    as [[n bytes] w1] eqn:Hread.
  apply sys_read_trace in Hread as [ret Ht].
  assert (Hgo : forall k1 c1,
             read_loop fuel w1 k1 c1 = Some (w', k', count') ->
             errmsg k1 = None ->
             exists ret T,
               trace w'
               = trace w
                   ++ c_read (fd k) (wrap_size_t (size k - count)) ret :: T).
  { intros k1 c1 H1 Hm1.
    destruct (read_loop_memory _ _ _ _ _ _ _ H1 Hm1) as (T & HT & _).
    exists ret, T. rewrite HT, Ht, <- app_assoc. reflexivity. }
  assert (Herr : forall p m c1,
             (let '(w2, k1) := record_error p m w1 k in
              Some (sys_free w2, k1, c1)) = Some (w', k', count') ->
             exists ret T,
               trace w'
               = trace w
                   ++ c_read (fd k) (wrap_size_t (size k - count)) ret :: T).
  { intros p m c1. unfold record_error. intros [= <- <- _].
    exists ret. eexists. trace_norm. rewrite Ht, <- app_assoc. reflexivity. }
  destruct (n =? -1).
  - destruct (w_errno w1 =? EINTR); [|now apply Herr in Hrun].
    destruct (count <? size k); [now apply Hgo in Hrun|].
    injection Hrun as <- <- _. exists ret, []. exact Ht.
  - destruct (n =? 0); [now apply Herr in Hrun|].
    cbv zeta in Hrun.
    destruct (wrap_size_t (count + n) <? size _).
    + now apply Hgo in Hrun.
    + injection Hrun as <- <- _. exists ret, []. exact Ht.
Qed.


(** The calls of [Execute] on a descriptor that it finds non-blocking and
    sets blocking, in their three phases: the allocation and the guard; the
    loop, from its first [read]; the restoration, and what follows it. *)
Lemma Execute_phases (w : world) (indet : bool) (d N : Z) (w' : world)
  (k' : t) :
  0 <= w_flags w -> 0 < N < 2 ^ 64 ->
  Execute w (new indet d N) = Some (w', k') ->
  w_malloc w = None -> fcntl_fails w 0 = None ->
  nonblocking (w_flags w) = true -> fcntl_fails w 1 = None ->
  exists ret Tl Te,
    trace w'
    = trace w
        ++ ([c_malloc N true; c_fcntl_getfl d (w_flags w);
             c_fcntl_setfl d (Z.land (w_flags w) (Z.lnot O_NONBLOCK)) 0]
              ++ c_read d N ret :: Tl)
        ++ restoration_calls d (Z.land (w_flags w) (Z.lnot O_NONBLOCK))
             match fcntl_fails w 2 with
             | Some e => GetflFailed e
             | None =>
                 match fcntl_fails w 3 with
                 | Some e => SetflFailed e
                 | None => Restored
                 end
             end
        ++ Te
    /\ count_calls is_getfl Tl = 0%nat
    /\ count_calls is_setfl_nonblock Tl = 0%nat
    /\ (Te = [] \/ exists m, Te = [c_SetErrorMessage m; c_free]).
Proof.
  intros Hfl HN HE Hm H0 Hnb H1. revert HE. unfold Execute, sys_malloc.
  change (size (new indet d N)) with N. rewrite Hm.
  set (k1 := set_data (map (w_junk w) (seq 0 (Z.to_nat N))) (new indet d N)).
  unfold SetBlocking, fcntl_getfl, next_fcntl.
  change (fcntl_fails (log_call (c_malloc N true) w) 0)
    with (fcntl_fails w 0).
  rewrite H0.
  change (w_flags (pop_fcntl (log_call (c_malloc N true) w)))
    with (w_flags w).
  destruct (Z.eqb_spec (w_flags w) (-1)) as [|_]; [lia|].
  cbv beta iota zeta.
  change (fd_was_non_blocking
            (set_fd_was_non_blocking
               (negb (Z.land (w_flags w) O_NONBLOCK =? 0)) k1))
    with (nonblocking (w_flags w)).
  change (negb (Z.land (w_flags w) O_NONBLOCK =? 0))
    with (nonblocking (w_flags w)).
  rewrite Hnb. unfold fcntl_setfl, next_fcntl.
  change (fcntl_fails
            (log_call (c_fcntl_getfl (fd k1) (w_flags w))
               (pop_fcntl (log_call (c_malloc N true) w))) 0)
    with (fcntl_fails (pop_fcntl w) 0).
  rewrite fcntl_fails_pop, H1.
  change (0 =? -1) with false. cbv beta iota zeta.
  change (negb (0 =? 0)) with false. cbv beta iota zeta.
  set (k2 := set_fd_was_non_blocking true k1).
  set (w2 := log_call _ _).
  assert (Hw2 : trace w2
                = trace w
                    ++ [c_malloc N true; c_fcntl_getfl d (w_flags w);
                        c_fcntl_setfl d
                          (Z.land (w_flags w) (Z.lnot O_NONBLOCK)) 0])
    by (subst w2; now trace_norm).
  destruct (read_loop_spec (S (script_weight (w_input w2))) w2 k2 0)
    as (w3 & k3 & c3 & B & T & Hrun & Hpost);
    [lia | change (size k2) with N; lia | change (size k2) with N; lia
    | simpl; lia |].
  rewrite Hrun.
  destruct (read_loop_first_read _ _ _ _ _ _ _ Hrun eq_refl)
    as (ret & Tl & Hfirst).
  change (fd k2) with d in Hfirst. change (size k2) with N in Hfirst.
  rewrite Z.sub_0_r, wrap_size_t_small in Hfirst by lia.
  pose proof (lp_trace _ _ _ _ _ _ _ _ Hpost) as HT.
  pose proof (lp_getfl _ _ _ _ _ _ _ _ Hpost) as Hget.
  pose proof (lp_setfl _ _ _ _ _ _ _ _ Hpost) as Hset.
  pose proof (lp_flags _ _ _ _ _ _ _ _ Hpost) as Hflags.
  pose proof (lp_fcntl _ _ _ _ _ _ _ _ Hpost) as Hfc.
  pose proof (lp_fd _ _ _ _ _ _ _ _ Hpost) as Hfd.
  pose proof (lp_was _ _ _ _ _ _ _ _ Hpost) as Hwas.
  rewrite HT in Hfirst. apply app_inv_head in Hfirst. subst T.
  cbn [count_calls is_getfl is_setfl_nonblock Nat.add] in Hget, Hset.
  change (fd k2) with d in Hfd. change (fd_was_non_blocking k2) with true in Hwas.
  change (w_flags w2) with (Z.land (w_flags w) (Z.lnot O_NONBLOCK)) in Hflags.
  pose proof (UnsetBlocking_trace w3 k3) as Hrest.
  rewrite Hflags, Hfd, Hwas in Hrest.
  assert (Hr : restoration_of true w3
               = match fcntl_fails w 2 with
                 | Some e => GetflFailed e
                 | None =>
                     match fcntl_fails w 3 with
                     | Some e => SetflFailed e
                     | None => Restored
                     end
                 end).
  { unfold restoration_of, fcntl_fails. rewrite Hfc.
    repeat match goal with
           | |- context [default None (w_fcntl w2 !! ?i)] =>
               change (default None (w_fcntl w2 !! i))
                 with (fcntl_fails (pop_fcntl (pop_fcntl w)) i)
           end.
    now rewrite !fcntl_fails_pop. }
  rewrite Hr in Hrest. specialize (Hrest (cleared_nonneg _ Hfl)).
  destruct (UnsetBlocking w3 k3) as [r4 w4]. cbn [snd] in Hrest.
  assert (Htr : trace w4
                = trace w
                    ++ ([c_malloc N true; c_fcntl_getfl d (w_flags w);
                         c_fcntl_setfl d
                           (Z.land (w_flags w) (Z.lnot O_NONBLOCK)) 0]
                          ++ c_read d N ret :: Tl)
                    ++ restoration_calls d
                         (Z.land (w_flags w) (Z.lnot O_NONBLOCK))
                         match fcntl_fails w 2 with
                         | Some e => GetflFailed e
                         | None =>
                             match fcntl_fails w 3 with
                             | Some e => SetflFailed e
                             | None => Restored
                             end
                         end).
  { rewrite Hrest, HT, Hw2, <- !app_assoc. reflexivity. }
  unfold ErrorMessage.
  destruct (negb (r4 =? 0)); [destruct (errmsg k3) as [m|]|].
  - intros [= <- <-]. exists ret, Tl, [].
    rewrite app_nil_r. repeat split; try assumption. now left.
  - unfold record_error. intros [= <- <-]. eexists ret, Tl, [_; _].
    split; [|repeat split; try assumption; right; eauto].
    autorewrite with trace. rewrite Htr, <- !app_assoc. reflexivity.
  - intros [= <- <-]. exists ret, Tl, [].
    rewrite app_nil_r. repeat split; try assumption. now left.
Qed.





(** C3, as the worker has it.  For every accepted request that found the
    descriptor non-blocking and cleared the flag, the calls of the request
    are, in this order: the allocation and the two [fcntl] calls of the
    guard; the loop, from its first [read] to its end, with no [fcntl]
    call; then the restoration, entered exactly once however the loop ended
    (full buffer, failed [read], end of the stream), and nothing after it
    but the error it makes when it fails.  No [read] comes after the
    restoration has begun.  The restoration begins with [F_GETFL], the
    second of the request; when that call succeeds, [F_SETFL] with
    [O_NONBLOCK] is issued exactly once and, when it succeeds too, the
    descriptor has its flags of before; when [F_GETFL] fails no [F_SETFL]
    follows, and after either failure the descriptor stays in blocking
    mode. *)
Theorem restoration_entered_once_on_every_exit (info : list value)
  (indet : bool) (w : world) (fd N : Z) (v : verdict) (r0 : restoration) :
  0 <= w_flags w ->
  Read info = Queued fd N ->
  nonblocking (w_flags w) = true ->
  ending_of w N = LoopEnded v r0 ->
  exists r T ret Tl Te,
    posixRead info indet w = Some r
    /\ trace (after r) = trace w ++ T
    /\ T = ([c_malloc N true; c_fcntl_getfl fd (w_flags w);
             c_fcntl_setfl fd (Z.land (w_flags w) (Z.lnot O_NONBLOCK)) 0]
              ++ c_read fd N ret :: Tl)
           ++ restoration_calls fd (Z.land (w_flags w) (Z.lnot O_NONBLOCK)) r0
           ++ Te
    /\ count_calls is_getfl Tl = 0%nat
    /\ count_calls is_setfl_nonblock Tl = 0%nat
    /\ count_calls is_read
         (restoration_calls fd (Z.land (w_flags w) (Z.lnot O_NONBLOCK)) r0
            ++ Te) = 0%nat
    /\ (Te = [] \/ exists m, Te = [c_SetErrorMessage m; c_free])
    /\ r0 <> NotNeeded
    /\ count_calls is_getfl T = 2%nat
    /\ count_calls is_setfl_nonblock T
       = match r0 with GetflFailed _ => 0%nat | _ => 1%nat end
    /\ (r0 = Restored -> w_flags (after r) = w_flags w)
    /\ (r0 <> Restored -> nonblocking (w_flags (after r)) = false).
Proof.
  intros Hfl HQ Hnb Hend.
  destruct (Read_Queued_inv _ _ _ HQ) as (_ & _ & _ & _ & HN & _).
  destruct (Execute_spec w indet fd N Hfl) as (w' & k' & B & T & Hrun & Hpost);
    [lia|].
  destruct (ending_of_LoopEnded _ _ _ _ Hend) as (Hm & H0 & _ & Hguard).
  assert (Hr0 : r0 <> NotNeeded
                /\ r0 = match fcntl_fails w 2 with
                        | Some e => GetflFailed e
                        | None =>
                            match fcntl_fails w 3 with
                            | Some e => SetflFailed e
                            | None => Restored
                            end
                        end).
  { revert Hend. unfold ending_of. rewrite Hm, H0, Hnb.
    destruct (fcntl_fails w 1); [discriminate|].
    intros [= _ <-]. split; [|reflexivity].
    destruct (fcntl_fails w 2); [discriminate|].
    destruct (fcntl_fails w 3); discriminate. }
  destruct Hr0 as [Hr0 Hr].
  destruct (Hguard Hr0) as [_ H1].
  destruct (Execute_phases w indet fd N w' k' Hfl ltac:(lia) Hrun Hm H0 Hnb H1)
    as (ret & Tl & Te & Htr & HgetTl & HsetTl & HTe).
  rewrite <- Hr in Htr.
  destruct Hpost as [Htr' _ _ _ _ _ _ _ _ _ _ _ _ Hget Hre Hflags].
  rewrite Hend in *.
  rewrite Htr' in Htr. apply app_inv_head in Htr.
  exists (Run None (WorkComplete k') w'), T, ret, Tl, Te.
  split; [unfold posixRead; now rewrite HQ, Hrun|]. cbn [after].
  split; [exact Htr'|]. split; [exact Htr|].
  split; [exact HgetTl|]. split; [exact HsetTl|].
  split.
  { destruct HTe as [->|[m ->]]; now destruct r0. }
  split; [exact HTe|]. split; [exact Hr0|].
  split; [rewrite Hget; now destruct r0|].
  split; [rewrite Hre; now destruct r0|].
  split.
  - intros ->. exact Hflags.
  - intros Hnr. rewrite Hflags.
    destruct r0; try contradiction; simpl;
      unfold nonblocking; now rewrite land_cleared.
Qed.



End CallByCall.

(** ** Further instances on Linux *)

Lemma SetBlocking_forces_blocking_mode_witness :
  0 <= w_flags world_alphabet
  /\ exists ret w' k',
       PosixReadWorker.SetBlocking (P:=linux) world_alphabet worker_10
       = (ret, w', k')
       /\ (ret = 0 \/ ret = -1)
       /\ (ret = 0 <->
           fcntl_fails world_alphabet 0 = None
           /\ (nonblocking (P:=linux) (w_flags world_alphabet) = true ->
               fcntl_fails world_alphabet 1 = None))
       /\ (ret = 0 ->
           w_flags w' = Z.land (w_flags world_alphabet) (Z.lnot 2048)
           /\ nonblocking (P:=linux) (w_flags w') = false
           /\ PosixReadWorker.fd_was_non_blocking k'
              = nonblocking (P:=linux) (w_flags world_alphabet))
       /\ (ret = 0 ->
           nonblocking (P:=linux) (w_flags world_alphabet) = false ->
           w_flags w' = w_flags world_alphabet
           /\ trace w'
              = trace world_alphabet
                  ++ [c_fcntl_getfl (PosixReadWorker.fd worker_10)
                        (w_flags world_alphabet)])
       /\ (ret = -1 -> w_flags w' = w_flags world_alphabet)
       /\ w_input w' = w_input world_alphabet
       /\ PosixReadWorker.errmsg k' = PosixReadWorker.errmsg worker_10
       /\ PosixReadWorker.error_prop k' = PosixReadWorker.error_prop worker_10
       /\ PosixReadWorker.data k' = PosixReadWorker.data worker_10
       /\ PosixReadWorker.size k' = PosixReadWorker.size worker_10
       /\ PosixReadWorker.fd k' = PosixReadWorker.fd worker_10.
Proof.
  split; [simpl; lia|].
  apply (SetBlocking_forces_blocking_mode (P:=linux) world_alphabet
           worker_10).
  simpl; lia.
Defined.

Lemma guard_round_trip_witness :
  0 <= w_flags world_alphabet
  /\ fcntl_fails world_alphabet 0 = None
  /\ fcntl_fails world_alphabet 1 = None
  /\ fcntl_fails world_alphabet 2 = None
  /\ fcntl_fails world_alphabet 3 = None
  /\ PosixReadWorker.SetBlocking (P:=linux) world_alphabet worker_10
     = (0, world_alphabet_guarded, worker_10_guarded)
  /\ exists w3,
       PosixReadWorker.UnsetBlocking (P:=linux) world_alphabet_guarded
         worker_10_guarded = (0, w3)
       /\ w_flags w3 = w_flags world_alphabet
       /\ w_input w3 = w_input world_alphabet_guarded.
Proof.
  split; [simpl; lia|]. do 4 (split; [reflexivity|]).
  split; [vm_compute; reflexivity|].
  apply (proj2 (guard_round_trip (P:=linux) world_alphabet worker_10 0
                  world_alphabet_guarded worker_10_guarded
                  world_alphabet_guarded worker_10_guarded
                  ltac:(simpl; lia) eq_refl eq_refl eq_refl eq_refl
                  ltac:(vm_compute; reflexivity) eq_refl eq_refl eq_refl)).
Defined.

Lemma Read_throws_TypeErrors_in_order_witness :
  length (request (tcp_socket true 7) 10 ++ [VUndefined]) <> 3%nat
  /\ Read (request (tcp_socket true 7) 10 ++ [VUndefined])
     = Thrown "TypeError" "wrong number of arguments".
Proof.
  split; [discriminate|].
  apply (proj1 (Read_throws_TypeErrors_in_order (P:=linux)
                  (request (tcp_socket true 7) 10 ++ [VUndefined]) false
                  world_alphabet)).
  discriminate.
Defined.

Lemma only_the_constructor_name_is_checked_witness :
  c_str ("Socket" +:+ String zero "Impostor") = "Socket"
  /\ IsNumber (VNumber (Fin 10)) = true
  /\ 0 < To_int (VNumber (Fin 10))
  /\ IsFunction a_callback = true
  /\ posixRead (P:=linux)
       [VObject ("Socket" +:+ String zero "Impostor") ∅; VNumber (Fin 10);
        a_callback] false world_alphabet
     = Some (Run None
               [[ErrorWithProperty "badStream" "socket is not readable"]]
               world_alphabet).
Proof.
  split; [reflexivity|]. split; [reflexivity|]. split; [reflexivity|].
  split; [reflexivity|].
  apply (proj2 (proj2 (proj2 (only_the_constructor_name_is_checked (P:=linux)
                                VUndefined))));
    reflexivity.
Defined.

Lemma descriptor_is_resolved_exactly_witness :
  0 <= 7 < 2 ^ 31 /\ GetFdFromSocket (tcp_socket true 7) = 7.
Proof.
  split; [lia|].
  apply (proj2 (descriptor_is_resolved_exactly (tcp_socket true 7))
           "Socket"
           (<["readable" := VBool true]>
              {["_handle" := VObject "TCP" {["fd" := VNumber (Fin 7)]}]})
           {["fd" := VNumber (Fin 7)]} 7);
    [reflexivity | vm_compute; reflexivity | vm_compute; reflexivity | lia].
Defined.

Lemma size_is_taken_modulo_2_32_witness :
  2 ^ 31 <= 2 ^ 31 <= 2 ^ 32
  /\ LooksLikeASocket (tcp_socket true 7) = true
  /\ Read [tcp_socket true 7; VNumber (Fin (inject_Z (2 ^ 31))); a_callback]
     = Thrown "TypeError" "second argument should be a positive integer".
Proof.
  split; [lia|]. split; [reflexivity|].
  apply (proj1 (proj2 (size_is_taken_modulo_2_32 (tcp_socket true 7)
                         a_callback)));
    [lia | reflexivity].
Defined.


Lemma read_loop_fills_the_buffer_in_order_witness :
  (PosixReadWorker.script_weight (w_input world_alphabet) < 30)%nat
  /\ 0 <= 0 < PosixReadWorker.size worker_10
  /\ PosixReadWorker.size worker_10 < 2 ^ 64
  /\ length (PosixReadWorker.data worker_10)
     = Z.to_nat (PosixReadWorker.size worker_10)
  /\ PosixReadWorker.errmsg worker_10 = None
  /\ exists w' k' count' B,
       PosixReadWorker.read_loop (P:=linux) 30 world_alphabet worker_10 0
       = Some (w', k', count')
       /\ 0 <= count' <= PosixReadWorker.size worker_10
       /\ count' = 0 + Z.of_nat (length B)
       /\ pending_bytes (w_input world_alphabet)
          = B ++ pending_bytes (w_input w')
       /\ length (PosixReadWorker.data k')
          = length (PosixReadWorker.data worker_10)
       /\ take (Z.to_nat 0) (PosixReadWorker.data k')
          = take (Z.to_nat 0) (PosixReadWorker.data worker_10)
       /\ take (length B) (drop (Z.to_nat 0) (PosixReadWorker.data k')) = B
       /\ drop (Z.to_nat count') (PosixReadWorker.data k')
          = drop (Z.to_nat count') (PosixReadWorker.data worker_10)
       /\ (count' = PosixReadWorker.size worker_10
           <-> PosixReadWorker.errmsg k' = None)
       /\ w_flags w' = w_flags world_alphabet.
Proof.
  split; [vm_compute; lia|]. split; [simpl; lia|]. split; [simpl; lia|].
  split; [reflexivity|]. split; [reflexivity|].
  apply (read_loop_fills_the_buffer_in_order (P:=linux) 30 world_alphabet
           worker_10 0);
    [vm_compute; lia | simpl; lia | simpl; lia | reflexivity | reflexivity].
Defined.

Lemma request_changes_no_other_flag_witness :
  0 <= w_flags world_digits_unrestorable
  /\ Read request_10 = Queued 7 10
  /\ exists r,
       posixRead (P:=linux) request_10 false world_digits_unrestorable
       = Some r
       /\ Z.land (w_flags (after r)) (Z.lnot 2048)
          = Z.land (w_flags world_digits_unrestorable) (Z.lnot 2048)
       /\ (nonblocking (P:=linux) (w_flags world_digits_unrestorable) = false ->
           w_flags (after r) = w_flags world_digits_unrestorable)
       /\ (fcntl_fails world_digits_unrestorable 2 = None ->
           fcntl_fails world_digits_unrestorable 3 = None ->
           w_flags (after r) = w_flags world_digits_unrestorable).
Proof.
  split; [simpl; lia|]. split; [vm_compute; reflexivity|].
  apply (request_changes_no_other_flag (P:=linux) request_10 false
           world_digits_unrestorable 7 10);
    [simpl; lia | vm_compute; reflexivity].
Defined.

Lemma malloc_failure_touches_nothing_witness :
  Read request_10 = Queued 7 10
  /\ w_malloc world_without_memory = Some 12
  /\ exists r,
       posixRead (P:=linux) request_10 false world_without_memory = Some r
       /\ raised r = None
       /\ callbacks r
          = [[ErrorWithProperty "systemError"
                (snprintf_256 ("malloc failed: " +:+ linux_strerror 12))]]
       /\ trace (after r)
          = trace world_without_memory
              ++ [c_malloc 10 false;
                  c_SetErrorMessage
                    (snprintf_256 ("malloc failed: " +:+ linux_strerror 12))]
       /\ w_input (after r) = w_input world_without_memory
       /\ w_flags (after r) = w_flags world_without_memory
       /\ w_fcntl (after r) = w_fcntl world_without_memory.
Proof.
  split; [vm_compute; reflexivity|]. split; [reflexivity|].
  apply (malloc_failure_touches_nothing (P:=linux) request_10 false
           world_without_memory 7 10 12);
    [vm_compute; reflexivity | reflexivity].
Defined.

Lemma guard_failure_reads_nothing_witness :
  0 <= w_flags world_bad_descriptor
  /\ Read request_10 = Queued 7 10
  /\ ending_of (P:=linux) world_bad_descriptor 10 = GuardFailed 9
  /\ exists r T,
       posixRead (P:=linux) request_10 false world_bad_descriptor = Some r
       /\ raised r = None
       /\ callbacks r
          = [[ErrorWithProperty "systemError"
                (snprintf_256 ("fnctl failed: " +:+ linux_strerror 9))]]
       /\ trace (after r) = trace world_bad_descriptor ++ T
       /\ count_calls is_read T = 0%nat
       /\ count_calls is_malloc T = 1%nat
       /\ count_calls is_free T = 1%nat
       /\ count_calls (is_setfl_nonblock (P:=linux)) T = 0%nat
       /\ w_input (after r) = w_input world_bad_descriptor
       /\ w_flags (after r) = w_flags world_bad_descriptor.
Proof.
  split; [simpl; lia|]. split; [vm_compute; reflexivity|].
  split; [vm_compute; reflexivity|].
  apply (guard_failure_reads_nothing (P:=linux) request_10 false
           world_bad_descriptor 7 10 9);
    [simpl; lia | vm_compute; reflexivity | vm_compute; reflexivity].
Defined.

Lemma chunking_of_the_stream_does_not_show_witness :
  0 <= w_flags world_alphabet
  /\ Read request_10 = Queued 7 10
  /\ only_interrupted (P:=linux) alphabet_at_once
  /\ only_interrupted (P:=linux) alphabet_in_two
  /\ pending_bytes alphabet_at_once = pending_bytes alphabet_in_two
  /\ exists r1 r2,
       posixRead (P:=linux) request_10 false
         (set_input alphabet_at_once world_alphabet) = Some r1
       /\ posixRead (P:=linux) request_10 false
            (set_input alphabet_in_two world_alphabet) = Some r2
       /\ raised r1 = raised r2
       /\ callbacks r1 = callbacks r2
       /\ w_flags (after r1) = w_flags (after r2)
       /\ pending_bytes (w_input (after r1))
          = pending_bytes (w_input (after r2)).
Proof.
  split; [simpl; lia|]. split; [vm_compute; reflexivity|].
  split; [repeat constructor|]. split; [repeat constructor|].
  split; [vm_compute; reflexivity|].
  apply (chunking_of_the_stream_does_not_show (P:=linux) request_10 false
           world_alphabet 7 10 alphabet_at_once alphabet_in_two);
    [simpl; lia | vm_compute; reflexivity | repeat constructor
    | repeat constructor | vm_compute; reflexivity].
Defined.

Lemma buffer_is_used_only_while_allocated_witness :
  0 <= w_flags world_digits
  /\ Read request_10 = Queued 7 10
  /\ exists r T st,
       posixRead (P:=linux) request_10 false world_digits = Some r
       /\ trace (after r) = trace world_digits ++ T
       /\ memory_after NoBuffer T = Some st
       /\ (st = Live <-> exists b, callbacks r = [[VNull; VBuffer b]]).
Proof.
  split; [simpl; lia|]. split; [vm_compute; reflexivity|].
  apply (buffer_is_used_only_while_allocated (P:=linux) request_10 false
           world_digits 7 10); [simpl; lia | vm_compute; reflexivity].
Defined.

Lemma synchronous_checks_throw_witness :
  (length [tcp_socket true 7] < 2)%nat
  /\ Historic.Read (P:=linux) [tcp_socket true 7] world_alphabet
     = Some (Historic.Threw "TypeError" "wrong number of arguments",
             world_alphabet).
Proof.
  split; [simpl; lia|].
  apply (proj1 (synchronous_checks_throw (P:=linux) [tcp_socket true 7]
                  world_alphabet)).
  simpl. lia.
Defined.

Lemma synchronous_read_waits_through_EAGAIN_witness :
  (2 <= length request_10)%nat
  /\ Historic.get_fd_from_socket (arg request_10 0) = (7, None)
  /\ 0 <= 7
  /\ IsNumber (arg request_10 1) = true
  /\ To_int (arg request_10 1) = 10
  /\ 0 < 10
  /\ 0 <= w_flags world_alphabet_later
  /\ fcntl_fails world_alphabet_later 0 = None
  /\ fcntl_fails world_alphabet_later 1 = None
  /\ fcntl_fails world_alphabet_later 2 = None
  /\ only_passed_over (P:=linux) (w_input world_alphabet_later)
  /\ 10 <= Z.of_nat (length (pending_bytes (w_input world_alphabet_later)))
  /\ exists w',
       Historic.Read (P:=linux) request_10 world_alphabet_later
       = Some (Historic.Returned
                 (VBuffer (take (Z.to_nat 10)
                             (pending_bytes (w_input world_alphabet_later)))),
               w')
       /\ pending_bytes (w_input w')
          = drop (Z.to_nat 10) (pending_bytes (w_input world_alphabet_later))
       /\ w_flags w' = w_flags world_alphabet_later.
Proof.
  split; [simpl; lia|]. split; [vm_compute; reflexivity|]. split; [lia|].
  split; [reflexivity|]. split; [vm_compute; reflexivity|]. split; [lia|].
  split; [simpl; lia|]. do 3 (split; [reflexivity|]).
  split; [repeat constructor; now right|]. split; [vm_compute; discriminate|].
  apply (synchronous_read_waits_through_EAGAIN (P:=linux) request_10
           world_alphabet_later 7 10);
    [ simpl; lia | vm_compute; reflexivity | lia | reflexivity
    | vm_compute; reflexivity | lia | simpl; lia | reflexivity | reflexivity
    | reflexivity | repeat constructor; now right | vm_compute; discriminate ].
Defined.

Lemma synchronous_error_exit_leaves_blocking_mode_witness :
  (2 <= length request_10)%nat
  /\ Historic.get_fd_from_socket (arg request_10 0) = (7, None)
  /\ 0 <= 7
  /\ IsNumber (arg request_10 1) = true
  /\ To_int (arg request_10 1) = 10
  /\ 0 < 10
  /\ 0 <= w_flags world_digits
  /\ fcntl_fails world_digits 0 = None
  /\ fcntl_fails world_digits 1 = None
  /\ historic_verdict (P:=linux) (w_input world_digits) 10 0 <> Enough
  /\ nonblocking (P:=linux) (w_flags world_digits) = true
  /\ exists w' B T,
       Historic.Read (P:=linux) request_10 world_digits
       = Some (Historic.Threw "Error"
                 match historic_verdict (P:=linux) (w_input world_digits) 10 0
                 with
                 | Fails e _ =>
                     snprintf_256 ("read failed: " +:+ linux_strerror e)
                 | _ => "reached end of stream (read "
                          +:+ fmt_lu (Z.of_nat (length B)) +:+ " bytes)"
                 end, w')
       /\ trace w' = trace world_digits ++ T
       /\ pending_bytes (w_input world_digits)
          = B ++ pending_bytes (w_input w')
       /\ Z.of_nat (length B) < 10
       /\ count_calls (is_setfl_nonblock (P:=linux)) T = 0%nat
       /\ w_flags w' = Z.land (w_flags world_digits) (Z.lnot 2048)
       /\ nonblocking (P:=linux) (w_flags w') = false.
Proof.
  split; [simpl; lia|]. split; [vm_compute; reflexivity|]. split; [lia|].
  split; [reflexivity|]. split; [vm_compute; reflexivity|]. split; [lia|].
  split; [simpl; lia|]. do 2 (split; [reflexivity|]).
  split; [vm_compute; discriminate|]. split; [reflexivity|].
  apply (synchronous_error_exit_leaves_blocking_mode (P:=linux) request_10
           world_digits 7 10);
    [ simpl; lia | vm_compute; reflexivity | lia | reflexivity
    | vm_compute; reflexivity | lia | simpl; lia | reflexivity | reflexivity
    | vm_compute; discriminate ].
Defined.

Lemma synchronous_fcntl_failure_exits_witness :
  (2 <= length request_10)%nat
  /\ Historic.get_fd_from_socket (arg request_10 0) = (7, None)
  /\ 0 <= 7
  /\ IsNumber (arg request_10 1) = true
  /\ To_int (arg request_10 1) = 10
  /\ 0 < 10
  /\ 0 <= w_flags world_bad_descriptor
  /\ fcntl_fails world_bad_descriptor 0 = Some 9
  /\ exists w',
       Historic.Read (P:=linux) request_10 world_bad_descriptor
       = Some (Historic.Exited, w')
       /\ trace w' = trace world_bad_descriptor ++ [c_fcntl_getfl 7 (-1)]
       /\ w_input w' = w_input world_bad_descriptor
       /\ w_flags w' = w_flags world_bad_descriptor.
Proof.
  split; [simpl; lia|]. split; [vm_compute; reflexivity|]. split; [lia|].
  split; [reflexivity|]. split; [vm_compute; reflexivity|]. split; [lia|].
  split; [simpl; lia|]. split; [reflexivity|].
  apply (proj1 (synchronous_fcntl_failure_exits (P:=linux) request_10
                  world_bad_descriptor 7 10 ltac:(simpl; lia)
                  ltac:(vm_compute; reflexivity) ltac:(lia) eq_refl
                  ltac:(vm_compute; reflexivity) ltac:(lia) ltac:(simpl; lia))
           9).
  reflexivity.
Defined.

Lemma both_addons_deliver_the_same_buffer_witness :
  0 <= w_flags world_alphabet
  /\ Read request_10 = Queued 7 10
  /\ w_malloc world_alphabet = None
  /\ fcntl_fails world_alphabet 0 = None
  /\ fcntl_fails world_alphabet 1 = None
  /\ fcntl_fails world_alphabet 2 = None
  /\ fcntl_fails world_alphabet 3 = None
  /\ only_interrupted (P:=linux) (w_input world_alphabet)
  /\ 10 <= Z.of_nat (length (pending_bytes (w_input world_alphabet)))
  /\ exists r w' b,
       posixRead (P:=linux) request_10 false world_alphabet = Some r
       /\ callbacks r = [[VNull; VBuffer b]]
       /\ Historic.Read (P:=linux) request_10 world_alphabet
          = Some (Historic.Returned (VBuffer b), w')
       /\ b = take (Z.to_nat 10) (pending_bytes (w_input world_alphabet))
       /\ pending_bytes (w_input (after r)) = pending_bytes (w_input w')
       /\ w_flags (after r) = w_flags w'.
Proof.
  split; [simpl; lia|]. split; [vm_compute; reflexivity|].
  do 5 (split; [reflexivity|]). split; [repeat constructor|].
  split; [vm_compute; discriminate|].
  apply (both_addons_deliver_the_same_buffer (P:=linux) request_10 false
           world_alphabet 7 10);
    [ simpl; lia | vm_compute; reflexivity | reflexivity | reflexivity
    | reflexivity | reflexivity | reflexivity | repeat constructor
    | vm_compute; discriminate ].
Defined.

(** ** Where the code departs from the wording of the interface, continued *)

(** The flag is not re-applied on every exit.  In the synchronous addon the
    end of the stream throws and returns past the code that sets
    [O_NONBLOCK] again: no [F_SETFL] with [O_NONBLOCK] is issued and the
    descriptor, non-blocking at entry, stays in blocking mode.  In the
    worker the restoration is entered, and when its [F_GETFL] fails (the
    loop having filled the buffer) no [F_SETFL] follows: the descriptor
    stays in blocking mode as well. *)
Lemma flag_is_not_reapplied_on_every_exit :
  nonblocking (P:=linux) (w_flags world_digits) = true
  /\ (exists w',
         Historic.Read (P:=linux) request_10 world_digits
         = Some (Historic.Threw "Error" "reached end of stream (read 9 bytes)",
                 w')
         /\ In (c_fcntl_setfl 7 2 0) (trace w')
         /\ count_calls (is_setfl_nonblock (P:=linux)) (trace w') = 0%nat
         /\ nonblocking (P:=linux) (w_flags w') = false)
  /\ nonblocking (P:=linux) (w_flags world_alphabet_unrestorable) = true
  /\ exists r,
       posixRead (P:=linux) request_10 false world_alphabet_unrestorable
       = Some r
       /\ In (c_fcntl_setfl 7 2 0) (trace (after r))
       /\ bytes_returned (trace (after r)) = 10
       /\ count_calls (is_setfl_nonblock (P:=linux)) (trace (after r)) = 0%nat
       /\ nonblocking (P:=linux) (w_flags (after r)) = false.
Proof.
  split; [reflexivity|]. split.
  { eexists. split; [vm_compute; reflexivity|].
    split; [vm_compute; tauto|]. split; reflexivity. }
  split; [reflexivity|].
  eexists. split; [vm_compute; reflexivity|].
  split; [vm_compute; tauto|]. repeat split.
Qed.

(** An [fd] of -1/2 is a negative number, and a descriptor is got from it:
    0, the conversion to int truncating towards zero.  The request is
    queued and served from descriptor 0; no badStream error is made. *)
Lemma negative_fd_is_taken_as_descriptor_0 :
  (-1 # 2 < 0)%Q
  /\ (forall kind message,
         Read (request (tcp_socket true (-1 # 2)) 10) <> Thrown kind message)
  /\ GetFdFromSocket (tcp_socket true (-1 # 2)) = 0
  /\ Read (request (tcp_socket true (-1 # 2)) 10) = Queued 0 10
  /\ exists r,
       posixRead (P:=linux) (request (tcp_socket true (-1 # 2)) 10) false
         world_alphabet = Some r
       /\ raised r = None
       /\ callbacks r = [[VNull; VBuffer (bytes_of "ABCDEFGHIJ")]]
       /\ In (c_read 0 10 10) (trace (after r)).
Proof.
  split; [reflexivity|].
  split; [intros kind message; vm_compute; discriminate|].
  split; [vm_compute; reflexivity|]. split; [vm_compute; reflexivity|].
  eexists. split; [vm_compute; reflexivity|].
  split; [reflexivity|]. split; [reflexivity|]. vm_compute. tauto.
Qed.


(** ** Instances on Linux: the order of the calls *)

Lemma restoration_entered_once_on_every_exit_witness :
  0 <= w_flags world_digits
  /\ Read request_10 = Queued 7 10
  /\ nonblocking (P:=linux) (w_flags world_digits) = true
  /\ ending_of (P:=linux) world_digits 10 = LoopEnded (Closes 9) Restored
  /\ exists r T ret Tl Te,
       posixRead (P:=linux) request_10 false world_digits = Some r
       /\ trace (after r) = trace world_digits ++ T
       /\ T = ([c_malloc 10 true; c_fcntl_getfl 7 (w_flags world_digits);
                c_fcntl_setfl 7
                  (Z.land (w_flags world_digits) (Z.lnot 2048)) 0]
                 ++ c_read 7 10 ret :: Tl)
              ++ restoration_calls (P:=linux) 7
                   (Z.land (w_flags world_digits) (Z.lnot 2048)) Restored
              ++ Te
       /\ count_calls is_getfl Tl = 0%nat
       /\ count_calls (is_setfl_nonblock (P:=linux)) Tl = 0%nat
       /\ count_calls is_read
            (restoration_calls (P:=linux) 7
               (Z.land (w_flags world_digits) (Z.lnot 2048)) Restored
               ++ Te) = 0%nat
       /\ (Te = [] \/ exists m, Te = [c_SetErrorMessage m; c_free])
       /\ Restored <> NotNeeded
       /\ count_calls is_getfl T = 2%nat
       /\ count_calls (is_setfl_nonblock (P:=linux)) T = 1%nat
       /\ (Restored = Restored -> w_flags (after r) = w_flags world_digits)
       /\ (Restored <> Restored ->
           nonblocking (P:=linux) (w_flags (after r)) = false).
Proof.
  split; [simpl; lia|]. split; [vm_compute; reflexivity|].
  split; [reflexivity|]. split; [vm_compute; reflexivity|].
  apply (restoration_entered_once_on_every_exit (P:=linux) request_10 false
           world_digits 7 10 (Closes 9) Restored);
    [simpl; lia | vm_compute; reflexivity | reflexivity
    | vm_compute; reflexivity].
Defined.


